(** * AllocatorBuilder: the free-list allocator, the statistics decorator
      and the non-atomic cell, embedded from the C++ sources

    Sources embedded here:
    - [src/alb/internal/noatomic.hpp]      ([NoAtomic])
    - [src/alb/freelist.hpp]               ([FreeList])
    - [src/include/ALBAllocatorWithStats.h] ([Stats])

    Conventions.  [size_t] is a 64-bit unsigned integer and [unsigned] a
    32-bit one; both are carried as [Z] with the wrap-around written out
    ([to_size_t], [to_unsigned]).  A pointer is the [Z] of its address and
    [nullptr] is [0].  A member function that mutates its object takes the
    object and returns it next to its result; a reference parameter
    ([block &b]) is returned next to the object as well.  The [BOOST_ASSERT]
    lines are compiled out ([NDEBUG]), so a violated assertion continues
    with the code that follows it. *)

From stdpp Require Import gmap list.
From Stdlib Require Import ZArith Lia Ascii.

Open Scope Z_scope.

(** ** Machine integers *)

Definition size_t_modulus : Z := 2 ^ 64.
Definition unsigned_modulus : Z := 2 ^ 32.

(** Conversion to [size_t] and to [unsigned]: reduction modulo the width. *)
Definition to_size_t (z : Z) : Z := z mod size_t_modulus.
Definition to_unsigned (z : Z) : Z := z mod unsigned_modulus.

(** [std::make_signed<size_t>::type]: the two's complement reading. *)
Definition to_ssize_t (z : Z) : Z :=
  let u := to_size_t z in
  if u <? 2 ^ 63 then u else u - size_t_modulus.

(** [static_cast<char *>(p) + k]: byte arithmetic on a 64-bit address. *)
Definition ptr_add (p k : Z) : Z := to_size_t (p + k).

(** ** Blocks *)

Module Block.

(** Modelled from the spec: the block value type of [allocator_base.hpp]
    ([ALBAllocatorBase.h]), which is not among the sources.  A block is a
    pointer and a length; the default-constructed block is the empty
    sentinel (null pointer, length 0); [reset] makes a block empty; the
    conversion to a boolean tells a non-empty block from the empty one
    (by its length, which on a block that satisfies the invariant is the
    same as testing its pointer). *)
Record t : Type := mk { ptr : Z; length : Z }.

Definition empty : t := mk 0 0.

Definition reset (b : t) : t := empty.

Definition to_bool (b : t) : bool := negb (length b =? 0).

(** The spec's invariant: the pointer is none iff the length is 0. *)
Definition invariant (b : t) : Prop := ptr b = 0 <-> length b = 0.

End Block.

(** ** The allocator capability contract

    What the decorators call on their delegate ([Allocator] template
    parameter): [allocate], [deallocate] (the block is passed by reference)
    and the static flag [supports_truncated_deallocation]. *)

Module Allocator.

Class ops (A : Type) : Type := {
  allocate : Z -> A -> Block.t * A;
  deallocate : Block.t -> A -> Block.t * A;
  supports_truncated_deallocation : bool
}.

(** A delegate that answers a request either with the empty block or with
    a block of exactly the requested length. *)
Definition exact {A} (Ops : ops A) : Prop :=
  forall n a, Block.to_bool (fst (allocate n a)) = true ->
              Block.length (fst (allocate n a)) = n.

End Allocator.

(** ** NoAtomic *)

Module NoAtomic.

Record t (T : Type) : Type := mk { _value : T }.
Arguments mk {T} _.
Arguments _value {T} _.

Definition load {T} (a : t T) : T := _value a.

(** [operator=(T v)] *)
Definition assign {T} (a : t T) (v : T) : t T := mk v.

(** [bool compare_exchange_strong(T &, T v)]: the result, the cell after
    the call, and the caller's [expected] variable after the call (the
    reference parameter is unnamed and never written). *)
Definition compare_exchange_strong {T} (a : t T) (expected v : T)
  : bool * t T * T :=
  (true, mk v, expected).

(** For comparison: what [std::atomic<T>::compare_exchange_strong] does
    (C++11 [atomics.types.operations]): store [v] and answer [true] when
    the cell holds [expected], otherwise leave the cell, load its value
    into [expected] and answer [false]. *)
Definition std_compare_exchange_strong {T} `{EqDecision T}
    (a : t T) (expected v : T) : bool * t T * T :=
  if decide (_value a = expected) then (true, mk v, expected)
  else (false, a, _value a).

End NoAtomic.

(** ** The slot pool *)

Module Stack.

(** Modelled from the spec: the fixed-capacity stack of
    [internal/stack.hpp] (and [boost::lockfree::stack] with a fixed
    capacity, in the shared configuration), which is not among the
    sources.  [push] answers [false] and stores nothing when the stack is
    at capacity; [pop] answers [false] when it is empty, and otherwise
    removes and yields the pointer pushed last.  The list holds the
    pointers, most recent first. *)
Definition t : Type := list Z.

Definition push (MaxSize : Z) (v : Z) (s : t) : bool * t :=
  if Z.of_nat (length s) <? MaxSize then (true, v :: s) else (false, s).

Definition pop (s : t) : option Z * t :=
  match s with
  | [] => (None, s)
  | v :: s' => (Some v, s')
  end.

End Stack.

(** ** The free-list allocator ([freelist_base]) *)

Module FreeList.

Record t (A : Type) : Type := mk {
  _allocator : A;
  _root : Stack.t;
  _lowerBound : Z;
  _upperBound : Z
}.
Arguments mk {A} _ _ _ _.
Arguments _allocator {A} _.
Arguments _root {A} _.
Arguments _lowerBound {A} _.
Arguments _upperBound {A} _.

Section freelist_base.
Context {A : Type} {Ops : Allocator.ops A}.
(** Template parameters [PoolSize] and [NumberOfBatchAllocations]
    (both [unsigned]). *)
Variables (PoolSize NumberOfBatchAllocations : Z).

(** [freelist_base(size_t minSize, size_t maxSize)] over a delegate in
    state [a]. *)
Definition create (a : A) (minSize maxSize : Z) : t A :=
  mk a [] minSize maxSize.

(** [void setMinMax(size_t minSize, size_t maxSize)] *)
Definition setMinMax (minSize maxSize : Z) (s : t A) : t A :=
  mk (_allocator s) (_root s) minSize maxSize.

(** [_root.push(p)] *)
Definition root_push (p : Z) (s : t A) : bool * t A :=
  let (ok, r) := Stack.push PoolSize p (_root s) in
  (ok, mk (_allocator s) r (_lowerBound s) (_upperBound s)).

(** [_root.pop(p)] *)
Definition root_pop (s : t A) : option Z * t A :=
  let (v, r) := Stack.pop (_root s) in
  (v, mk (_allocator s) r (_lowerBound s) (_upperBound s)).

(** [_allocator.allocate(n)] *)
Definition delegate_allocate (n : Z) (s : t A) : Block.t * t A :=
  let (b, a) := Allocator.allocate n (_allocator s) in
  (b, mk a (_root s) (_lowerBound s) (_upperBound s)).

(** [_allocator.deallocate(b)] *)
Definition delegate_deallocate (b : Block.t) (s : t A) : Block.t * t A :=
  let (b', a) := Allocator.deallocate b (_allocator s) in
  (b', mk a (_root s) (_lowerBound s) (_upperBound s)).

(** The loop of the truncating branch, lines 162-169:
    [for (size_t i = 1; i < NumberOfBatchAllocations; i++)], with
    [todo] iterations left to run from index [i]. *)
Fixpoint push_batch (todo : nat) (i : Z) (batch : Block.t) (blockSize : Z)
    (s : t A) : t A :=
  match todo with
  | O => s
  | S todo' =>
      let p := ptr_add (Block.ptr batch) (to_size_t (i * blockSize)) in
      let (ok, s1) := root_push p s in
      let s2 :=
        if ok then s1
        else snd (delegate_deallocate (Block.mk p blockSize) s1) in
      push_batch todo' (i + 1) batch blockSize s2
  end.

(** The loop of the other branch and the allocation after it, lines
    176-183: [for (size_t i = 0; i < NumberOfBatchAllocations - 1; i++)],
    with [todo] iterations left to run. *)
Fixpoint allocate_loop (todo : nat) (blockSize : Z) (s : t A)
    : Block.t * t A :=
  match todo with
  | O => delegate_allocate blockSize s
  | S todo' =>
      let (b, s1) := delegate_allocate blockSize s in
      let (ok, s2) := root_push (Block.ptr b) s1 in
      if ok then allocate_loop todo' blockSize s2 else (b, s2)
  end.

Definition in_bounds (n : Z) (s : t A) : bool :=
  (_lowerBound s <=? n) && (n <=? _upperBound s).

(** [block allocate(size_t n)] *)
Definition allocate (n : Z) (s : t A) : Block.t * t A :=
  if in_bounds n s then
    match root_pop s with
    | (Some freeBlock, s1) => (Block.mk freeBlock (_upperBound s1), s1)
    | (None, s1) =>
        let blockSize := _upperBound s1 in
        if Allocator.supports_truncated_deallocation then
          let (batchAllocatedBlocks, s2) :=
            delegate_allocate
              (to_size_t (blockSize * NumberOfBatchAllocations)) s1 in
          if Block.to_bool batchAllocatedBlocks then
            let s3 :=
              push_batch (Z.to_nat (NumberOfBatchAllocations - 1)) 1
                batchAllocatedBlocks blockSize s2 in
            (Block.mk (Block.ptr batchAllocatedBlocks) blockSize, s3)
          else delegate_allocate blockSize s2
        else
          allocate_loop
            (Z.to_nat (to_unsigned (NumberOfBatchAllocations - 1)))
            blockSize s1
    end
  else (Block.empty, s).

(** [bool owns(const block &b) const] *)
Definition owns (b : Block.t) (s : t A) : bool :=
  Block.to_bool b && (_lowerBound s <=? Block.length b)
  && (Block.length b <=? _upperBound s).

(** [void deallocate(block &b)] *)
Definition deallocate (b : Block.t) (s : t A) : Block.t * t A :=
  if Block.to_bool b && owns b s then
    let (ok, s1) := root_push (Block.ptr b) s in
    if ok then (Block.reset b, s1)
    else delegate_deallocate b s1
  else (b, s).

(** [~freelist_base()]: every pointer left in the pool goes back to the
    delegate as a block of the upper bound's length. *)
Fixpoint drain (pool : Stack.t) (upper : Z) (a : A) : A :=
  match pool with
  | [] => a
  | curBlock :: pool' =>
      drain pool' upper
        (snd (Allocator.deallocate (Block.mk curBlock upper) a))
  end.

Definition destroy (s : t A) : A :=
  drain (_root s) (_upperBound s) (_allocator s).

End freelist_base.

(** A free list is an allocator too, and can serve as a delegate. *)
Definition ops {A} (Ops : Allocator.ops A) (PoolSize N : Z)
    : Allocator.ops (t A) :=
  {| Allocator.allocate := allocate PoolSize N;
     Allocator.deallocate := deallocate PoolSize;
     Allocator.supports_truncated_deallocation :=
       Allocator.supports_truncated_deallocation |}.

End FreeList.

(** ** Delegates used to exercise the decorators *)

Module Spy.

(** A delegate wrapper that records the calls it receives, in order, and
    forwards them: the observer of "how many delegate calls, of what
    size". *)
Inductive call : Type :=
| Allocate (n : Z)
| Deallocate (b : Block.t).

Record t (A : Type) : Type := mk { inner : A; calls : list call }.
Arguments mk {A} _ _.
Arguments inner {A} _.
Arguments calls {A} _.

Definition allocate {A} {Ops : Allocator.ops A} (n : Z) (s : t A)
  : Block.t * t A :=
  let (b, a) := Allocator.allocate n (inner s) in
  (b, mk a (calls s ++ [Allocate n])).

Definition deallocate {A} {Ops : Allocator.ops A} (b : Block.t) (s : t A)
  : Block.t * t A :=
  let (b', a) := Allocator.deallocate b (inner s) in
  (b', mk a (calls s ++ [Deallocate b])).

Definition ops {A} (Ops : Allocator.ops A) : Allocator.ops (t A) :=
  {| Allocator.allocate := allocate;
     Allocator.deallocate := deallocate;
     Allocator.supports_truncated_deallocation :=
       Allocator.supports_truncated_deallocation |}.

End Spy.

Module Region.

(** A bounded bump region: hands out consecutive addresses of exactly the
    requested length until [limit] is reached, then fails; deallocation
    resets the caller's block and reclaims nothing. *)
Record t : Type := mk { next : Z; limit : Z }.

Definition allocate (n : Z) (r : t) : Block.t * t :=
  if (n =? 0) || (limit r <? next r + n) then (Block.empty, r)
  else (Block.mk (next r) n, mk (next r + n) (limit r)).

Definition deallocate (b : Block.t) (r : t) : Block.t * t :=
  (Block.reset b, r).

Definition ops (truncated : bool) : Allocator.ops t :=
  {| Allocator.allocate := allocate;
     Allocator.deallocate := deallocate;
     Allocator.supports_truncated_deallocation := truncated |}.

End Region.

Module Bump.

(** An unbounded bump allocator: every request is satisfied, with a block
    of exactly the requested length (the empty block for 0 bytes). *)
Definition t : Type := Z.

Definition allocate (n : Z) (next : t) : Block.t * t :=
  if n =? 0 then (Block.empty, next) else (Block.mk next n, next + n).

Definition deallocate (b : Block.t) (next : t) : Block.t * t :=
  (Block.reset b, next).

Definition ops (truncated : bool) : Allocator.ops t :=
  {| Allocator.allocate := allocate;
     Allocator.deallocate := deallocate;
     Allocator.supports_truncated_deallocation := truncated |}.

End Bump.

Module Affix.

(** Modelled from the spec: the metadata-prefixing allocator
    ([ALBAffixAllocator.h]), which is not among the sources.  It stores a
    header of a fixed, known size immediately before each block it returns
    and recovers the header's address from the block. *)
Section affix.
Context {A : Type} {Ops : Allocator.ops A}.
Variable prefix_size : Z.

Definition allocate (n : Z) (a : A) : Block.t * A :=
  if n =? 0 then (Block.empty, a)
  else
    let (innerMem, a') := Allocator.allocate (to_size_t (prefix_size + n)) a in
    if Block.to_bool innerMem
    then (Block.mk (ptr_add (Block.ptr innerMem) prefix_size) n, a')
    else (Block.empty, a').

Definition deallocate (b : Block.t) (a : A) : Block.t * A :=
  if Block.to_bool b then
    let innerMem :=
      Block.mk (ptr_add (Block.ptr b) (- prefix_size))
               (to_size_t (prefix_size + Block.length b)) in
    let (_, a') := Allocator.deallocate innerMem a in
    (Block.reset b, a')
  else (b, a).

Definition prefix (a : A) (b : Block.t) : Z :=
  ptr_add (Block.ptr b) (- prefix_size).

End affix.

Definition ops {A} (Ops : Allocator.ops A) (prefix_size : Z)
    : Allocator.ops A :=
  {| Allocator.allocate := allocate prefix_size;
     Allocator.deallocate := deallocate prefix_size;
     Allocator.supports_truncated_deallocation :=
       Allocator.supports_truncated_deallocation |}.

End Affix.

(** ** The statistics decorator ([AllocatorWithStats]) *)

Module StatsOptions.

(** [enum StatsOptions : unsigned] *)
Definition numOwns : Z := Z.shiftl 1 0.
Definition numAllocate : Z := Z.shiftl 1 1.
Definition numAllocateOK : Z := Z.shiftl 1 2.
Definition numExpand : Z := Z.shiftl 1 3.
Definition numExpandOK : Z := Z.shiftl 1 4.
Definition numReallocate : Z := Z.shiftl 1 5.
Definition numReallocateOK : Z := Z.shiftl 1 6.
Definition numReallocateInPlace : Z := Z.shiftl 1 7.
Definition numDeallocate : Z := Z.shiftl 1 8.
Definition numDeallocateAll : Z := Z.shiftl 1 9.
Definition numAll : Z := Z.shiftl 1 10 - 1.
Definition bytesAllocated : Z := Z.shiftl 1 10.
Definition bytesDeallocated : Z := Z.shiftl 1 11.
Definition bytesExpanded : Z := Z.shiftl 1 12.
Definition bytesContracted : Z := Z.shiftl 1 13.
Definition bytesMoved : Z := Z.shiftl 1 14.
Definition bytesSlack : Z := Z.shiftl 1 15.
Definition bytesHighTide : Z := Z.shiftl 1 16.
Definition bytesAll : Z := Z.land (Z.shiftl 1 17 - 1) (Z.lnot numAll).
Definition callerSize : Z := Z.shiftl 1 17.
Definition callerFile : Z := Z.shiftl 1 18.
Definition callerFunction : Z := Z.shiftl 1 19.
Definition callerLine : Z := Z.shiftl 1 20.
Definition callerTime : Z := Z.shiftl 1 21.
Definition callerAll : Z :=
  Z.land (Z.land (Z.shiftl 1 22 - 1) (Z.lnot numAll)) (Z.lnot bytesAll).
Definition all : Z := Z.shiftl 1 22 - 1.

End StatsOptions.

Module Stats.

(** [struct AllocationInfo]; [const char *] and the time point are carried
    as integers. *)
Record AllocationInfo : Type := mkInfo {
  callerSize : Z;
  callerFile : Z;
  callerFunction : Z;
  callerLine : Z;
  callerTime : Z;
  previous : Z;
  next : Z
}.

(** The data members: the internal delegate, the head of the list, and
    the counters that [MEMBER_ACCESSORS] declares.  [headers] is the part
    of memory that holds the [AllocationInfo] headers, by address. *)
Record t (A : Type) : Type := mk {
  _allocator : A;
  _root : Z;
  headers : gmap Z AllocationInfo;
  _numOwns : Z;
  _numAllocate : Z;
  _numAllocateOK : Z;
  _numExpand : Z;
  _numExpandOK : Z;
  _numReallocate : Z;
  _numReallocateOK : Z;
  _numReallocateInPlace : Z;
  _numDeallocate : Z;
  _numDeallocateAll : Z;
  _bytesAllocated : Z;
  _bytesDeallocated : Z;
  _bytesExpanded : Z;
  _bytesContracted : Z;
  _bytesMoved : Z;
  _bytesSlack : Z;
  _bytesHighTide : Z
}.
Arguments mk {A}.
Arguments _allocator {A} _.
Arguments _root {A} _.
Arguments headers {A} _.
Arguments _numOwns {A} _.
Arguments _numAllocate {A} _.
Arguments _numAllocateOK {A} _.
Arguments _numExpand {A} _.
Arguments _numExpandOK {A} _.
Arguments _numReallocate {A} _.
Arguments _numReallocateOK {A} _.
Arguments _numReallocateInPlace {A} _.
Arguments _numDeallocate {A} _.
Arguments _numDeallocateAll {A} _.
Arguments _bytesAllocated {A} _.
Arguments _bytesDeallocated {A} _.
Arguments _bytesExpanded {A} _.
Arguments _bytesContracted {A} _.
Arguments _bytesMoved {A} _.
Arguments _bytesSlack {A} _.
Arguments _bytesHighTide {A} _.

(** A reference to one of the counters ([T &value] in [up], [upOK],
    [add]). *)
Inductive counter : Type :=
| numOwns | numAllocate | numAllocateOK | numExpand | numExpandOK
| numReallocate | numReallocateOK | numReallocateInPlace | numDeallocate
| numDeallocateAll | bytesAllocated | bytesDeallocated | bytesExpanded
| bytesContracted | bytesMoved | bytesSlack | bytesHighTide.

(** Reading through the reference (also the accessor [X()]). *)
Definition get {A} (c : counter) (s : t A) : Z :=
  match c with
  | numOwns => _numOwns s
  | numAllocate => _numAllocate s
  | numAllocateOK => _numAllocateOK s
  | numExpand => _numExpand s
  | numExpandOK => _numExpandOK s
  | numReallocate => _numReallocate s
  | numReallocateOK => _numReallocateOK s
  | numReallocateInPlace => _numReallocateInPlace s
  | numDeallocate => _numDeallocate s
  | numDeallocateAll => _numDeallocateAll s
  | bytesAllocated => _bytesAllocated s
  | bytesDeallocated => _bytesDeallocated s
  | bytesExpanded => _bytesExpanded s
  | bytesContracted => _bytesContracted s
  | bytesMoved => _bytesMoved s
  | bytesSlack => _bytesSlack s
  | bytesHighTide => _bytesHighTide s
  end.

(** Writing through the reference. *)
Definition put {A} (c : counter) (v : Z) (s : t A) : t A :=
  let 'mk a r h c0 c1 c2 c3 c4 c5 c6 c7 c8 c9 b0 b1 b2 b3 b4 b5 b6 := s in
  match c with
  | numOwns => mk a r h v c1 c2 c3 c4 c5 c6 c7 c8 c9 b0 b1 b2 b3 b4 b5 b6
  | numAllocate => mk a r h c0 v c2 c3 c4 c5 c6 c7 c8 c9 b0 b1 b2 b3 b4 b5 b6
  | numAllocateOK => mk a r h c0 c1 v c3 c4 c5 c6 c7 c8 c9 b0 b1 b2 b3 b4 b5 b6
  | numExpand => mk a r h c0 c1 c2 v c4 c5 c6 c7 c8 c9 b0 b1 b2 b3 b4 b5 b6
  | numExpandOK => mk a r h c0 c1 c2 c3 v c5 c6 c7 c8 c9 b0 b1 b2 b3 b4 b5 b6
  | numReallocate => mk a r h c0 c1 c2 c3 c4 v c6 c7 c8 c9 b0 b1 b2 b3 b4 b5 b6
  | numReallocateOK =>
      mk a r h c0 c1 c2 c3 c4 c5 v c7 c8 c9 b0 b1 b2 b3 b4 b5 b6
  | numReallocateInPlace =>
      mk a r h c0 c1 c2 c3 c4 c5 c6 v c8 c9 b0 b1 b2 b3 b4 b5 b6
  | numDeallocate => mk a r h c0 c1 c2 c3 c4 c5 c6 c7 v c9 b0 b1 b2 b3 b4 b5 b6
  | numDeallocateAll =>
      mk a r h c0 c1 c2 c3 c4 c5 c6 c7 c8 v b0 b1 b2 b3 b4 b5 b6
  | bytesAllocated => mk a r h c0 c1 c2 c3 c4 c5 c6 c7 c8 c9 v b1 b2 b3 b4 b5 b6
  | bytesDeallocated =>
      mk a r h c0 c1 c2 c3 c4 c5 c6 c7 c8 c9 b0 v b2 b3 b4 b5 b6
  | bytesExpanded => mk a r h c0 c1 c2 c3 c4 c5 c6 c7 c8 c9 b0 b1 v b3 b4 b5 b6
  | bytesContracted =>
      mk a r h c0 c1 c2 c3 c4 c5 c6 c7 c8 c9 b0 b1 b2 v b4 b5 b6
  | bytesMoved => mk a r h c0 c1 c2 c3 c4 c5 c6 c7 c8 c9 b0 b1 b2 b3 v b5 b6
  | bytesSlack => mk a r h c0 c1 c2 c3 c4 c5 c6 c7 c8 c9 b0 b1 b2 b3 b4 v b6
  | bytesHighTide => mk a r h c0 c1 c2 c3 c4 c5 c6 c7 c8 c9 b0 b1 b2 b3 b4 b5 v
  end.

Definition with_allocator {A} (a : A) (s : t A) : t A :=
  let 'mk _ r h c0 c1 c2 c3 c4 c5 c6 c7 c8 c9 b0 b1 b2 b3 b4 b5 b6 := s in
  mk a r h c0 c1 c2 c3 c4 c5 c6 c7 c8 c9 b0 b1 b2 b3 b4 b5 b6.

Definition with_root {A} (r : Z) (s : t A) : t A :=
  let 'mk a _ h c0 c1 c2 c3 c4 c5 c6 c7 c8 c9 b0 b1 b2 b3 b4 b5 b6 := s in
  mk a r h c0 c1 c2 c3 c4 c5 c6 c7 c8 c9 b0 b1 b2 b3 b4 b5 b6.

Definition with_headers {A} (h : gmap Z AllocationInfo) (s : t A) : t A :=
  let 'mk a r _ c0 c1 c2 c3 c4 c5 c6 c7 c8 c9 b0 b1 b2 b3 b4 b5 b6 := s in
  mk a r h c0 c1 c2 c3 c4 c5 c6 c7 c8 c9 b0 b1 b2 b3 b4 b5 b6.

(** [AllocatorWithStats()], over a delegate in state [a] and a memory
    whose headers are [h]. *)
Definition create {A} (a : A) (h : gmap Z AllocationInfo) : t A :=
  mk a 0 h 0 0 0 0 0 0 0 0 0 0 0 0 0 0 0 0 0.

(** Field updates of a header. *)
Definition set_callerSize (v : Z) (i : AllocationInfo) : AllocationInfo :=
  mkInfo v (callerFile i) (callerFunction i) (callerLine i) (callerTime i)
         (previous i) (next i).
Definition set_callerFile (v : Z) (i : AllocationInfo) : AllocationInfo :=
  mkInfo (callerSize i) v (callerFunction i) (callerLine i) (callerTime i)
         (previous i) (next i).
Definition set_callerFunction (v : Z) (i : AllocationInfo) : AllocationInfo :=
  mkInfo (callerSize i) (callerFile i) v (callerLine i) (callerTime i)
         (previous i) (next i).
Definition set_callerLine (v : Z) (i : AllocationInfo) : AllocationInfo :=
  mkInfo (callerSize i) (callerFile i) (callerFunction i) v (callerTime i)
         (previous i) (next i).
Definition set_callerTime (v : Z) (i : AllocationInfo) : AllocationInfo :=
  mkInfo (callerSize i) (callerFile i) (callerFunction i) (callerLine i) v
         (previous i) (next i).
Definition set_previous (v : Z) (i : AllocationInfo) : AllocationInfo :=
  mkInfo (callerSize i) (callerFile i) (callerFunction i) (callerLine i)
         (callerTime i) v (next i).
Definition set_next (v : Z) (i : AllocationInfo) : AllocationInfo :=
  mkInfo (callerSize i) (callerFile i) (callerFunction i) (callerLine i)
         (callerTime i) (previous i) v.

Section AllocatorWithStats.
Context {A : Type} {Ops : Allocator.ops A}.
(** Template parameter [Flags]. *)
Variable Flags : Z.
(** [Traits::AffixExtractor<decltype(_allocator), AllocationInfo>::prefix],
    and the delegate's [reallocate] and [expand] (the block is passed by
    reference); their definitions are not among the sources. *)
Variable prefix : A -> Block.t -> Z.
Variable delegate_reallocate : Block.t -> Z -> A -> bool * Block.t * A.
Variable delegate_expand : Block.t -> Z -> A -> bool * Block.t * A.
(** What a header that was never written reads as. *)
Variable uninitialized : AllocationInfo.

(** [Flags & option], as a condition. *)
Definition enabled (option : Z) : bool := negb (Z.land Flags option =? 0).

Definition HasPerAllocationState : bool :=
  negb (Z.land Flags
          (Z.lor (Z.lor StatsOptions.callerTime StatsOptions.callerFile)
                 StatsOptions.callerLine) =? 0).

Definition has_per_allocation_state : bool := HasPerAllocationState.

(** Reading the header at address [p], and updating it in place. *)
Definition read (p : Z) (s : t A) : AllocationInfo :=
  default uninitialized (headers s !! p).

Definition write (p : Z) (f : AllocationInfo -> AllocationInfo) (s : t A)
  : t A :=
  with_headers (<[p := f (read p s)]> (headers s)) s.

Definition up (option : Z) (value : counter) (s : t A) : t A :=
  if enabled option then put value (to_size_t (get value s + 1)) s else s.

Definition upOK (option : Z) (value : counter) (ok : bool) (s : t A) : t A :=
  if enabled option && ok then put value (to_size_t (get value s + 1)) s
  else s.

Definition add (option : Z) (value : counter) (delta : Z) (s : t A) : t A :=
  if enabled option
  then put value (to_size_t (get value s + to_ssize_t delta)) s
  else s.

(** [set] on a field of the header at [stat]. *)
Definition set (option : Z) (stat : Z)
    (field : AllocationInfo -> AllocationInfo) (s : t A) : t A :=
  if enabled option then write stat field s else s.

Definition updateHighTide (s : t A) : t A :=
  if enabled StatsOptions.bytesHighTide then
    let currentlyAllocated :=
      to_size_t (_bytesAllocated s - _bytesDeallocated s) in
    if _bytesHighTide s <? currentlyAllocated
    then put bytesHighTide currentlyAllocated s
    else s
  else s.

(** [Block allocate(size_t n, const char *file, const char *function,
    int line)]; [now] is what [std::chrono::system_clock::now()] answers. *)
Definition allocate (n file function line now : Z) (s : t A)
  : Block.t * t A :=
  let (result, a) := Allocator.allocate n (_allocator s) in
  let s := with_allocator a s in
  let s := up StatsOptions.numAllocate numAllocate s in
  let s := upOK StatsOptions.numAllocateOK numAllocateOK
             ((0 <? n) && Block.to_bool result) s in
  let s := add StatsOptions.bytesAllocated bytesAllocated
             (Block.length result) s in
  let s := updateHighTide s in
  if Block.to_bool result && has_per_allocation_state then
    let stat := prefix (_allocator s) result in
    let s := set StatsOptions.callerSize stat (set_callerSize n) s in
    let s := set StatsOptions.callerFile stat (set_callerFile file) s in
    let s := set StatsOptions.callerFunction stat
               (set_callerFunction function) s in
    let s := set StatsOptions.callerLine stat (set_callerLine line) s in
    let s := set StatsOptions.callerTime stat (set_callerTime now) s in
    if negb (_root s =? 0) then
      let s := write (_root s) (set_previous stat) s in
      let s := write stat (set_next (_root s)) s in
      let s := write stat (set_previous 0) s in
      (result, with_root stat s)
    else
      let s := write stat (set_previous 0) s in
      let s := write stat (set_next 0) s in
      (result, with_root stat s)
  else (result, s).

(** [void deallocate(Block &b)] *)
Definition deallocate (b : Block.t) (s : t A) : Block.t * t A :=
  let s := up StatsOptions.numDeallocate numDeallocate s in
  let s := add StatsOptions.bytesDeallocated bytesDeallocated
             (Block.length b) s in
  let s :=
    if Block.to_bool b && has_per_allocation_state then
      let stat := prefix (_allocator s) b in
      let s :=
        if negb (previous (read stat s) =? 0)
        then write (previous (read stat s))
                   (set_next (next (read stat s))) s
        else s in
      let s :=
        if negb (next (read stat s) =? 0)
        then write (next (read stat s))
                   (set_previous (previous (read stat s))) s
        else s in
      if stat =? _root s then with_root (previous (read stat s)) s else s
    else s in
  let (b', a) := Allocator.deallocate b (_allocator s) in
  (b', with_allocator a s).

(** [bool reallocate(Block &b, size_t n)] *)
Definition reallocate (b : Block.t) (n : Z) (s : t A)
  : bool * Block.t * t A :=
  let originalBlock := b in
  let s := up StatsOptions.numReallocate numReallocate s in
  let '(ok, b, a) := delegate_reallocate b n (_allocator s) in
  let s := with_allocator a s in
  if negb ok then (false, b, s)
  else
    let s := up StatsOptions.numReallocateOK numReallocateOK s in
    let delta :=
      to_ssize_t (Block.length b - Block.length originalBlock) in
    let s :=
      if Block.ptr b =? Block.ptr originalBlock then
        let s := up StatsOptions.numReallocateInPlace numReallocateInPlace s in
        if 0 <? delta then
          let s := add StatsOptions.bytesAllocated bytesAllocated delta s in
          add StatsOptions.bytesExpanded bytesExpanded delta s
        else
          let s :=
            add StatsOptions.bytesDeallocated bytesDeallocated (- delta) s in
          add StatsOptions.bytesContracted bytesContracted (- delta) s
      else
        let s := add StatsOptions.bytesAllocated bytesAllocated
                   (Block.length b) s in
        let s := add StatsOptions.bytesMoved bytesMoved
                   (Block.length originalBlock) s in
        add StatsOptions.bytesDeallocated bytesDeallocated
          (Block.length originalBlock) s in
    (true, b, updateHighTide s).

(** [bool expand(Block &b, size_t delta)] *)
Definition expand (b : Block.t) (delta : Z) (s : t A)
  : bool * Block.t * t A :=
  let s := up StatsOptions.numExpand numExpand s in
  let oldLength := Block.length b in
  let '(result, b, a) := delegate_expand b delta (_allocator s) in
  let s := with_allocator a s in
  if result then
    let s := up StatsOptions.numExpandOK numExpandOK s in
    let s := add StatsOptions.bytesExpanded bytesExpanded
               (to_size_t (Block.length b - oldLength)) s in
    let s := add StatsOptions.bytesAllocated bytesAllocated
               (to_size_t (Block.length b - oldLength)) s in
    (result, b, updateHighTide s)
  else (result, b, s).

(** [allocations()]: the headers met from [_root] by following [next]
    up to the null pointer, each with its address.  [None] when the walk
    has not reached the null pointer after [fuel] headers. *)
Fixpoint walk (fuel : nat) (p : Z) (s : t A)
  : option (list (Z * AllocationInfo)) :=
  if p =? 0 then Some []
  else
    match fuel with
    | O => None
    | S fuel' =>
        match walk fuel' (next (read p s)) s with
        | Some l => Some ((p, read p s) :: l)
        | None => None
        end
    end.

Definition allocations (fuel : nat) (s : t A)
  : option (list (Z * AllocationInfo)) :=
  walk fuel (_root s) s.

(** *** Runs of operations

    The operations a caller can apply to an instance.  [owns] is not among
    them: it is a [const] member that calls the non-[const] [up], so it
    cannot be instantiated. *)

Inductive operation : Type :=
| Allocate (n file function line now : Z)
| Deallocate (b : Block.t)
| Reallocate (b : Block.t) (n : Z)
| Expand (b : Block.t) (delta : Z).

Definition step (o : operation) (s : t A) : t A :=
  match o with
  | Allocate n file function line now =>
      snd (allocate n file function line now s)
  | Deallocate b => snd (deallocate b s)
  | Reallocate b n => snd (reallocate b n s)
  | Expand b delta => snd (expand b delta s)
  end.

Fixpoint run (os : list operation) (s : t A) : t A :=
  match os with
  | [] => s
  | o :: os' => run os' (step o s)
  end.

(** Bytes allocated minus bytes deallocated, as [updateHighTide] computes
    it. *)
Definition outstanding (s : t A) : Z :=
  to_size_t (_bytesAllocated s - _bytesDeallocated s).

(** The largest [outstanding] among the state [s] and the states after
    each operation of the run from [s]. *)
Fixpoint peak (os : list operation) (s : t A) : Z :=
  match os with
  | [] => outstanding s
  | o :: os' => Z.max (outstanding s) (peak os' (step o s))
  end.

(** Every block given to [deallocate] in the run is counted among the
    outstanding bytes at that point. *)
Fixpoint accounted (os : list operation) (s : t A) : Prop :=
  match os with
  | [] => True
  | o :: os' =>
      match o with
      | Deallocate b => 0 <= Block.length b <= outstanding s
      | _ => True
      end /\ accounted os' (step o s)
  end.

End AllocatorWithStats.

(** *** The counters behind the high tide

    [tide] picks the three counters that [updateHighTide] reads and
    writes: bytes allocated, bytes deallocated and the high tide; the
    functions after it are the effects that the operations have on them. *)

Definition tide {A} (s : t A) : Z * Z * Z :=
  (_bytesAllocated s, _bytesDeallocated s, _bytesHighTide s).

Definition tidal (c : counter) : bool :=
  match c with
  | bytesAllocated | bytesDeallocated | bytesHighTide => true
  | _ => false
  end.

Definition on_allocated (f : Z -> Z) (w : Z * Z * Z) : Z * Z * Z :=
  let '(a, d, h) := w in (f a, d, h).

Definition on_deallocated (f : Z -> Z) (w : Z * Z * Z) : Z * Z * Z :=
  let '(a, d, h) := w in (a, f d, h).

Definition raise (w : Z * Z * Z) : Z * Z * Z :=
  let '(a, d, h) := w in (a, d, Z.max h (to_size_t (a - d))).

(** The list as the instance holds it: the head pointer and the headers
    in memory. *)
Definition links {A} (s : t A) : Z * gmap Z AllocationInfo :=
  (_root s, headers s).

(** [value += delta] on a [size_t]. *)
Definition plus (delta : Z) (value : Z) : Z := to_size_t (value + delta).

(** The counters [w'] come from [w] by an operation that either leaves
    them alone or ends in [updateHighTide] without having touched the high
    tide before. *)
Definition settles (w w' : Z * Z * Z) : Prop :=
  w' = w \/ exists w0, snd w0 = snd w /\ w' = raise w0.

End Stats.

(** ** Concrete configurations

    The instances on which the closed statements below are evaluated. *)

Module Fixtures.

(** A region with room for 4096 bytes, and one with no room left. *)
Definition region : Region.t := Region.mk 4096 8192.
Definition exhausted : Region.t := Region.mk 8192 8192.

(** [freelist<Region, 16, 32, PoolSize, N>] over a spied-on region. *)
Definition spied : FreeList.t (Spy.t Region.t) :=
  FreeList.create (Spy.mk region []) 16 32.

(** The same free list over a region that cannot allocate any more. *)
Definition starved : FreeList.t Region.t := FreeList.create exhausted 16 32.

(** A free list for sizes up to 32 whose delegate is a free list for
    sizes up to 64. *)
Definition nested : FreeList.t (FreeList.t Region.t) :=
  FreeList.create (FreeList.create region 0 64) 0 32.

(** What the headers of fresh memory read as in the examples, and a
    delegate [reallocate] and [expand] that always refuse. *)
Definition garbage : Stats.AllocationInfo :=
  Stats.mkInfo 170 170 170 170 170 170 170.

Definition refuse {A : Type} (b : Block.t) (n : Z) (a : A)
  : bool * Block.t * A :=
  (false, b, a).

(** A fresh [AllocatorWithStats] over a bump allocator at address 4096. *)
Definition stats : Stats.t Bump.t := Stats.create 4096 ∅.

(** [AllocatorWithStats<Bump, Flags>]: the internal delegate is the bump
    allocator itself, whose blocks have no prefix. *)
Definition plain_allocate (Flags : Z) :=
  @Stats.allocate _ (Bump.ops false) Flags (fun _ _ => 0) garbage.
Definition plain_deallocate (Flags : Z) :=
  @Stats.deallocate _ (Bump.ops false) Flags (fun _ _ => 0) garbage.

(** [AllocatorWithStats<Bump, Flags>] when the internal delegate is the
    affix allocator, with headers of 56 bytes. *)
Definition affix_allocate (Flags : Z) :=
  @Stats.allocate _ (Affix.ops (Bump.ops false) 56) Flags (Affix.prefix 56)
    garbage.
Definition affix_deallocate (Flags : Z) :=
  @Stats.deallocate _ (Affix.ops (Bump.ops false) 56) Flags (Affix.prefix 56)
    garbage.

(** Flag sets. *)
Definition only_callerSize : Z := StatsOptions.callerSize.
Definition callerSize_and_callerFile : Z :=
  Z.lor StatsOptions.callerSize StatsOptions.callerFile.
Definition high_tide_flags : Z :=
  Z.lor (Z.lor StatsOptions.bytesHighTide StatsOptions.bytesAllocated)
        StatsOptions.bytesDeallocated.

End Fixtures.

(** ** Counters, flags and calls

    The pairing of counters and flags that the call sites of [up], [upOK]
    and [add] use, and the counter that counts the calls of each
    operation. *)

Module Counters.

Definition flag_of (c : Stats.counter) : Z :=
  match c with
  | Stats.numOwns => StatsOptions.numOwns
  | Stats.numAllocate => StatsOptions.numAllocate
  | Stats.numAllocateOK => StatsOptions.numAllocateOK
  | Stats.numExpand => StatsOptions.numExpand
  | Stats.numExpandOK => StatsOptions.numExpandOK
  | Stats.numReallocate => StatsOptions.numReallocate
  | Stats.numReallocateOK => StatsOptions.numReallocateOK
  | Stats.numReallocateInPlace => StatsOptions.numReallocateInPlace
  | Stats.numDeallocate => StatsOptions.numDeallocate
  | Stats.numDeallocateAll => StatsOptions.numDeallocateAll
  | Stats.bytesAllocated => StatsOptions.bytesAllocated
  | Stats.bytesDeallocated => StatsOptions.bytesDeallocated
  | Stats.bytesExpanded => StatsOptions.bytesExpanded
  | Stats.bytesContracted => StatsOptions.bytesContracted
  | Stats.bytesMoved => StatsOptions.bytesMoved
  | Stats.bytesSlack => StatsOptions.bytesSlack
  | Stats.bytesHighTide => StatsOptions.bytesHighTide
  end.

(** The counter of the calls to the operation [o]. *)
Definition call_counter (o : Stats.operation) : Stats.counter :=
  match o with
  | Stats.Allocate _ _ _ _ _ => Stats.numAllocate
  | Stats.Deallocate _ => Stats.numDeallocate
  | Stats.Reallocate _ _ => Stats.numReallocate
  | Stats.Expand _ _ => Stats.numExpand
  end.

(** Whether [o] is a call to the operation that [like] is a call to. *)
Definition same_operation (like o : Stats.operation) : bool :=
  match like, o with
  | Stats.Allocate _ _ _ _ _, Stats.Allocate _ _ _ _ _
  | Stats.Deallocate _, Stats.Deallocate _
  | Stats.Reallocate _ _, Stats.Reallocate _ _
  | Stats.Expand _ _, Stats.Expand _ _ => true
  | _, _ => false
  end.

(** How many calls to the operation of [like] the run [os] holds. *)
Definition calls (like : Stats.operation) (os : list Stats.operation) : nat :=
  length (filter (fun o => same_operation like o = true) os).

End Counters.

(** ** Bytes that a run hands out and takes back *)

Module Ledger.

Section ledger.
Context {A : Type} {Ops : Allocator.ops A}.
Variable Flags : Z.
Variable prefix : A -> Block.t -> Z.
Variables delegate_reallocate delegate_expand
  : Block.t -> Z -> A -> bool * Block.t * A.
Variable uninitialized : Stats.AllocationInfo.

(** The lengths of the blocks that the [allocate] calls of the run [os]
    return, starting in [s], added up. *)
Fixpoint bytes_returned (os : list Stats.operation) (s : Stats.t A) : Z :=
  match os with
  | [] => 0
  | o :: os' =>
      match o with
      | Stats.Allocate n file function line now =>
          Block.length
            (fst (Stats.allocate Flags prefix uninitialized n file function
                    line now s))
      | _ => 0
      end
      + bytes_returned os'
          (Stats.step Flags prefix delegate_reallocate delegate_expand
             uninitialized o s)
  end.

End ledger.

(** The lengths of the blocks given to the [deallocate] calls of the run,
    added up. *)
Fixpoint bytes_given_back (os : list Stats.operation) : Z :=
  match os with
  | [] => 0
  | Stats.Deallocate b :: os' => Block.length b + bytes_given_back os'
  | _ :: os' => bytes_given_back os'
  end.

Definition allocate_or_deallocate (o : Stats.operation) : bool :=
  match o with
  | Stats.Allocate _ _ _ _ _ | Stats.Deallocate _ => true
  | _ => false
  end.

(** Each counter of successes is below the counter that is stepped
    before it on the same path, and this one below [k], as far as the flag
    of the latter is set. *)
Definition ordered {A : Type} (Flags : Z) (k : Z) (s : Stats.t A) : Prop :=
  (Stats.enabled Flags StatsOptions.numAllocate = true ->
   0 <= Stats._numAllocateOK s <= Stats._numAllocate s
   /\ Stats._numAllocate s <= k)
  /\ (Stats.enabled Flags StatsOptions.numReallocateOK = true ->
      0 <= Stats._numReallocateInPlace s <= Stats._numReallocateOK s
      /\ Stats._numReallocateOK s <= k)
  /\ (Stats.enabled Flags StatsOptions.numReallocate = true ->
      0 <= Stats._numReallocateOK s <= Stats._numReallocate s
      /\ Stats._numReallocate s <= k)
  /\ (Stats.enabled Flags StatsOptions.numExpand = true ->
      0 <= Stats._numExpandOK s <= Stats._numExpand s
      /\ Stats._numExpand s <= k).

End Ledger.

(** ** More concrete configurations *)

Module Examples.

(** A delegate [reallocate] that resizes in place, and one that moves the
    block 4096 bytes up; both always succeed. *)
Definition resize_in_place {A : Type} (b : Block.t) (n : Z) (a : A)
  : bool * Block.t * A :=
  (true, Block.mk (Block.ptr b) n, a).

Definition move {A : Type} (b : Block.t) (n : Z) (a : A)
  : bool * Block.t * A :=
  (true, Block.mk (Block.ptr b + 4096) n, a).

(** [AllocatorWithStats<Bump, StatsOptions::all>], over the affix
    allocator, whose delegate refuses to resize. *)
Definition full_run :=
  @Stats.run _ (Affix.ops (Bump.ops false) 56) StatsOptions.all
    (Affix.prefix 56) (@Fixtures.refuse Bump.t) (@Fixtures.refuse Bump.t)
    Fixtures.garbage.

(** Three calls: 100 bytes, then nothing, then the first block back. *)
Definition three_calls : list Stats.operation :=
  [Stats.Allocate 100 7 0 0 0; Stats.Allocate 0 7 0 0 0;
   Stats.Deallocate (Block.mk 4152 100)].

(** The instance after one, two and three allocations that record the
    size and the file. *)
Definition one_block : Stats.t Bump.t :=
  snd (Fixtures.affix_allocate Fixtures.callerSize_and_callerFile
         100 7 0 0 0 Fixtures.stats).
Definition two_blocks : Stats.t Bump.t :=
  snd (Fixtures.affix_allocate Fixtures.callerSize_and_callerFile
         50 8 0 0 0 one_block).
Definition three_blocks : Stats.t Bump.t :=
  snd (Fixtures.affix_allocate Fixtures.callerSize_and_callerFile
         25 9 0 0 0 two_blocks).

End Examples.

(** ** The used-memory generator of the tests ([UsedMemGenerator.h]) *)

Module UsedMemGenerator.

(** [UsedMemGenerator]: the allocator that [_usedMem] refers to, the
    [_usedBlocks] of [_usedMem], and [_freedLater]. *)
Record t (A : Type) : Type := mk {
  _allocator : A;
  _usedBlocks : list Block.t;
  _freedLater : list Block.t
}.
Arguments mk {A} _ _ _.
Arguments _allocator {A} _.
Arguments _usedBlocks {A} _.
Arguments _freedLater {A} _.

Section generator.
Context {A : Type} {Ops : Allocator.ops A}.
(** Template parameter [BytesPerBitMarker]. *)
Variable BytesPerBitMarker : Z.

(** [UsedMemGenerator(Allocator &allocator)] *)
Definition create (a : A) : t A := mk a [] [].

(** [withAUsedPatternOf(const char *pattern)]: the characters are read up
    to the terminating NUL (or the end of the list). *)
Fixpoint withAUsedPatternOf (pattern : list ascii) (g : t A) : t A :=
  match pattern with
  | [] => g
  | c :: p =>
      if Ascii.eqb c Ascii.zero then g
      else if Ascii.eqb c "1"%char then
        let (b, a) := Allocator.allocate BytesPerBitMarker (_allocator g) in
        withAUsedPatternOf p (mk a (_usedBlocks g ++ [b]) (_freedLater g))
      else if Ascii.eqb c "0"%char then
        let (b, a) := Allocator.allocate BytesPerBitMarker (_allocator g) in
        withAUsedPatternOf p (mk a (_usedBlocks g) (_freedLater g ++ [b]))
      else withAUsedPatternOf p g
  end.

(** The loop of [build]: [deallocate] on each block of [_freedLater], in
    place. *)
Fixpoint release (blocks : list Block.t) (a : A) : list Block.t * A :=
  match blocks with
  | [] => ([], a)
  | b :: blocks' =>
      let (b', a') := Allocator.deallocate b a in
      let (rest, a'') := release blocks' a' in
      (b' :: rest, a'')
  end.

(** [build()]: the blocks of the [UsedMem] returned, and the generator
    after the call. *)
Definition build (g : t A) : list Block.t * t A :=
  let (freed, a) := release (_freedLater g) (_allocator g) in
  (_usedBlocks g, mk a (_usedBlocks g) freed).

End generator.

(** The characters of a pattern that the loop gets to see: those before
    the first NUL. *)
Fixpoint text (pattern : list ascii) : list ascii :=
  match pattern with
  | [] => []
  | c :: p => if Ascii.eqb c Ascii.zero then [] else c :: text p
  end.

(** The markers among them: the characters ['0'] and ['1']. *)
Definition is_marker (c : ascii) : bool :=
  Ascii.eqb c "1"%char || Ascii.eqb c "0"%char.

Definition markers (pattern : list ascii) : list ascii :=
  List.filter is_marker (text pattern).

Definition ones (pattern : list ascii) : nat :=
  length (List.filter (fun c => Ascii.eqb c "1"%char) (text pattern)).

Definition zeros (pattern : list ascii) : nat :=
  length (List.filter (fun c => Ascii.eqb c "0"%char) (text pattern)).

End UsedMemGenerator.

(** * Properties *)

(** ** Machine integers *)

Lemma to_size_t_small z : 0 <= z < size_t_modulus -> to_size_t z = z.
Proof. intros H. unfold to_size_t. apply Z.mod_small. exact H. Qed.

Lemma to_size_t_range z : 0 <= to_size_t z < size_t_modulus.
Proof. unfold to_size_t, size_t_modulus. apply Z.mod_pos_bound. lia. Qed.

Lemma to_size_t_ssize_t z : to_size_t (to_ssize_t z) = to_size_t z.
Proof.
  unfold to_ssize_t. case (to_size_t z <? 2 ^ 63).
  - unfold to_size_t. apply Z.mod_mod. unfold size_t_modulus. lia.
  - unfold to_size_t.
    rewrite <- (Z.mod_mod z size_t_modulus) at 2 by (unfold size_t_modulus; lia).
    replace (z mod size_t_modulus - size_t_modulus)
      with (z mod size_t_modulus + (-1) * size_t_modulus) by lia.
    apply Z.mod_add. unfold size_t_modulus. lia.
Qed.

Lemma to_size_t_add_ssize_t v d :
  to_size_t (v + to_ssize_t d) = to_size_t (v + d).
Proof.
  pose proof (to_size_t_ssize_t d) as H. unfold to_size_t in *.
  rewrite <- (Zplus_mod_idemp_r (to_ssize_t d)), H.
  apply Zplus_mod_idemp_r.
Qed.

(** ** NoAtomic *)

(** C10: for every current value and every expected-value argument,
    [compare_exchange_strong (expected, v)] answers [true], leaves [v] in
    the cell (whatever it held, equal to [expected] or not) and leaves the
    caller's [expected] as it was. *)
Theorem compare_exchange_strong_unconditional
    (T : Type) (a : NoAtomic.t T) (expected v : T) :
  let '(ok, a', expected') := NoAtomic.compare_exchange_strong a expected v in
  ok = true /\ NoAtomic.load a' = v /\ expected' = expected.
Proof. cbn. repeat split. Qed.

(** Where this departs from an atomic compare-and-swap: exactly when the
    cell does not hold [expected]. *)
Lemma compare_exchange_strong_vs_std (a : NoAtomic.t Z) (expected v : Z) :
  NoAtomic.compare_exchange_strong a expected v
  = NoAtomic.std_compare_exchange_strong a expected v
  <-> NoAtomic.load a = expected.
Proof.
  unfold NoAtomic.compare_exchange_strong, NoAtomic.std_compare_exchange_strong,
    NoAtomic.load.
  destruct (decide (NoAtomic._value a = expected)) as [E | E].
  - split; auto.
  - split; [discriminate | contradiction].
Qed.

(** ** The free list *)

Section freelist_facts.
Context {A : Type} {Ops : Allocator.ops A}.
Variables (PoolSize N : Z).

Lemma root_push_spec p (s : FreeList.t A) :
  FreeList.root_push PoolSize p s =
  if Z.of_nat (length (FreeList._root s)) <? PoolSize
  then (true, FreeList.mk (FreeList._allocator s) (p :: FreeList._root s)
                (FreeList._lowerBound s) (FreeList._upperBound s))
  else (false, s).
Proof.
  unfold FreeList.root_push, Stack.push.
  destruct (Z.of_nat (length (FreeList._root s)) <? PoolSize); [reflexivity |].
  destruct s; reflexivity.
Qed.

Lemma delegate_allocate_fst n (s : FreeList.t A) :
  fst (FreeList.delegate_allocate n s)
  = fst (Allocator.allocate n (FreeList._allocator s)).
Proof.
  unfold FreeList.delegate_allocate.
  destruct (Allocator.allocate n (FreeList._allocator s)); reflexivity.
Qed.

(** Whatever the loop of the non-truncating branch returns is the
    delegate's answer to a request for [blockSize] bytes. *)
Lemma allocate_loop_result todo blockSize (s : FreeList.t A) :
  exists a, fst (FreeList.allocate_loop PoolSize todo blockSize s)
            = fst (Allocator.allocate blockSize a).
Proof.
  revert s. induction todo as [| todo IH]; intros s; simpl.
  - exists (FreeList._allocator s). apply delegate_allocate_fst.
  - pose proof (delegate_allocate_fst blockSize s) as Hd.
    destruct (FreeList.delegate_allocate blockSize s) as [b s1].
    rewrite root_push_spec.
    destruct (Z.of_nat (length (FreeList._root s1)) <? PoolSize).
    + apply IH.
    + exists (FreeList._allocator s). exact Hd.
Qed.

Lemma root_pop_spec (s : FreeList.t A) :
  FreeList.root_pop s =
  match FreeList._root s with
  | [] => (None, s)
  | v :: r => (Some v, FreeList.mk (FreeList._allocator s) r
                         (FreeList._lowerBound s) (FreeList._upperBound s))
  end.
Proof. unfold FreeList.root_pop. destruct s as [a [| v r] lo up]; reflexivity. Qed.

Lemma delegate_allocate_spec n (s : FreeList.t A) :
  FreeList.delegate_allocate n s =
  (fst (Allocator.allocate n (FreeList._allocator s)),
   FreeList.mk (snd (Allocator.allocate n (FreeList._allocator s)))
     (FreeList._root s) (FreeList._lowerBound s) (FreeList._upperBound s)).
Proof.
  unfold FreeList.delegate_allocate.
  destruct (Allocator.allocate n (FreeList._allocator s)); reflexivity.
Qed.

(** The bounds and the delegate survive the pushes of a batch that fits
    in the pool, which then holds the sub-block addresses, last first. *)
Lemma push_batch_room todo i batch blockSize (s : FreeList.t A) :
  Z.of_nat (length (FreeList._root s)) + Z.of_nat todo <= PoolSize ->
  FreeList.push_batch PoolSize todo i batch blockSize s =
  FreeList.mk (FreeList._allocator s)
    (rev (map (fun k => ptr_add (Block.ptr batch) (to_size_t (k * blockSize)))
              (seqZ i (Z.of_nat todo))) ++ FreeList._root s)
    (FreeList._lowerBound s) (FreeList._upperBound s).
Proof.
  revert i s. induction todo as [| todo IH]; intros i s Hroom.
  - destruct s; reflexivity.
  - cbn [FreeList.push_batch]. rewrite root_push_spec.
    destruct (Z.ltb_spec (Z.of_nat (length (FreeList._root s))) PoolSize) as [_ | Hfull];
      [| lia].
    rewrite IH by (cbn [FreeList._root length]; lia).
    cbn [FreeList._allocator FreeList._root FreeList._lowerBound
         FreeList._upperBound].
    rewrite (seqZ_cons i (Z.of_nat (S todo))) by lia.
    replace (Z.pred (Z.of_nat (S todo))) with (Z.of_nat todo) by lia.
    replace (Z.succ i) with (i + 1) by lia.
    cbn [map rev]. rewrite <- app_assoc. reflexivity.
Qed.

(** [allocate] and its loops leave the bounds as they are. *)
Lemma push_batch_bounds todo i batch blockSize (s : FreeList.t A) :
  FreeList._lowerBound (FreeList.push_batch PoolSize todo i batch blockSize s)
  = FreeList._lowerBound s /\
  FreeList._upperBound (FreeList.push_batch PoolSize todo i batch blockSize s)
  = FreeList._upperBound s.
Proof.
  revert i s. induction todo as [| todo IH]; intros i s; [split; reflexivity |].
  cbn [FreeList.push_batch]. rewrite root_push_spec.
  destruct (Z.of_nat (length (FreeList._root s)) <? PoolSize).
  - destruct (IH (i + 1)
      (FreeList.mk (FreeList._allocator s)
         (ptr_add (Block.ptr batch) (to_size_t (i * blockSize)) :: FreeList._root s)
         (FreeList._lowerBound s) (FreeList._upperBound s))) as [H1 H2].
    rewrite H1, H2. split; reflexivity.
  - unfold FreeList.delegate_deallocate.
    destruct (Allocator.deallocate _ (FreeList._allocator s)) as [b' a'].
    cbn [snd].
    destruct (IH (i + 1)
      (FreeList.mk a' (FreeList._root s) (FreeList._lowerBound s)
         (FreeList._upperBound s))) as [H1 H2].
    rewrite H1, H2. split; reflexivity.
Qed.

Lemma allocate_loop_bounds todo blockSize (s : FreeList.t A) :
  FreeList._lowerBound (snd (FreeList.allocate_loop PoolSize todo blockSize s))
  = FreeList._lowerBound s /\
  FreeList._upperBound (snd (FreeList.allocate_loop PoolSize todo blockSize s))
  = FreeList._upperBound s.
Proof.
  revert s. induction todo as [| todo IH]; intros s; cbn [FreeList.allocate_loop].
  - rewrite delegate_allocate_spec. split; reflexivity.
  - rewrite delegate_allocate_spec, root_push_spec.
    cbn [FreeList._root FreeList._allocator FreeList._lowerBound
         FreeList._upperBound].
    destruct (Z.of_nat (length (FreeList._root s)) <? PoolSize).
    + match goal with |- context [FreeList.allocate_loop _ _ _ ?s'] =>
        destruct (IH s') as [H1 H2] end.
      rewrite H1, H2. split; reflexivity.
    + split; reflexivity.
Qed.

Lemma allocate_bounds n (s : FreeList.t A) :
  FreeList._lowerBound (snd (FreeList.allocate PoolSize N n s))
  = FreeList._lowerBound s /\
  FreeList._upperBound (snd (FreeList.allocate PoolSize N n s))
  = FreeList._upperBound s.
Proof.
  unfold FreeList.allocate.
  destruct (FreeList.in_bounds n s); [| split; reflexivity].
  rewrite root_pop_spec.
  destruct (FreeList._root s) as [| v r] eqn:Hroot; [| split; reflexivity].
  destruct Allocator.supports_truncated_deallocation.
  - rewrite delegate_allocate_spec.
    destruct (Block.to_bool _).
    + cbn [snd]. match goal with |- context [FreeList.push_batch _ ?t ?i ?b ?k ?s'] =>
        destruct (push_batch_bounds t i b k s') as [H1 H2] end.
      rewrite H1, H2. split; reflexivity.
    + rewrite delegate_allocate_spec. split; reflexivity.
  - apply allocate_loop_bounds.
Qed.

(** With a delegate that answers with blocks of the requested length, a
    non-empty block returned by [allocate] has the length of the upper
    bound. *)
Lemma allocate_length n (s : FreeList.t A) :
  Allocator.exact Ops ->
  Block.to_bool (fst (FreeList.allocate PoolSize N n s)) = true ->
  Block.length (fst (FreeList.allocate PoolSize N n s)) = FreeList._upperBound s.
Proof.
  intros Hexact. unfold FreeList.allocate.
  destruct (FreeList.in_bounds n s); [| discriminate].
  rewrite root_pop_spec.
  destruct (FreeList._root s) as [| v r] eqn:Hroot; [| reflexivity].
  destruct Allocator.supports_truncated_deallocation.
  - rewrite delegate_allocate_spec.
    match goal with |- context [if Block.to_bool ?x then _ else _] =>
      destruct (Block.to_bool x) end; [reflexivity |].
    rewrite delegate_allocate_spec. cbn [fst FreeList._allocator].
    apply Hexact.
  - destruct (allocate_loop_result
                (Z.to_nat (to_unsigned (N - 1))) (FreeList._upperBound s) s)
      as [a Ha].
    rewrite Ha. apply Hexact.
Qed.

(** C1 (as amended): a non-empty block whose length lies outside
    [lower, upper] is not owned, and [deallocate] returns at once: the
    block is handed back unchanged, and neither the pool nor the delegate
    is touched. *)
Theorem deallocate_not_owned (b : Block.t) (s : FreeList.t A) :
  Block.to_bool b = true ->
  Block.length b < FreeList._lowerBound s
  \/ FreeList._upperBound s < Block.length b ->
  FreeList.deallocate PoolSize b s = (b, s).
Proof.
  intros _ Hout. unfold FreeList.deallocate, FreeList.owns.
  destruct (Z.leb_spec (FreeList._lowerBound s) (Block.length b));
    destruct (Z.leb_spec (Block.length b) (FreeList._upperBound s));
    try lia; destruct (Block.to_bool b); reflexivity.
Qed.

(** C6 (as amended): a non-empty block returned by [allocate n], for [n]
    within the bounds, has exactly the length of the upper bound when it
    comes from the pool or is the head of a batch, whatever the delegate
    is.  On the other paths (the fallback after a failed batch; the early
    return and the closing allocation of the loop) it is the block that
    the delegate answered to a request for the upper bound's length, as it
    is; so with a delegate that answers with blocks of exactly the
    requested length the length is the upper bound on every path. *)
Theorem allocate_in_bounds_length (n : Z) (s : FreeList.t A) :
  let upper := FreeList._upperBound s in
  let b := fst (FreeList.allocate PoolSize N n s) in
  let batch :=
    Allocator.allocate (to_size_t (upper * N)) (FreeList._allocator s) in
  FreeList._lowerBound s <= n <= upper ->
  Block.to_bool b = true ->
  (FreeList._root s <> [] -> Block.length b = upper)
  /\ (FreeList._root s = [] ->
      Allocator.supports_truncated_deallocation = true ->
      Block.to_bool (fst batch) = true ->
      Block.length b = upper)
  /\ (FreeList._root s = [] ->
      Allocator.supports_truncated_deallocation = true ->
      Block.to_bool (fst batch) = false ->
      b = fst (Allocator.allocate upper (snd batch)))
  /\ (FreeList._root s = [] ->
      Allocator.supports_truncated_deallocation = false ->
      exists a, b = fst (Allocator.allocate upper a))
  /\ (Allocator.exact Ops -> Block.length b = upper).
Proof.
  intros upper b batch Hn Hb.
  assert (Hin : FreeList.in_bounds n s = true).
  { unfold FreeList.in_bounds. apply andb_true_intro.
    split; apply Z.leb_le; subst upper; lia. }
  split; [| split; [| split; [| split]]].
  - intros Hpool. subst b. unfold FreeList.allocate.
    rewrite Hin, root_pop_spec.
    destruct (FreeList._root s) as [| v r]; [contradiction | reflexivity].
  - intros Hpool Htrunc Hbatch. subst b batch. unfold FreeList.allocate.
    rewrite Hin, root_pop_spec, Hpool, Htrunc, delegate_allocate_spec.
    fold upper. cbn [fst]. rewrite Hbatch. reflexivity.
  - intros Hpool Htrunc Hbatch. subst b batch. unfold FreeList.allocate.
    rewrite Hin, root_pop_spec, Hpool, Htrunc, delegate_allocate_spec.
    fold upper. cbn [fst]. rewrite Hbatch.
    rewrite delegate_allocate_spec. reflexivity.
  - intros Hpool Htrunc. subst b. unfold FreeList.allocate.
    rewrite Hin, root_pop_spec, Hpool, Htrunc.
    apply allocate_loop_result.
  - intros Hexact. apply allocate_length; assumption.
Qed.

(** C9 (as amended): when an in-bounds [allocate] returns a non-empty
    block (from a delegate that answers with blocks of the requested
    length) and leaves the pool short of its capacity, [deallocate] of that
    block pushes it on the pool and empties the caller's block, and the
    next in-bounds [allocate] returns the very same block and leaves the
    allocator, delegate included, in the state it had after the first
    [allocate]. *)
Theorem allocate_deallocate_allocate (n m : Z) (s s1 : FreeList.t A)
    (b : Block.t) :
  Allocator.exact Ops ->
  FreeList._lowerBound s <= n <= FreeList._upperBound s ->
  FreeList._lowerBound s <= m <= FreeList._upperBound s ->
  FreeList.allocate PoolSize N n s = (b, s1) ->
  Block.to_bool b = true ->
  Z.of_nat (length (FreeList._root s1)) < PoolSize ->
  exists s2,
    FreeList.deallocate PoolSize b s1 = (Block.empty, s2)
    /\ FreeList._root s2 = Block.ptr b :: FreeList._root s1
    /\ FreeList._allocator s2 = FreeList._allocator s1
    /\ FreeList.allocate PoolSize N m s2 = (b, s1).
Proof.
  intros Hexact Hn Hm Halloc Hb Hroom.
  pose proof (allocate_length n s Hexact) as Hlen.
  destruct (allocate_bounds n s) as [Hlo Hup].
  rewrite Halloc in Hlen, Hlo, Hup. cbn [fst snd] in Hlen, Hlo, Hup.
  specialize (Hlen Hb).
  exists (FreeList.mk (FreeList._allocator s1) (Block.ptr b :: FreeList._root s1)
            (FreeList._lowerBound s1) (FreeList._upperBound s1)).
  split; [| split; [reflexivity | split; [reflexivity |]]].
  - unfold FreeList.deallocate, FreeList.owns. rewrite Hb, Hlo, Hup, Hlen.
    destruct (Z.leb_spec (FreeList._lowerBound s) (FreeList._upperBound s));
      [| lia].
    rewrite Z.leb_refl. cbn [andb]. rewrite root_push_spec.
    destruct (Z.ltb_spec (Z.of_nat (length (FreeList._root s1))) PoolSize);
      [| lia].
    unfold Block.reset. rewrite ?Hlo, ?Hup. reflexivity.
  - unfold FreeList.allocate, FreeList.in_bounds.
    cbn [FreeList._lowerBound FreeList._upperBound].
    assert (Hin : (FreeList._lowerBound s1 <=? m)
                  && (m <=? FreeList._upperBound s1) = true).
    { rewrite Hlo, Hup. apply andb_true_intro. split; apply Z.leb_le; lia. }
    rewrite Hin, root_pop_spec.
    cbn [FreeList._root FreeList._allocator FreeList._lowerBound
         FreeList._upperBound].
    f_equal.
    + destruct b as [p l]. cbn in Hlen. rewrite Hup, <- Hlen. reflexivity.
    + destruct s1; reflexivity.
Qed.

End freelist_facts.

(** C7: on a free list whose delegate supports truncated deallocation and
    whose batch size [N] exceeds 1, an in-bounds [allocate] that finds the
    pool empty, whose batch allocation succeeds and whose pool has room for
    [N - 1] pointers, calls the delegate exactly once, for the [size_t]
    product [upper * N]; it returns the first sub-block and leaves in the
    pool exactly the [N - 1] addresses [base + i * upper], [i] from 1 to
    [N - 1]. *)
Theorem allocate_batch_on_miss {A : Type} (Ops : Allocator.ops A)
    (PoolSize N n : Z) (s : FreeList.t (Spy.t A)) :
  let upper := FreeList._upperBound s in
  let batch :=
    fst (Allocator.allocate (to_size_t (upper * N))
           (Spy.inner (FreeList._allocator s))) in
  @Allocator.supports_truncated_deallocation A Ops = true ->
  1 < N ->
  N - 1 <= PoolSize ->
  FreeList._lowerBound s <= n <= upper ->
  FreeList._root s = [] ->
  Block.to_bool batch = true ->
  let r := @FreeList.allocate _ (Spy.ops Ops) PoolSize N n s in
  fst r = Block.mk (Block.ptr batch) upper
  /\ Spy.calls (FreeList._allocator (snd r))
     = Spy.calls (FreeList._allocator s) ++ [Spy.Allocate (to_size_t (upper * N))]
  /\ FreeList._root (snd r)
     = rev (map (fun i => ptr_add (Block.ptr batch) (to_size_t (i * upper)))
                (seqZ 1 (N - 1)))
  /\ Z.of_nat (length (FreeList._root (snd r))) = N - 1.
Proof.
  intros upper batch Htrunc HN Hroom Hn Hempty Hbatch r.
  assert (Hr : r =
    (Block.mk (Block.ptr batch) upper,
     FreeList.mk
       (Spy.mk (snd (Allocator.allocate (to_size_t (upper * N))
                       (Spy.inner (FreeList._allocator s))))
               (Spy.calls (FreeList._allocator s)
                ++ [Spy.Allocate (to_size_t (upper * N))]))
       (rev (map (fun i => ptr_add (Block.ptr batch) (to_size_t (i * upper)))
                 (seqZ 1 (N - 1))))
       (FreeList._lowerBound s) upper)).
  { subst r. unfold FreeList.allocate, FreeList.in_bounds.
    destruct (Z.leb_spec (FreeList._lowerBound s) n); [| lia].
    destruct (Z.leb_spec n (FreeList._upperBound s)); [| subst upper; lia].
    cbn [andb]. rewrite root_pop_spec, Hempty.
    cbn [Allocator.supports_truncated_deallocation Spy.ops]. rewrite Htrunc.
    rewrite delegate_allocate_spec.
    cbn [Allocator.allocate Spy.ops]. unfold Spy.allocate.
    fold upper.
    destruct (Allocator.allocate (to_size_t (upper * N))
                (Spy.inner (FreeList._allocator s))) as [b0 a0] eqn:Hcall.
    subst batch. cbn [fst snd] in *. rewrite Hbatch.
    rewrite push_batch_room
      by (cbn [FreeList._root]; rewrite Hempty; cbn [length]; lia).
    cbn [FreeList._allocator FreeList._root FreeList._lowerBound
         FreeList._upperBound].
    rewrite Hempty, app_nil_r, Z2Nat.id by lia. reflexivity. }
  rewrite Hr. cbn [fst snd FreeList._allocator FreeList._root Spy.calls].
  repeat split.
  rewrite length_rev, length_map, length_seqZ. lia.
Qed.

(** *** The free list on concrete configurations *)

Lemma region_exact truncated : Allocator.exact (Region.ops truncated).
Proof.
  intros n r. cbn [Allocator.allocate Region.ops]. unfold Region.allocate.
  destruct ((n =? 0) || (Region.limit r <? Region.next r + n));
    [discriminate | reflexivity].
Qed.

Lemma spy_exact {A : Type} (Ops : Allocator.ops A) :
  Allocator.exact Ops -> Allocator.exact (Spy.ops Ops).
Proof.
  intros H n [a l]. specialize (H n a).
  cbn [Allocator.allocate Spy.ops]. unfold Spy.allocate. cbn [Spy.inner].
  destruct (Allocator.allocate n a). exact H.
Qed.

Lemma deallocate_not_owned_witness :
  Block.to_bool (Block.mk 100 64) = true
  /\ (64 < 16 \/ 32 < 64)
  /\ @FreeList.deallocate _ (Spy.ops (Region.ops false)) 4 (Block.mk 100 64)
       Fixtures.spied
     = (Block.mk 100 64, Fixtures.spied).
Proof.
  split; [reflexivity |]. split; [right; lia |].
  apply deallocate_not_owned; [reflexivity | right; simpl; lia].
Defined.

(** C1, as stated, fails: the block below is non-empty and too long for
    the bounds 16..32, yet after [deallocate] the delegate has received no
    call at all, where forwarding would have left one [Deallocate] in its
    record; the caller's block is still non-empty. *)
Lemma deallocate_not_owned_is_not_forwarded :
  let b := Block.mk 100 64 in
  let r := @FreeList.deallocate _ (Spy.ops (Region.ops false)) 4 b
             Fixtures.spied in
  Block.to_bool b = true
  /\ FreeList.in_bounds (Block.length b) Fixtures.spied = false
  /\ Spy.calls (FreeList._allocator (snd r)) = []
  /\ Spy.calls (FreeList._allocator (snd r)) <> [Spy.Deallocate b]
  /\ Block.to_bool (fst r) = true.
Proof. cbv. repeat split; discriminate. Qed.

(** C4: the free list over a delegate without truncated deallocation that
    has run out of memory.  The first [allocate] fails, as it should, but
    its loop has pushed the null pointer of the failed delegate allocation
    on the pool; the second [allocate] pops it and returns a block of
    length 32 whose pointer is null, which breaks the block invariant. *)
Theorem allocate_pops_null_pointer :
  let r1 := @FreeList.allocate _ (Region.ops false) 4 2 16 Fixtures.starved in
  let r2 := @FreeList.allocate _ (Region.ops false) 4 2 16 (snd r1) in
  fst r1 = Block.empty
  /\ FreeList._root (snd r1) = [0]
  /\ fst r2 = Block.mk 0 32
  /\ Block.length (fst r2) = FreeList._upperBound Fixtures.starved
  /\ ~ Block.invariant (fst r2).
Proof.
  cbv zeta. repeat split; try reflexivity.
  unfold Block.invariant. cbn. intros [H _]. specialize (H eq_refl). discriminate.
Qed.

Lemma allocate_in_bounds_length_witness :
  let Inner := FreeList.ops (Region.ops false) 4 1 in
  let pooled :=
    FreeList.mk (FreeList.create Fixtures.region 0 64) [4096] 0 32 in
  let fresh := FreeList.create Fixtures.region 16 32 in
  let tight := FreeList.create (Region.mk 8160 8192) 16 32 in
  Block.length (fst (@FreeList.allocate _ Inner 4 1 16 pooled)) = 32
  /\ Block.length (fst (@FreeList.allocate _ (Region.ops true) 4 2 20 fresh))
     = 32
  /\ fst (@FreeList.allocate _ (Region.ops true) 4 2 20 tight)
     = fst (Region.allocate 32 (snd (Region.allocate 64 (Region.mk 8160 8192))))
  /\ (exists a, fst (@FreeList.allocate _ (Region.ops false) 4 2 20 fresh)
                = fst (Region.allocate 32 a))
  /\ Block.length (fst (@FreeList.allocate _ (Region.ops false) 4 2 20 fresh))
     = 32.
Proof.
  cbv zeta. split; [| split; [| split; [| split]]].
  - destruct (@allocate_in_bounds_length _ (FreeList.ops (Region.ops false) 4 1)
                4 1 16
                (FreeList.mk (FreeList.create Fixtures.region 0 64) [4096] 0 32)
                ltac:(simpl; lia) eq_refl) as [H _].
    apply H. discriminate.
  - destruct (@allocate_in_bounds_length _ (Region.ops true) 4 2 20
                (FreeList.create Fixtures.region 16 32)
                ltac:(simpl; lia) eq_refl) as [_ [H _]].
    apply H; reflexivity.
  - destruct (@allocate_in_bounds_length _ (Region.ops true) 4 2 20
                (FreeList.create (Region.mk 8160 8192) 16 32)
                ltac:(simpl; lia) eq_refl) as [_ [_ [H _]]].
    apply H; reflexivity.
  - destruct (@allocate_in_bounds_length _ (Region.ops false) 4 2 20
                (FreeList.create Fixtures.region 16 32)
                ltac:(simpl; lia) eq_refl) as [_ [_ [_ [H _]]]].
    apply H; reflexivity.
  - destruct (@allocate_in_bounds_length _ (Region.ops false) 4 2 20
                (FreeList.create Fixtures.region 16 32)
                ltac:(simpl; lia) eq_refl) as [_ [_ [_ [_ H]]]].
    apply H, region_exact.
Defined.

(** C6, as stated, fails: the inner free list answers the outer one's
    request for 32 bytes with a block of its own upper bound, 64, and the
    outer [allocate 16] returns that block as it is: non-empty, in bounds,
    and not of length 32. *)
Lemma allocate_length_is_the_delegates :
  let Inner := FreeList.ops (Region.ops false) 4 1 in
  let b := fst (@FreeList.allocate _ Inner 4 1 16 Fixtures.nested) in
  FreeList.in_bounds 16 Fixtures.nested = true
  /\ Block.to_bool b = true
  /\ Block.length b = 64
  /\ Block.length b <> FreeList._upperBound Fixtures.nested.
Proof. cbv. repeat split; discriminate. Qed.

Lemma allocate_deallocate_allocate_witness :
  let O := Spy.ops (Region.ops false) in
  let r := @FreeList.allocate _ O 4 2 16 Fixtures.spied in
  Allocator.exact O
  /\ Block.to_bool (fst r) = true
  /\ Z.of_nat (length (FreeList._root (snd r))) < 4
  /\ exists s2,
       @FreeList.deallocate _ O 4 (fst r) (snd r) = (Block.empty, s2)
       /\ FreeList._root s2 = Block.ptr (fst r) :: FreeList._root (snd r)
       /\ FreeList._allocator s2 = FreeList._allocator (snd r)
       /\ @FreeList.allocate _ O 4 2 20 s2 = (fst r, snd r).
Proof.
  assert (HO : Allocator.exact (Spy.ops (Region.ops false)))
    by (apply spy_exact, region_exact).
  cbv zeta. split; [exact HO |]. split; [reflexivity |]. split; [simpl; lia |].
  apply (@allocate_deallocate_allocate _ (Spy.ops (Region.ops false)) 4 2 16 20
           Fixtures.spied);
    [exact HO | simpl; lia | simpl; lia | reflexivity | reflexivity
    | simpl; lia].
Defined.

(** C9, as stated, fails: with a pool of capacity 1 and batches of 2 the
    first [allocate] leaves the pool full, so [deallocate] hands the block
    to the delegate instead of the pool, and the second [allocate] pops
    another pointer. *)
Lemma allocate_deallocate_allocate_full_pool :
  let O := Spy.ops (Region.ops false) in
  let r1 := @FreeList.allocate _ O 1 2 16 Fixtures.spied in
  let r2 := @FreeList.deallocate _ O 1 (fst r1) (snd r1) in
  let r3 := @FreeList.allocate _ O 1 2 16 (snd r2) in
  fst r1 = Block.mk 4128 32
  /\ Spy.calls (FreeList._allocator (snd r2))
     = [Spy.Allocate 32; Spy.Allocate 32; Spy.Deallocate (Block.mk 4128 32)]
  /\ fst r3 = Block.mk 4096 32
  /\ Block.ptr (fst r3) <> Block.ptr (fst r1).
Proof. cbv. repeat split; discriminate. Qed.

Lemma allocate_batch_on_miss_witness :
  let r := @FreeList.allocate _ (Spy.ops (Region.ops true)) 1024 8 16
             Fixtures.spied in
  fst r = Block.mk 4096 32
  /\ Spy.calls (FreeList._allocator (snd r)) = [Spy.Allocate 256]
  /\ FreeList._root (snd r) = [4320; 4288; 4256; 4224; 4192; 4160; 4128]
  /\ Z.of_nat (length (FreeList._root (snd r))) = 7.
Proof.
  cbv zeta.
  apply (allocate_batch_on_miss (Region.ops true) 1024 8 16 Fixtures.spied);
    [reflexivity | lia | lia | simpl; lia | reflexivity | reflexivity].
Defined.

(** ** The statistics decorator *)

Section stats_facts.
Context {A : Type} {Ops : Allocator.ops A}.
Variable Flags : Z.
Variable prefix : A -> Block.t -> Z.
Variables delegate_reallocate delegate_expand
  : Block.t -> Z -> A -> bool * Block.t * A.
Variable uninitialized : Stats.AllocationInfo.

Lemma plus_ssize_t delta value :
  to_size_t (value + to_ssize_t delta) = Stats.plus delta value.
Proof. apply to_size_t_add_ssize_t. Qed.

(** *** How each helper moves the tide *)

Lemma tide_with_allocator a (s : Stats.t A) :
  Stats.tide (Stats.with_allocator a s) = Stats.tide s.
Proof. destruct s; reflexivity. Qed.

Lemma tide_with_root r (s : Stats.t A) :
  Stats.tide (Stats.with_root r s) = Stats.tide s.
Proof. destruct s; reflexivity. Qed.

Lemma tide_with_headers h (s : Stats.t A) :
  Stats.tide (Stats.with_headers h s) = Stats.tide s.
Proof. destruct s; reflexivity. Qed.

Lemma tide_write p f (s : Stats.t A) :
  Stats.tide (Stats.write uninitialized p f s) = Stats.tide s.
Proof. apply tide_with_headers. Qed.

Lemma tide_set option p f (s : Stats.t A) :
  Stats.tide (Stats.set Flags uninitialized option p f s) = Stats.tide s.
Proof. unfold Stats.set. destruct (Stats.enabled _ _); [apply tide_write | reflexivity]. Qed.

Lemma tide_put c v (s : Stats.t A) :
  Stats.tidal c = false -> Stats.tide (Stats.put c v s) = Stats.tide s.
Proof. destruct s, c; (reflexivity || discriminate). Qed.

Lemma tide_up option c (s : Stats.t A) :
  Stats.tidal c = false -> Stats.tide (Stats.up Flags option c s) = Stats.tide s.
Proof.
  intros H. unfold Stats.up.
  destruct (Stats.enabled _ _); [apply tide_put, H | reflexivity].
Qed.

Lemma tide_upOK option c ok (s : Stats.t A) :
  Stats.tidal c = false ->
  Stats.tide (Stats.upOK Flags option c ok s) = Stats.tide s.
Proof.
  intros H. unfold Stats.upOK.
  destruct (Stats.enabled _ _ && ok); [apply tide_put, H | reflexivity].
Qed.

Lemma tide_add option c delta (s : Stats.t A) :
  Stats.tidal c = false ->
  Stats.tide (Stats.add Flags option c delta s) = Stats.tide s.
Proof.
  intros H. unfold Stats.add.
  destruct (Stats.enabled _ _); [apply tide_put, H | reflexivity].
Qed.

Lemma tide_add_allocated option delta (s : Stats.t A) :
  Stats.tide (Stats.add Flags option Stats.bytesAllocated delta s)
  = Stats.on_allocated
      (if Stats.enabled Flags option then Stats.plus delta else id)
      (Stats.tide s).
Proof.
  unfold Stats.add. destruct (Stats.enabled _ _); [| destruct s; reflexivity].
  rewrite plus_ssize_t. destruct s; reflexivity.
Qed.

Lemma tide_add_deallocated option delta (s : Stats.t A) :
  Stats.tide (Stats.add Flags option Stats.bytesDeallocated delta s)
  = Stats.on_deallocated
      (if Stats.enabled Flags option then Stats.plus delta else id)
      (Stats.tide s).
Proof.
  unfold Stats.add. destruct (Stats.enabled _ _); [| destruct s; reflexivity].
  rewrite plus_ssize_t. destruct s; reflexivity.
Qed.

Hypothesis high_tide_enabled :
  Stats.enabled Flags StatsOptions.bytesHighTide = true.

Lemma tide_updateHighTide (s : Stats.t A) :
  Stats.tide (Stats.updateHighTide Flags s) = Stats.raise (Stats.tide s).
Proof.
  unfold Stats.updateHighTide. rewrite high_tide_enabled.
  unfold Stats.tide, Stats.raise. destruct s.
  cbn [Stats._bytesHighTide Stats._bytesAllocated Stats._bytesDeallocated].
  match goal with |- context [to_size_t ?e] => generalize (to_size_t e) end.
  intros c.
  match goal with |- context [?h <? c] => destruct (Z.ltb_spec h c) end;
    cbn [Stats.put Stats._bytesHighTide Stats._bytesAllocated
         Stats._bytesDeallocated]; f_equal; lia.
Qed.

(** *** How each operation moves the tide *)

Lemma allocate_result n file function line now (s : Stats.t A) :
  fst (Stats.allocate Flags prefix uninitialized n file function line now s)
  = fst (Allocator.allocate n (Stats._allocator s)).
Proof.
  unfold Stats.allocate.
  destruct (Allocator.allocate n (Stats._allocator s)) as [result a].
  destruct (Block.to_bool result && _); [| reflexivity].
  destruct (negb _); reflexivity.
Qed.

Lemma tide_allocate n file function line now (s : Stats.t A) :
  Stats.tide
    (snd (Stats.allocate Flags prefix uninitialized n file function line now s))
  = Stats.raise
      (Stats.on_allocated
         (if Stats.enabled Flags StatsOptions.bytesAllocated
          then Stats.plus
                 (Block.length (fst (Allocator.allocate n (Stats._allocator s))))
          else id)
         (Stats.tide s)).
Proof.
  unfold Stats.allocate.
  destruct (Allocator.allocate n (Stats._allocator s)) as [result a].
  cbn [fst].
  destruct (Block.to_bool result && _);
    [destruct (negb _) |]; cbn [snd];
    rewrite ?tide_with_root, ?tide_write, ?tide_set, tide_updateHighTide,
      tide_add_allocated, tide_upOK, tide_up, tide_with_allocator
      by reflexivity; reflexivity.
Qed.

Lemma tide_deallocate b (s : Stats.t A) :
  Stats.tide (snd (Stats.deallocate Flags prefix uninitialized b s))
  = Stats.on_deallocated
      (if Stats.enabled Flags StatsOptions.bytesDeallocated
       then Stats.plus (Block.length b) else id)
      (Stats.tide s).
Proof.
  unfold Stats.deallocate.
  match goal with |- context [Allocator.deallocate b ?a] =>
    destruct (Allocator.deallocate b a) as [b' a'] end.
  cbn [snd]. rewrite tide_with_allocator.
  destruct (Block.to_bool b && _).
  - match goal with |- context [if ?c then Stats.with_root _ _ else _] =>
      destruct c end;
    rewrite ?tide_with_root;
    repeat match goal with |- context [if negb ?c then _ else _] =>
      destruct (negb c) end;
    rewrite ?tide_write, tide_add_deallocated, tide_up by reflexivity;
    reflexivity.
  - rewrite tide_add_deallocated, tide_up by reflexivity. reflexivity.
Qed.

Lemma tide_reallocate b n (s : Stats.t A) :
  Stats.settles (Stats.tide s)
    (Stats.tide
       (snd (Stats.reallocate Flags delegate_reallocate b n s))).
Proof.
  unfold Stats.reallocate.
  destruct (delegate_reallocate b n _) as [[ok b'] a].
  destruct ok; cbn [negb snd].
  - right. rewrite tide_updateHighTide. eexists. split; [| reflexivity].
    destruct (Block.ptr b' =? Block.ptr b).
    + destruct (0 <? _);
        rewrite ?tide_add by reflexivity;
        rewrite ?tide_add_allocated, ?tide_add_deallocated;
        rewrite !tide_up, tide_with_allocator, tide_up by reflexivity;
        destruct (Stats.tide s) as [[a0 d0] h0]; reflexivity.
    + rewrite tide_add_deallocated, tide_add, tide_add_allocated,
        tide_up, tide_with_allocator, tide_up by reflexivity.
      destruct (Stats.tide s) as [[a0 d0] h0]; reflexivity.
  - left. rewrite tide_with_allocator, tide_up by reflexivity. reflexivity.
Qed.

Lemma tide_expand b delta (s : Stats.t A) :
  Stats.settles (Stats.tide s)
    (Stats.tide (snd (Stats.expand Flags delegate_expand b delta s))).
Proof.
  unfold Stats.expand.
  destruct (delegate_expand b delta _) as [[ok b'] a].
  destruct ok; cbn [snd].
  - right. rewrite tide_updateHighTide. eexists. split; [| reflexivity].
    rewrite tide_add_allocated, tide_add, tide_up, tide_with_allocator,
      tide_up by reflexivity.
    destruct (Stats.tide s) as [[a0 d0] h0]; reflexivity.
  - left. rewrite tide_with_allocator, tide_up by reflexivity. reflexivity.
Qed.

(** *** The high tide along a run *)

Lemma high_tide_of_tide (s : Stats.t A) :
  Stats._bytesHighTide s = snd (Stats.tide s).
Proof. reflexivity. Qed.

Lemma outstanding_of_tide (s : Stats.t A) :
  Stats.outstanding s
  = to_size_t (fst (fst (Stats.tide s)) - snd (fst (Stats.tide s))).
Proof. reflexivity. Qed.

Lemma outstanding_after_deallocate a d len :
  0 <= len <= to_size_t (a - d) ->
  to_size_t (a - Stats.plus len d) = to_size_t (a - d) - len.
Proof.
  intros Hlen. pose proof (to_size_t_range (a - d)) as Hr.
  unfold Stats.plus, to_size_t in *.
  rewrite Zminus_mod_idemp_r.
  replace (a - (d + len)) with ((a - d) - len) by lia.
  rewrite <- Zminus_mod_idemp_l. apply Z.mod_small. lia.
Qed.

Local Abbreviation step :=
  (Stats.step Flags prefix delegate_reallocate delegate_expand uninitialized).
Local Abbreviation run :=
  (Stats.run Flags prefix delegate_reallocate delegate_expand uninitialized).
Local Abbreviation peak :=
  (Stats.peak Flags prefix delegate_reallocate delegate_expand uninitialized).
Local Abbreviation accounted :=
  (Stats.accounted Flags prefix delegate_reallocate delegate_expand
     uninitialized).

Lemma settles_high_tide (s s' : Stats.t A) :
  Stats.settles (Stats.tide s) (Stats.tide s') ->
  Stats.outstanding s <= Stats._bytesHighTide s ->
  Stats._bytesHighTide s'
  = Z.max (Stats._bytesHighTide s) (Stats.outstanding s').
Proof.
  rewrite !outstanding_of_tide, !high_tide_of_tide.
  intros [-> | [[[a0 d0] h0] [Hh ->]]] Hle.
  - lia.
  - cbn in *. subst h0. reflexivity.
Qed.

Lemma step_high_tide o (s : Stats.t A) :
  accounted [o] s ->
  Stats.outstanding s <= Stats._bytesHighTide s ->
  Stats._bytesHighTide (step o s)
  = Z.max (Stats._bytesHighTide s) (Stats.outstanding (step o s)).
Proof.
  intros [Hacc _] Hle. destruct o as [n f g l t | b | b n | b delta];
    cbn [Stats.step].
  - apply settles_high_tide; [| exact Hle].
    rewrite tide_allocate. right. eexists. split; [| reflexivity].
    destruct (Stats.tide s) as [[a0 d0] h0]. reflexivity.
  - rewrite !outstanding_of_tide, !high_tide_of_tide in *.
    rewrite tide_deallocate.
    destruct (Stats.tide s) as [[a0 d0] h0]. cbn in Hacc, Hle |- *.
    destruct (Stats.enabled Flags StatsOptions.bytesDeallocated).
    + rewrite outstanding_after_deallocate by exact Hacc. lia.
    + unfold id. lia.
  - apply settles_high_tide; [apply tide_reallocate | exact Hle].
  - apply settles_high_tide; [apply tide_expand | exact Hle].
Qed.

Lemma peak_ge_outstanding os (s : Stats.t A) :
  Stats.outstanding s <= peak os s.
Proof. destruct os; cbn; lia. Qed.

Lemma run_high_tide os (s : Stats.t A) :
  accounted os s ->
  Stats.outstanding s <= Stats._bytesHighTide s ->
  Stats._bytesHighTide (run os s) = Z.max (Stats._bytesHighTide s) (peak os s).
Proof.
  revert s. induction os as [| o os IH]; intros s Hacc Hle.
  - cbn. lia.
  - destruct Hacc as [Ho Hacc].
    pose proof (step_high_tide o s (conj Ho I) Hle) as Hstep.
    cbn [Stats.run Stats.peak].
    rewrite (IH (step o s)) by (try exact Hacc; lia).
    pose proof (peak_ge_outstanding os (step o s)). lia.
Qed.

(** C8 (as amended): with the [bytesHighTide], [bytesAllocated] and
    [bytesDeallocated] flags active, after any run of operations from a fresh instance in
    which every block given to [deallocate] is counted among the
    outstanding bytes, the high tide is the largest value of (bytes
    allocated - bytes deallocated) among the states the instance went
    through; and against a delegate that satisfies every request exactly,
    after [allocate 100], [allocate 50], [deallocate] of the first block
    and [allocate 200] the high tide is 250. *)
Theorem high_tide_is_peak (a : A) (h : gmap Z Stats.AllocationInfo) :
  Stats.enabled Flags StatsOptions.bytesAllocated = true ->
  Stats.enabled Flags StatsOptions.bytesDeallocated = true ->
  (forall os : list Stats.operation,
     accounted os (Stats.create a h) ->
     Stats._bytesHighTide (run os (Stats.create a h))
     = peak os (Stats.create a h))
  /\ ((forall n a', Block.length (fst (Allocator.allocate n a')) = n) ->
      forall file function line now : Z,
      let allocate n :=
        Stats.allocate Flags prefix uninitialized n file function line now in
      let deallocate := Stats.deallocate Flags prefix uninitialized in
      let r1 := allocate 100 (Stats.create a h) in
      let r2 := allocate 50 (snd r1) in
      let r3 := deallocate (fst r1) (snd r2) in
      let r4 := allocate 200 (snd r3) in
      Stats._bytesHighTide (snd r4) = 250).
Proof.
  intros Halloc Hdealloc. split.
  - intros os Hacc.
    rewrite run_high_tide by (exact Hacc || (cbn; reflexivity)).
    pose proof (peak_ge_outstanding os (Stats.create a h)) as Hp.
    change (Stats.outstanding (Stats.create a h)) with 0 in Hp.
    change (Stats._bytesHighTide (Stats.create a h)) with 0. lia.
  - intros Hexact file function line now. cbv zeta.
    rewrite high_tide_of_tide.
    rewrite tide_allocate, tide_deallocate, !tide_allocate.
    rewrite Halloc, Hdealloc, allocate_result, !Hexact.
    reflexivity.
Qed.

End stats_facts.

(** *** The list of allocations *)

Section stats_list_facts.
Context {A : Type} {Ops : Allocator.ops A}.
Variable Flags : Z.
Variable prefix : A -> Block.t -> Z.
Variables delegate_reallocate delegate_expand
  : Block.t -> Z -> A -> bool * Block.t * A.
Variable uninitialized : Stats.AllocationInfo.

Local Abbreviation read := (Stats.read uninitialized).
Local Abbreviation write := (Stats.write uninitialized).

Lemma links_with_allocator a (s : Stats.t A) :
  Stats.links (Stats.with_allocator a s) = Stats.links s.
Proof. destruct s; reflexivity. Qed.

Lemma links_put c v (s : Stats.t A) :
  Stats.links (Stats.put c v s) = Stats.links s.
Proof. destruct s, c; reflexivity. Qed.

Lemma links_up option c (s : Stats.t A) :
  Stats.links (Stats.up Flags option c s) = Stats.links s.
Proof. unfold Stats.up. destruct (Stats.enabled _ _); [apply links_put | reflexivity]. Qed.

Lemma links_upOK option c ok (s : Stats.t A) :
  Stats.links (Stats.upOK Flags option c ok s) = Stats.links s.
Proof.
  unfold Stats.upOK. destruct (Stats.enabled _ _ && ok); [apply links_put | reflexivity].
Qed.

Lemma links_add option c delta (s : Stats.t A) :
  Stats.links (Stats.add Flags option c delta s) = Stats.links s.
Proof. unfold Stats.add. destruct (Stats.enabled _ _); [apply links_put | reflexivity]. Qed.

Lemma links_updateHighTide (s : Stats.t A) :
  Stats.links (Stats.updateHighTide Flags s) = Stats.links s.
Proof.
  unfold Stats.updateHighTide. destruct (Stats.enabled _ _); [| reflexivity].
  destruct (_ <? _); [apply links_put | reflexivity].
Qed.

Lemma allocator_put c v (s : Stats.t A) :
  Stats._allocator (Stats.put c v s) = Stats._allocator s.
Proof. destruct s, c; reflexivity. Qed.

Lemma allocator_up option c (s : Stats.t A) :
  Stats._allocator (Stats.up Flags option c s) = Stats._allocator s.
Proof.
  unfold Stats.up. destruct (Stats.enabled _ _); [apply allocator_put | reflexivity].
Qed.

Lemma allocator_add option c delta (s : Stats.t A) :
  Stats._allocator (Stats.add Flags option c delta s) = Stats._allocator s.
Proof.
  unfold Stats.add. destruct (Stats.enabled _ _); [apply allocator_put | reflexivity].
Qed.

Lemma read_links p (s s' : Stats.t A) :
  Stats.links s' = Stats.links s -> read p s' = read p s.
Proof. unfold Stats.links, Stats.read. intros [= _ ->]. reflexivity. Qed.

Lemma read_write p q f (s : Stats.t A) :
  read p (write q f s) = if decide (q = p) then f (read q s) else read p s.
Proof.
  unfold Stats.write, Stats.read at 1. destruct s; cbn [Stats.headers Stats.with_headers].
  rewrite lookup_insert. destruct (decide (q = p)); reflexivity.
Qed.

Lemma root_write q f (s : Stats.t A) :
  Stats._root (write q f s) = Stats._root s.
Proof. destruct s; reflexivity. Qed.

Lemma root_with_root r (s : Stats.t A) :
  Stats._root (Stats.with_root r s) = r.
Proof. destruct s; reflexivity. Qed.

Lemma root_with_allocator a (s : Stats.t A) :
  Stats._root (Stats.with_allocator a s) = Stats._root s.
Proof. destruct s; reflexivity. Qed.

(** Without per-allocation state no operation touches the list. *)
Lemma step_without_state o (s : Stats.t A) :
  Stats.HasPerAllocationState Flags = false ->
  Stats.links
    (Stats.step Flags prefix delegate_reallocate delegate_expand
       uninitialized o s)
  = Stats.links s.
Proof.
  intros Hno. destruct o as [n f g l t | b | b n | b delta]; cbn [Stats.step].
  - unfold Stats.allocate, Stats.has_per_allocation_state.
    destruct (Allocator.allocate n (Stats._allocator s)) as [result a].
    rewrite Hno, andb_false_r. cbn [snd].
    rewrite links_updateHighTide, links_add, links_upOK, links_up.
    apply links_with_allocator.
  - unfold Stats.deallocate, Stats.has_per_allocation_state.
    rewrite Hno, andb_false_r.
    match goal with |- context [Allocator.deallocate b ?a] =>
      destruct (Allocator.deallocate b a) end.
    cbn [snd]. rewrite links_with_allocator, links_add. apply links_up.
  - unfold Stats.reallocate.
    destruct (delegate_reallocate b n _) as [[ok b'] a].
    destruct ok; cbn [negb snd].
    + rewrite links_updateHighTide.
      destruct (Block.ptr b' =? Block.ptr b); [destruct (0 <? _) |];
        rewrite !links_add, ?links_up, links_with_allocator; apply links_up.
    + rewrite links_with_allocator. apply links_up.
  - unfold Stats.expand.
    destruct (delegate_expand b delta _) as [[ok b'] a].
    destruct ok; cbn [snd].
    + rewrite links_updateHighTide, !links_add, links_up, links_with_allocator.
      apply links_up.
    + rewrite links_with_allocator. apply links_up.
Qed.

(** X25: without per-allocation state no run of operations touches the
    list: the head pointer and the headers are after the run what they
    were before it. *)
Lemma run_without_state os (s : Stats.t A) :
  Stats.HasPerAllocationState Flags = false ->
  Stats.links
    (Stats.run Flags prefix delegate_reallocate delegate_expand
       uninitialized os s)
  = Stats.links s.
Proof.
  intros Hno. revert s. induction os as [| o os IH]; intros s; [reflexivity |].
  cbn [Stats.run]. rewrite IH. apply step_without_state, Hno.
Qed.

(** X26: with per-allocation state, [deallocate] of the block whose
    header is the head of the list leaves the head pointer null, whatever
    the head's successor is. *)
Lemma deallocate_head_root b (s : Stats.t A) :
  Stats.HasPerAllocationState Flags = true ->
  Block.to_bool b = true ->
  prefix (Stats._allocator s) b = Stats._root s ->
  Stats.previous (read (Stats._root s) s) = 0 ->
  Stats._root (snd (Stats.deallocate Flags prefix uninitialized b s)) = 0.
Proof.
  intros Hstate Hb Hhead Hprev.
  unfold Stats.deallocate, Stats.has_per_allocation_state.
  rewrite Hstate, Hb. cbn [andb].
  set (s1 := Stats.add Flags StatsOptions.bytesDeallocated
               Stats.bytesDeallocated (Block.length b)
               (Stats.up Flags StatsOptions.numDeallocate
                  Stats.numDeallocate s)).
  assert (Hlinks : Stats.links s1 = Stats.links s)
    by (subst s1; rewrite links_add; apply links_up).
  assert (Halloc : Stats._allocator s1 = Stats._allocator s)
    by (subst s1; rewrite allocator_add; apply allocator_up).
  assert (Hroot : Stats._root s1 = Stats._root s)
    by (injection Hlinks; auto).
  rewrite Halloc, Hhead, <- Hroot.
  assert (Hprev1 : Stats.previous (read (Stats._root s1) s1) = 0)
    by (rewrite (read_links _ s s1 Hlinks), Hroot; exact Hprev).
  rewrite Hprev1. cbn [Z.eqb negb].
  match goal with |- context [Allocator.deallocate b ?a] =>
    destruct (Allocator.deallocate b a) as [b' a'] end.
  cbn [snd].
  rewrite root_with_allocator.
  destruct (negb (Stats.next (read (Stats._root s1) s1) =? 0)).
  - rewrite root_write, Z.eqb_refl, root_with_root, read_write.
    destruct (decide _) as [E | E]; [exact Hprev1 | exact Hprev1].
  - rewrite Z.eqb_refl, root_with_root. exact Hprev1.
Qed.

(** X24: with per-allocation state, [deallocate] of a block whose header
    is not the head and has a predecessor splices the neighbours: the
    predecessor's [next] becomes the successor, the successor's [previous]
    (when there is a successor) becomes the predecessor, and the head
    pointer stays. *)
Lemma deallocate_inner_splices b (s : Stats.t A) :
  let stat := prefix (Stats._allocator s) b in
  let p := Stats.previous (read stat s) in
  let q := Stats.next (read stat s) in
  let s' := snd (Stats.deallocate Flags prefix uninitialized b s) in
  Stats.HasPerAllocationState Flags = true ->
  Block.to_bool b = true ->
  stat <> Stats._root s ->
  p <> 0 ->
  p <> stat ->
  q <> stat ->
  Stats._root s' = Stats._root s
  /\ Stats.next (read p s') = q
  /\ (q <> 0 -> Stats.previous (read q s') = p).
Proof.
  intros stat p q s' Hstate Hb Hnothead Hp Hps Hqs. subst s'.
  unfold Stats.deallocate, Stats.has_per_allocation_state.
  rewrite Hstate, Hb. cbn [andb].
  set (s1 := Stats.add Flags StatsOptions.bytesDeallocated
               Stats.bytesDeallocated (Block.length b)
               (Stats.up Flags StatsOptions.numDeallocate
                  Stats.numDeallocate s)).
  assert (Hlinks : Stats.links s1 = Stats.links s)
    by (subst s1; rewrite links_add; apply links_up).
  assert (Halloc : Stats._allocator s1 = Stats._allocator s)
    by (subst s1; rewrite allocator_add; apply allocator_up).
  assert (Hroot : Stats._root s1 = Stats._root s)
    by (injection Hlinks; auto).
  rewrite Halloc. fold stat.
  assert (Hread : forall x, read x s1 = read x s)
    by (intros x; apply read_links, Hlinks).
  rewrite !Hread. fold p. fold q.
  destruct (Z.eqb_spec p 0) as [E | _]; [contradiction |]. cbn [negb].
  assert (Hstat2 : read stat (write p (Stats.set_next q) s1) = read stat s).
  { rewrite read_write. destruct (decide (p = stat)); [contradiction |].
    apply Hread. }
  rewrite !Hstat2. fold p. fold q.
  match goal with |- context [Allocator.deallocate b ?a] =>
    destruct (Allocator.deallocate b a) as [b' a'] end.
  cbn [snd].
  rewrite root_with_allocator, !(read_links _ _ _ (links_with_allocator _ _)).
  destruct (Z.eqb_spec q 0) as [Eq | Eq]; cbn [negb].
  - rewrite root_write, Hroot.
    destruct (Z.eqb_spec stat (Stats._root s)); [contradiction |].
    rewrite root_write, read_write.
    destruct (decide (p = p)); [| contradiction].
    repeat split; [exact Hroot | contradiction].
  - rewrite !root_write, Hroot.
    destruct (Z.eqb_spec stat (Stats._root s)); [contradiction |].
    rewrite !root_write, !read_write.
    repeat split; [exact Hroot | | intros _];
      repeat destruct (decide _); (reflexivity || congruence).
Qed.

End stats_list_facts.

(** C5 (as amended): [deallocate] of the empty block is a no-op on the
    free list (block, pool, bounds and delegate as before); on the
    statistics decorator it leaves the list and every counter as they were
    except the [deallocate]-call counter, which counts the call when its
    flag is set, and the empty block is still passed on to the delegate. *)
Theorem deallocate_empty_block {A B : Type} (OpsA : Allocator.ops A)
    (OpsB : Allocator.ops B) (PoolSize : Z) (fl : FreeList.t A)
    (Flags : Z) (prefix : B -> Block.t -> Z)
    (uninitialized : Stats.AllocationInfo) (s : Stats.t B) :
  0 <= Stats._bytesDeallocated s < size_t_modulus ->
  FreeList.deallocate PoolSize Block.empty fl = (Block.empty, fl)
  /\ (let s' := snd (Stats.deallocate Flags prefix uninitialized Block.empty s) in
      Stats._root s' = Stats._root s
      /\ Stats.headers s' = Stats.headers s
      /\ Stats._allocator s'
         = snd (Allocator.deallocate Block.empty (Stats._allocator s))
      /\ forall c,
           Stats.get c s' =
           match c with
           | Stats.numDeallocate =>
               if Stats.enabled Flags StatsOptions.numDeallocate
               then to_size_t (Stats.get c s + 1) else Stats.get c s
           | _ => Stats.get c s
           end).
Proof.
  intros Hrange. split; [reflexivity |].
  unfold Stats.deallocate. cbn [Block.to_bool Block.empty Block.length Z.eqb negb andb].
  unfold Stats.up, Stats.add.
  replace (to_ssize_t 0) with 0 by reflexivity.
  assert (Hd : forall v, 0 <= v < size_t_modulus -> to_size_t (v + 0) = v)
    by (intros v Hv; rewrite Z.add_0_r; apply to_size_t_small, Hv).
  destruct (Stats.enabled Flags StatsOptions.numDeallocate),
    (Stats.enabled Flags StatsOptions.bytesDeallocated);
    destruct s; cbn in Hrange |- *; rewrite ?(Hd _ Hrange);
    match goal with |- context [Allocator.deallocate ?b ?a] =>
      destruct (Allocator.deallocate b a) end;
    cbn; repeat split; intros []; reflexivity.
Qed.

Lemma deallocate_empty_block_witness :
  0 <= 0 < size_t_modulus
  /\ @FreeList.deallocate _ (Spy.ops (Region.ops false)) 4 Block.empty
       Fixtures.spied = (Block.empty, Fixtures.spied)
  /\ Stats._bytesDeallocated
       (snd (Fixtures.plain_deallocate StatsOptions.all Block.empty
               Fixtures.stats)) = 0.
Proof.
  split; [unfold size_t_modulus; lia |].
  pose proof (deallocate_empty_block (Spy.ops (Region.ops false))
                (Bump.ops false) 4 Fixtures.spied StatsOptions.all
                (fun _ _ => 0) Fixtures.garbage Fixtures.stats) as H.
  destruct H as [Hfl [_ [_ [_ Hc]]]]; [simpl; unfold size_t_modulus; lia |].
  split; [exact Hfl |]. exact (Hc Stats.bytesDeallocated).
Defined.

(** C5, as stated, fails: with the [numDeallocate] flag set, [deallocate]
    of the empty block moves the call counter from 0 to 1. *)
Lemma deallocate_empty_block_is_counted :
  let s' := snd (Fixtures.plain_deallocate StatsOptions.numDeallocate
                   Block.empty Fixtures.stats) in
  Stats._numDeallocate Fixtures.stats = 0
  /\ Stats._numDeallocate s' = 1
  /\ Stats._numDeallocate s' <> Stats._numDeallocate Fixtures.stats.
Proof. cbv. repeat split; discriminate. Qed.

(** C2: with only the [callerSize] flag, [HasPerAllocationState] is
    false, so nothing is recorded: after allocating A and B and
    deallocating A the list is empty and no header was ever written,
    where the claim has one node, B's, holding the size 50. *)
Theorem callerSize_alone_records_nothing :
  let allocate := Fixtures.plain_allocate Fixtures.only_callerSize in
  let deallocate := Fixtures.plain_deallocate Fixtures.only_callerSize in
  let r1 := allocate 100 0 0 0 0 Fixtures.stats in
  let r2 := allocate 50 0 0 0 0 (snd r1) in
  let r3 := deallocate (fst r1) (snd r2) in
  Stats.HasPerAllocationState Fixtures.only_callerSize = false
  /\ Block.to_bool (fst r1) = true
  /\ Block.to_bool (fst r2) = true
  /\ Stats._root (snd r2) = 0
  /\ Stats.allocations Fixtures.garbage 2 (snd r3) = Some []
  /\ Stats.headers (snd r3) = ∅.
Proof. cbv zeta. repeat split; reflexivity. Qed.

(** The same holds of [callerFunction], and of the two flags together;
    and by [run_without_state] no run of operations under such flags ever
    touches the list. *)
Lemma callerSize_and_callerFunction_have_no_state :
  Stats.HasPerAllocationState StatsOptions.callerSize = false
  /\ Stats.HasPerAllocationState StatsOptions.callerFunction = false
  /\ Stats.HasPerAllocationState
       (Z.lor StatsOptions.callerSize StatsOptions.callerFunction) = false.
Proof. repeat split; reflexivity. Qed.

(** With [callerFile] next to [callerSize] the same calls do what the
    claim describes: one node is left, B's, with its size and with both
    links null. *)
Lemma callerSize_with_callerFile_records :
  let allocate := Fixtures.affix_allocate Fixtures.callerSize_and_callerFile in
  let deallocate :=
    Fixtures.affix_deallocate Fixtures.callerSize_and_callerFile in
  let r1 := allocate 100 7 0 0 0 Fixtures.stats in
  let r2 := allocate 50 8 0 0 0 (snd r1) in
  let r3 := deallocate (fst r1) (snd r2) in
  Stats.allocations Fixtures.garbage 2 (snd r3)
  = Some [(4252, Stats.mkInfo 50 8 170 170 170 0 0)].
Proof. reflexivity. Qed.

(** C3: deallocating the head of a list of two.  Before the call the list
    is B (at 4252) then A (at 4096); B is the head and A its successor.
    The call sets [_root] to the head's [previous], which is null, so the
    list read from [_root] is empty although A is still allocated and
    still linked to nothing; the claim has [_root] moved to A. *)
Theorem deallocate_head_drops_the_list :
  let allocate := Fixtures.affix_allocate Fixtures.callerSize_and_callerFile in
  let deallocate :=
    Fixtures.affix_deallocate Fixtures.callerSize_and_callerFile in
  let r1 := allocate 100 7 0 0 0 Fixtures.stats in
  let r2 := allocate 50 8 0 0 0 (snd r1) in
  let r3 := deallocate (fst r2) (snd r2) in
  Stats.HasPerAllocationState Fixtures.callerSize_and_callerFile = true
  /\ Block.to_bool (fst r2) = true
  /\ Stats._root (snd r2) = 4252
  /\ Stats.allocations Fixtures.garbage 2 (snd r2)
     = Some [(4252, Stats.mkInfo 50 8 170 170 170 0 4096);
             (4096, Stats.mkInfo 100 7 170 170 170 4252 0)]
  /\ Stats._root (snd r3) = 0
  /\ Stats.allocations Fixtures.garbage 2 (snd r3) = Some []
  /\ Stats.read Fixtures.garbage 4096 (snd r3)
     = Stats.mkInfo 100 7 170 170 170 0 0.
Proof. cbv zeta. repeat split; reflexivity. Qed.

Lemma bump_satisfies_exactly truncated n a :
  Block.length (fst (@Allocator.allocate _ (Bump.ops truncated) n a)) = n.
Proof.
  cbn [Allocator.allocate Bump.ops]. unfold Bump.allocate.
  destruct (Z.eqb_spec n 0) as [-> | _]; reflexivity.
Qed.

Lemma high_tide_is_peak_witness :
  let os :=
    [Stats.Allocate 100 0 0 0 0; Stats.Allocate 50 0 0 0 0;
     Stats.Deallocate (Block.mk 4096 100); Stats.Allocate 200 0 0 0 0] in
  let final :=
    @Stats.run _ (Bump.ops false) Fixtures.high_tide_flags (fun _ _ => 0)
      Fixtures.refuse Fixtures.refuse Fixtures.garbage os Fixtures.stats in
  Stats._bytesHighTide final = 250
  /\ Stats._bytesAllocated final = 350
  /\ Stats._bytesDeallocated final = 100
  /\ Stats._bytesHighTide
       (snd (Fixtures.plain_allocate Fixtures.high_tide_flags 200 0 0 0 0
          (snd (Fixtures.plain_deallocate Fixtures.high_tide_flags
             (Block.mk 4096 100)
             (snd (Fixtures.plain_allocate Fixtures.high_tide_flags 50 0 0 0 0
                (snd (Fixtures.plain_allocate Fixtures.high_tide_flags
                        100 0 0 0 0 Fixtures.stats)))))))) = 250.
Proof.
  cbv zeta.
  destruct (@high_tide_is_peak _ (Bump.ops false) Fixtures.high_tide_flags
              (fun _ _ => 0) Fixtures.refuse Fixtures.refuse Fixtures.garbage
              eq_refl 4096 ∅ eq_refl eq_refl) as [Hrun Hseq].
  split; [| split; [reflexivity | split; [reflexivity |]]].
  - apply Hrun. cbv. repeat split; intro; discriminate.
  - apply (Hseq (bump_satisfies_exactly false) 0 0 0 0).
Defined.

(** C8, as stated, fails: a [deallocate] of more bytes than are
    outstanding.  After [allocate 100] and [deallocate] of a block of 200
    bytes the counters hold 100 and 200; their difference, which
    [updateHighTide] takes as a [size_t], is 2^64 - 100, the largest value
    the instance has seen, yet the high tide is still 100, since
    [deallocate] does not update it.  One [allocate 50] later the high
    tide is 2^64 - 50, although the counters never differed by more than
    100 when read as integers (0, 100, -100, -50). *)
Lemma high_tide_is_not_peak :
  let run :=
    @Stats.run _ (Bump.ops false) Fixtures.high_tide_flags (fun _ _ => 0)
      Fixtures.refuse Fixtures.refuse Fixtures.garbage in
  let peak :=
    @Stats.peak _ (Bump.ops false) Fixtures.high_tide_flags (fun _ _ => 0)
      Fixtures.refuse Fixtures.refuse Fixtures.garbage in
  let os :=
    [Stats.Allocate 100 0 0 0 0; Stats.Deallocate (Block.mk 4096 200)] in
  let after := run os Fixtures.stats in
  let later := run (os ++ [Stats.Allocate 50 0 0 0 0]) Fixtures.stats in
  Stats._bytesAllocated after = 100
  /\ Stats._bytesDeallocated after = 200
  /\ Stats.outstanding after = 2 ^ 64 - 100
  /\ peak os Fixtures.stats = 2 ^ 64 - 100
  /\ Stats._bytesHighTide after = 100
  /\ Stats._bytesHighTide after <> peak os Fixtures.stats
  /\ Stats._bytesAllocated later = 150
  /\ Stats._bytesDeallocated later = 200
  /\ Stats._bytesHighTide later = 2 ^ 64 - 50.
Proof. cbv zeta. repeat split; try reflexivity. vm_compute. discriminate. Qed.

(** * Further properties of the free list *)

Section freelist_paths.
Context {A : Type} {Ops : Allocator.ops A}.
Variables (PoolSize N : Z).

(** X1: a request outside the bounds is refused with the empty block, and
    nothing else happens: pool, bounds and delegate are as before. *)
Theorem allocate_out_of_bounds (n : Z) (s : FreeList.t A) :
  n < FreeList._lowerBound s \/ FreeList._upperBound s < n ->
  FreeList.allocate PoolSize N n s = (Block.empty, s).
Proof.
  intros Hout. unfold FreeList.allocate, FreeList.in_bounds.
  destruct (Z.leb_spec (FreeList._lowerBound s) n);
    destruct (Z.leb_spec n (FreeList._upperBound s)); try lia; reflexivity.
Qed.

(** X2: an in-bounds request that finds a pointer in the pool is served
    with that pointer, as a block of the upper bound's length whatever [n]
    is; the pointer leaves the pool and the delegate is not involved. *)
Theorem allocate_from_pool (n p : Z) (r : list Z) (s : FreeList.t A) :
  FreeList._lowerBound s <= n <= FreeList._upperBound s ->
  FreeList._root s = p :: r ->
  FreeList.allocate PoolSize N n s
  = (Block.mk p (FreeList._upperBound s),
     FreeList.mk (FreeList._allocator s) r (FreeList._lowerBound s)
       (FreeList._upperBound s)).
Proof.
  intros Hn Hroot. unfold FreeList.allocate, FreeList.in_bounds.
  destruct (Z.leb_spec (FreeList._lowerBound s) n); [| lia].
  destruct (Z.leb_spec n (FreeList._upperBound s)); [| lia].
  cbn [andb]. rewrite root_pop_spec, Hroot. reflexivity.
Qed.

(** X3: [deallocate] of a non-empty block with an in-bounds length either
    pushes its pointer on the pool and empties the caller's block (when
    the pool is below its capacity), or hands the block to the delegate
    and leaves the pool alone (when it is full); never both. *)
Theorem deallocate_owned (b : Block.t) (s : FreeList.t A) :
  Block.to_bool b = true ->
  FreeList._lowerBound s <= Block.length b <= FreeList._upperBound s ->
  FreeList.deallocate PoolSize b s =
  if Z.of_nat (length (FreeList._root s)) <? PoolSize
  then (Block.empty,
        FreeList.mk (FreeList._allocator s) (Block.ptr b :: FreeList._root s)
          (FreeList._lowerBound s) (FreeList._upperBound s))
  else (fst (Allocator.deallocate b (FreeList._allocator s)),
        FreeList.mk (snd (Allocator.deallocate b (FreeList._allocator s)))
          (FreeList._root s) (FreeList._lowerBound s)
          (FreeList._upperBound s)).
Proof.
  intros Hb Hlen. unfold FreeList.deallocate, FreeList.owns. rewrite Hb.
  destruct (Z.leb_spec (FreeList._lowerBound s) (Block.length b)); [| lia].
  destruct (Z.leb_spec (Block.length b) (FreeList._upperBound s)); [| lia].
  cbn [andb]. rewrite root_push_spec.
  destruct (Z.of_nat (length (FreeList._root s)) <? PoolSize); [reflexivity |].
  unfold FreeList.delegate_deallocate.
  destruct (Allocator.deallocate b (FreeList._allocator s)); reflexivity.
Qed.

(** X4: what [owns] accepts comes back as a block of the upper bound's
    length.  A non-empty block of any in-bounds length, given to
    [deallocate] while the pool has room, is what the next in-bounds
    [allocate] returns: same pointer, length [upper] (also when the block
    given back was shorter), allocator back in the state before the
    [deallocate], delegate never called. *)
Theorem deallocate_then_allocate (b : Block.t) (m : Z) (s : FreeList.t A) :
  Block.to_bool b = true ->
  FreeList._lowerBound s <= Block.length b <= FreeList._upperBound s ->
  FreeList._lowerBound s <= m <= FreeList._upperBound s ->
  Z.of_nat (length (FreeList._root s)) < PoolSize ->
  FreeList.allocate PoolSize N m (snd (FreeList.deallocate PoolSize b s))
  = (Block.mk (Block.ptr b) (FreeList._upperBound s), s).
Proof.
  intros Hb Hlen Hm Hroom. unfold FreeList.deallocate, FreeList.owns.
  rewrite Hb.
  destruct (Z.leb_spec (FreeList._lowerBound s) (Block.length b)); [| lia].
  destruct (Z.leb_spec (Block.length b) (FreeList._upperBound s)); [| lia].
  cbn [andb]. rewrite root_push_spec.
  destruct (Z.ltb_spec (Z.of_nat (length (FreeList._root s))) PoolSize);
    [| lia].
  cbn [snd]. unfold FreeList.allocate, FreeList.in_bounds.
  cbn [FreeList._lowerBound FreeList._upperBound].
  destruct (Z.leb_spec (FreeList._lowerBound s) m); [| lia].
  destruct (Z.leb_spec m (FreeList._upperBound s)); [| lia].
  cbn [andb]. rewrite root_pop_spec.
  cbn [FreeList._root FreeList._allocator FreeList._lowerBound
       FreeList._upperBound].
  destruct s; reflexivity.
Qed.

(** *** The pool never exceeds its capacity *)

Lemma root_push_length p (s : FreeList.t A) :
  Z.of_nat (length (FreeList._root s)) <= PoolSize ->
  Z.of_nat (length (FreeList._root (snd (FreeList.root_push PoolSize p s))))
  <= PoolSize.
Proof.
  intros H. rewrite root_push_spec.
  destruct (Z.ltb_spec (Z.of_nat (length (FreeList._root s))) PoolSize);
    cbn [snd FreeList._root length]; lia.
Qed.

Lemma push_batch_length todo i batch blockSize (s : FreeList.t A) :
  Z.of_nat (length (FreeList._root s)) <= PoolSize ->
  Z.of_nat (length (FreeList._root
                      (FreeList.push_batch PoolSize todo i batch blockSize s)))
  <= PoolSize.
Proof.
  revert i s. induction todo as [| todo IH]; intros i s H; [exact H |].
  cbn [FreeList.push_batch]. rewrite root_push_spec.
  destruct (Z.ltb_spec (Z.of_nat (length (FreeList._root s))) PoolSize).
  - apply IH. cbn [FreeList._root length]. lia.
  - apply IH. unfold FreeList.delegate_deallocate.
    destruct (Allocator.deallocate _ (FreeList._allocator s)). exact H.
Qed.

Lemma allocate_loop_length todo blockSize (s : FreeList.t A) :
  Z.of_nat (length (FreeList._root s)) <= PoolSize ->
  Z.of_nat (length (FreeList._root
                      (snd (FreeList.allocate_loop PoolSize todo blockSize s))))
  <= PoolSize.
Proof.
  revert s. induction todo as [| todo IH]; intros s H;
    cbn [FreeList.allocate_loop]; rewrite delegate_allocate_spec.
  - exact H.
  - rewrite root_push_spec. cbn [FreeList._root].
    destruct (Z.ltb_spec (Z.of_nat (length (FreeList._root s))) PoolSize).
    + apply IH. cbn [FreeList._root length]. lia.
    + exact H.
Qed.

(** X5: the pool never holds more pointers than its capacity: a pool
    within [PoolSize] is still within [PoolSize] after any [allocate] and
    after any [deallocate], whatever the request, the block and the
    delegate. *)
Theorem pool_within_capacity (n : Z) (b : Block.t) (s : FreeList.t A) :
  Z.of_nat (length (FreeList._root s)) <= PoolSize ->
  Z.of_nat (length (FreeList._root (snd (FreeList.allocate PoolSize N n s))))
  <= PoolSize
  /\ Z.of_nat (length (FreeList._root (snd (FreeList.deallocate PoolSize b s))))
     <= PoolSize.
Proof.
  intros H. split.
  - unfold FreeList.allocate.
    destruct (FreeList.in_bounds n s); [| exact H].
    rewrite root_pop_spec.
    destruct (FreeList._root s) as [| v r] eqn:Hroot.
    + destruct Allocator.supports_truncated_deallocation.
      * rewrite delegate_allocate_spec.
        match goal with |- context [if Block.to_bool ?x then _ else _] =>
          destruct (Block.to_bool x) end; cbn [snd].
        -- apply push_batch_length. cbn [FreeList._root]. rewrite Hroot. exact H.
        -- rewrite delegate_allocate_spec. cbn [snd FreeList._root].
           rewrite Hroot. exact H.
      * apply allocate_loop_length. rewrite Hroot. exact H.
    + cbn [snd FreeList._root]. cbn [length] in H. lia.
  - unfold FreeList.deallocate.
    destruct (Block.to_bool b && FreeList.owns b s); [| exact H].
    pose proof (root_push_length (Block.ptr b) s H) as Hp.
    destruct (FreeList.root_push PoolSize (Block.ptr b) s) as [ok s1] eqn:E.
    cbn [snd] in Hp. destruct ok; [exact Hp |].
    unfold FreeList.delegate_deallocate.
    destruct (Allocator.deallocate b (FreeList._allocator s1)). exact Hp.
Qed.

End freelist_paths.

(** ** What the delegate of a free list gets to see *)

Section freelist_calls.
Context {A : Type} (Ops : Allocator.ops A).
Variables (PoolSize N : Z).

Local Abbreviation spied_allocate :=
  (@FreeList.allocate _ (Spy.ops Ops) PoolSize N).
Local Abbreviation calls_of s := (Spy.calls (FreeList._allocator s)).

Lemma spy_delegate_allocate k (s : FreeList.t (Spy.t A)) :
  @FreeList.delegate_allocate _ (Spy.ops Ops) k s =
  (fst (Allocator.allocate k (Spy.inner (FreeList._allocator s))),
   FreeList.mk
     (Spy.mk (snd (Allocator.allocate k (Spy.inner (FreeList._allocator s))))
             (calls_of s ++ [Spy.Allocate k]))
     (FreeList._root s) (FreeList._lowerBound s) (FreeList._upperBound s)).
Proof.
  rewrite delegate_allocate_spec. cbn [Allocator.allocate Spy.ops].
  unfold Spy.allocate.
  destruct (Allocator.allocate k (Spy.inner (FreeList._allocator s)));
    reflexivity.
Qed.

Lemma spy_delegate_deallocate b (s : FreeList.t (Spy.t A)) :
  @FreeList.delegate_deallocate _ (Spy.ops Ops) b s =
  (fst (Allocator.deallocate b (Spy.inner (FreeList._allocator s))),
   FreeList.mk
     (Spy.mk (snd (Allocator.deallocate b (Spy.inner (FreeList._allocator s))))
             (calls_of s ++ [Spy.Deallocate b]))
     (FreeList._root s) (FreeList._lowerBound s) (FreeList._upperBound s)).
Proof.
  unfold FreeList.delegate_deallocate. cbn [Allocator.deallocate Spy.ops].
  unfold Spy.deallocate.
  destruct (Allocator.deallocate b (Spy.inner (FreeList._allocator s)));
    reflexivity.
Qed.

(** The loop of the non-truncating branch when all its pushes fit. *)
Lemma spy_allocate_loop_fits todo blockSize (s : FreeList.t (Spy.t A)) :
  Z.of_nat (length (FreeList._root s)) + Z.of_nat todo <= PoolSize ->
  let r := @FreeList.allocate_loop _ (Spy.ops Ops) PoolSize todo blockSize s in
  calls_of (snd r) = calls_of s ++ repeat (Spy.Allocate blockSize) (S todo)
  /\ length (FreeList._root (snd r)) = (length (FreeList._root s) + todo)%nat.
Proof.
  revert s. induction todo as [| todo IH]; intros s Hroom;
    cbn [FreeList.allocate_loop]; rewrite spy_delegate_allocate.
  - cbn. split; [reflexivity | lia].
  - rewrite root_push_spec. cbn [FreeList._root].
    destruct (Z.ltb_spec (Z.of_nat (length (FreeList._root s))) PoolSize);
      [| lia].
    match goal with |- context [FreeList.allocate_loop _ _ _ ?s'] =>
      destruct (IH s') as [Hc Hl] end.
    { cbn [FreeList._root length]. lia. }
    cbv zeta. rewrite Hc, Hl.
    cbn [FreeList._allocator FreeList._root Spy.calls length].
    rewrite <- app_assoc. split; [reflexivity | lia].
Qed.

(** The same loop when the pool fills up before the loop is over: it stops
    at the first push that fails and returns the block of that push. *)
Lemma spy_allocate_loop_fills todo blockSize (s : FreeList.t (Spy.t A)) :
  Z.of_nat (length (FreeList._root s)) <= PoolSize ->
  PoolSize < Z.of_nat (length (FreeList._root s)) + Z.of_nat todo ->
  let r := @FreeList.allocate_loop _ (Spy.ops Ops) PoolSize todo blockSize s in
  calls_of (snd r)
  = calls_of s
    ++ repeat (Spy.Allocate blockSize)
         (S (Z.to_nat (PoolSize - Z.of_nat (length (FreeList._root s)))))
  /\ Z.of_nat (length (FreeList._root (snd r))) = PoolSize.
Proof.
  revert s. induction todo as [| todo IH]; intros s Hle Hlt; [lia |].
  cbn [FreeList.allocate_loop]. rewrite spy_delegate_allocate.
  rewrite root_push_spec. cbn [FreeList._root].
  destruct (Z.ltb_spec (Z.of_nat (length (FreeList._root s))) PoolSize).
  - match goal with |- context [FreeList.allocate_loop _ _ _ ?s'] =>
      destruct (IH s') as [Hc Hl] end.
    { cbn [FreeList._root length]. lia. }
    { cbn [FreeList._root length]. lia. }
    cbv zeta. rewrite Hc, Hl.
    cbn [FreeList._allocator FreeList._root Spy.calls length].
    rewrite <- app_assoc. split; [| reflexivity].
    replace (Z.to_nat (PoolSize - Z.of_nat (length (FreeList._root s))))
      with (S (Z.to_nat (PoolSize - Z.of_nat (S (length (FreeList._root s))))))
      by lia.
    reflexivity.
  - cbv zeta. cbn [snd FreeList._allocator FreeList._root Spy.calls].
    replace (PoolSize - Z.of_nat (length (FreeList._root s))) with 0 by lia.
    split; [reflexivity | lia].
Qed.

(** The loop of the truncating branch: the sub-blocks that fit go to the
    pool, the others go back to the delegate one by one. *)
Lemma spy_push_batch todo i batch blockSize (s : FreeList.t (Spy.t A)) :
  Z.of_nat (length (FreeList._root s)) <= PoolSize ->
  let addresses :=
    map (fun k => ptr_add (Block.ptr batch) (to_size_t (k * blockSize)))
        (seqZ i (Z.of_nat todo)) in
  let room := Z.to_nat (PoolSize - Z.of_nat (length (FreeList._root s))) in
  let s' := @FreeList.push_batch _ (Spy.ops Ops) PoolSize todo i batch
              blockSize s in
  FreeList._root s' = rev (take room addresses) ++ FreeList._root s
  /\ calls_of s'
     = calls_of s
       ++ map (fun p => Spy.Deallocate (Block.mk p blockSize))
              (drop room addresses).
Proof.
  revert i s. induction todo as [| todo IH]; intros i s Hle; cbv zeta.
  - cbn [FreeList.push_batch]. rewrite seqZ_nil by lia. cbn [map].
    rewrite take_nil, drop_nil, app_nil_r. split; reflexivity.
  - cbn [FreeList.push_batch].
    rewrite (seqZ_cons i (Z.of_nat (S todo))) by lia.
    replace (Z.pred (Z.of_nat (S todo))) with (Z.of_nat todo) by lia.
    replace (Z.succ i) with (i + 1) by lia.
    cbn [map]. rewrite root_push_spec.
    destruct (Z.ltb_spec (Z.of_nat (length (FreeList._root s))) PoolSize).
    + match goal with |- context [FreeList.push_batch _ _ _ _ _ ?s'] =>
        destruct (IH (i + 1) s') as [Hr Hc] end.
      { cbn [FreeList._root length]. lia. }
      rewrite Hr, Hc. cbn [FreeList._root FreeList._allocator length].
      replace (Z.to_nat (PoolSize - Z.of_nat (length (FreeList._root s))))
        with (S (Z.to_nat (PoolSize
                           - Z.of_nat (S (length (FreeList._root s))))))
        by lia.
      cbn [take drop rev]. rewrite <- app_assoc. split; reflexivity.
    + rewrite spy_delegate_deallocate. cbn [snd].
      match goal with |- context [FreeList.push_batch _ _ _ _ _ ?s'] =>
        destruct (IH (i + 1) s') as [Hr Hc] end.
      { exact Hle. }
      rewrite Hr, Hc.
      cbn [FreeList._root FreeList._allocator Spy.calls].
      replace (Z.to_nat (PoolSize - Z.of_nat (length (FreeList._root s))))
        with 0%nat by lia.
      rewrite !take_0, !drop_0. cbn [rev map app].
      rewrite <- app_assoc. split; reflexivity.
Qed.

Lemma spy_drain pool upper (a : Spy.t A) :
  Spy.calls (@FreeList.drain _ (Spy.ops Ops) pool upper a)
  = Spy.calls a ++ map (fun p => Spy.Deallocate (Block.mk p upper)) pool.
Proof.
  revert a. induction pool as [| p pool IH]; intros a; cbn [FreeList.drain map].
  - rewrite app_nil_r. reflexivity.
  - rewrite IH. cbn [Allocator.deallocate Spy.ops]. unfold Spy.deallocate.
    destruct (Allocator.deallocate (Block.mk p upper) (Spy.inner a)).
    cbn [snd Spy.calls]. rewrite <- app_assoc. reflexivity.
Qed.

Lemma spy_push_batch_calls todo i batch blockSize (s : FreeList.t (Spy.t A)) :
  exists l,
    calls_of (@FreeList.push_batch _ (Spy.ops Ops) PoolSize todo i batch
                blockSize s) = calls_of s ++ l
    /\ Forall (fun c => exists p, c = Spy.Deallocate (Block.mk p blockSize)) l.
Proof.
  revert i s. induction todo as [| todo IH]; intros i s.
  - exists []. rewrite app_nil_r. split; [reflexivity | constructor].
  - cbn [FreeList.push_batch]. rewrite root_push_spec.
    destruct (Z.of_nat (length (FreeList._root s)) <? PoolSize).
    + match goal with |- context [FreeList.push_batch _ _ _ _ _ ?s'] =>
        destruct (IH (i + 1) s') as [l [Hc Hl]] end.
      exists l. rewrite Hc. split; [reflexivity | exact Hl].
    + rewrite spy_delegate_deallocate. cbn [snd].
      match goal with |- context [FreeList.push_batch _ _ _ _ _ ?s'] =>
        destruct (IH (i + 1) s') as [l [Hc Hl]] end.
      eexists (_ :: l). rewrite Hc.
      cbn [FreeList._allocator Spy.calls]. rewrite <- app_assoc.
      split; [reflexivity |]. constructor; [eexists; reflexivity | exact Hl].
Qed.

Lemma spy_allocate_loop_calls todo blockSize (s : FreeList.t (Spy.t A)) :
  exists l,
    calls_of (snd (@FreeList.allocate_loop _ (Spy.ops Ops) PoolSize todo
                     blockSize s)) = calls_of s ++ l
    /\ Forall (fun c => c = Spy.Allocate blockSize) l.
Proof.
  revert s. induction todo as [| todo IH]; intros s;
    cbn [FreeList.allocate_loop]; rewrite spy_delegate_allocate.
  - eexists [_]. split; [reflexivity | repeat constructor].
  - rewrite root_push_spec. cbn [FreeList._root].
    destruct (Z.of_nat (length (FreeList._root s)) <? PoolSize).
    + match goal with |- context [FreeList.allocate_loop _ _ _ ?s'] =>
        destruct (IH s') as [l [Hc Hl]] end.
      eexists (_ :: l). rewrite Hc.
      cbn [FreeList._allocator Spy.calls]. rewrite <- app_assoc.
      split; [reflexivity |]. constructor; [reflexivity | exact Hl].
    + eexists [_]. split; [reflexivity | repeat constructor].
Qed.

(** X6: the destructor gives every pointer left in the pool back to the
    delegate, most recently pushed first, each as a block of the upper
    bound's length, and calls the delegate for nothing else: a pool of k
    pointers makes exactly k [deallocate] calls. *)
Theorem destroy_drains_pool (s : FreeList.t (Spy.t A)) :
  Spy.calls (@FreeList.destroy _ (Spy.ops Ops) s)
  = calls_of s
    ++ map (fun p => Spy.Deallocate (Block.mk p (FreeList._upperBound s)))
           (FreeList._root s).
Proof. unfold FreeList.destroy. apply spy_drain. Qed.

(** X7: without truncated deallocation, an in-bounds [allocate] on an
    empty pool with room for [N - 1] pointers asks the delegate [N] times
    for [upper] bytes, one block at a time, parks [N - 1] pointers in the
    pool and makes no other delegate call. *)
Theorem allocate_batch_one_by_one (n : Z) (s : FreeList.t (Spy.t A)) :
  @Allocator.supports_truncated_deallocation A Ops = false ->
  1 <= N < unsigned_modulus ->
  N - 1 <= PoolSize ->
  FreeList._lowerBound s <= n <= FreeList._upperBound s ->
  FreeList._root s = [] ->
  calls_of (snd (spied_allocate n s))
  = calls_of s
    ++ repeat (Spy.Allocate (FreeList._upperBound s)) (Z.to_nat N)
  /\ Z.of_nat (length (FreeList._root (snd (spied_allocate n s)))) = N - 1.
Proof.
  intros Htrunc HN Hroom Hn Hempty.
  unfold FreeList.allocate, FreeList.in_bounds.
  destruct (Z.leb_spec (FreeList._lowerBound s) n); [| lia].
  destruct (Z.leb_spec n (FreeList._upperBound s)); [| lia].
  cbn [andb]. rewrite root_pop_spec, Hempty.
  cbn [Allocator.supports_truncated_deallocation Spy.ops]. rewrite Htrunc.
  unfold to_unsigned. rewrite Z.mod_small by lia.
  destruct (spy_allocate_loop_fits (Z.to_nat (N - 1)) (FreeList._upperBound s) s)
    as [Hc Hl].
  { rewrite Hempty. cbn [length]. lia. }
  rewrite Hc, Hl, Hempty. cbn [length].
  replace (S (Z.to_nat (N - 1))) with (Z.to_nat N) by lia.
  split; [reflexivity | lia].
Qed.

(** X8: without truncated deallocation, when the loop bound
    [NumberOfBatchAllocations - 1] (an [unsigned]: 4294967295 for a batch
    size of 0) exceeds the capacity of the pool, an in-bounds [allocate]
    on an empty pool fills the pool to its capacity and returns the block
    of the first push that fails: [PoolSize + 1] delegate allocations of
    [upper] bytes. *)
Theorem allocate_batch_fills_pool (n : Z) (s : FreeList.t (Spy.t A)) :
  @Allocator.supports_truncated_deallocation A Ops = false ->
  0 <= PoolSize < to_unsigned (N - 1) ->
  FreeList._lowerBound s <= n <= FreeList._upperBound s ->
  FreeList._root s = [] ->
  calls_of (snd (spied_allocate n s))
  = calls_of s
    ++ repeat (Spy.Allocate (FreeList._upperBound s)) (S (Z.to_nat PoolSize))
  /\ Z.of_nat (length (FreeList._root (snd (spied_allocate n s)))) = PoolSize.
Proof.
  intros Htrunc HP Hn Hempty.
  unfold FreeList.allocate, FreeList.in_bounds.
  destruct (Z.leb_spec (FreeList._lowerBound s) n); [| lia].
  destruct (Z.leb_spec n (FreeList._upperBound s)); [| lia].
  cbn [andb]. rewrite root_pop_spec, Hempty.
  cbn [Allocator.supports_truncated_deallocation Spy.ops]. rewrite Htrunc.
  destruct (spy_allocate_loop_fills (Z.to_nat (to_unsigned (N - 1)))
              (FreeList._upperBound s) s) as [Hc Hl].
  { rewrite Hempty. cbn [length]. lia. }
  { rewrite Hempty. cbn [length]. lia. }
  rewrite Hc, Hl, Hempty. cbn [length].
  replace (PoolSize - Z.of_nat 0) with PoolSize by lia.
  split; reflexivity.
Qed.

(** X9: in a build without assertions ([NDEBUG], where the
    [BOOST_ASSERT(false)] of line 164 is compiled out and the lines after
    it run), with truncated deallocation, when the batch allocation
    succeeds on an empty pool, no sub-block is lost: of the addresses
    [base + i * upper], [i] from 1 to [N - 1], the first [PoolSize] are in
    the pool afterwards and each of the others has been given back to the
    delegate as a block of [upper] bytes; the block at [base] is
    returned. *)
Theorem allocate_batch_keeps_or_returns (n : Z) (s : FreeList.t (Spy.t A)) :
  let upper := FreeList._upperBound s in
  let request := to_size_t (upper * N) in
  let batch :=
    fst (Allocator.allocate request (Spy.inner (FreeList._allocator s))) in
  let addresses :=
    map (fun i => ptr_add (Block.ptr batch) (to_size_t (i * upper)))
        (seqZ 1 (N - 1)) in
  @Allocator.supports_truncated_deallocation A Ops = true ->
  0 <= PoolSize ->
  FreeList._lowerBound s <= n <= upper ->
  FreeList._root s = [] ->
  Block.to_bool batch = true ->
  fst (spied_allocate n s) = Block.mk (Block.ptr batch) upper
  /\ FreeList._root (snd (spied_allocate n s))
     = rev (take (Z.to_nat PoolSize) addresses)
  /\ calls_of (snd (spied_allocate n s))
     = calls_of s
       ++ Spy.Allocate request
          :: map (fun p => Spy.Deallocate (Block.mk p upper))
                 (drop (Z.to_nat PoolSize) addresses).
Proof.
  intros upper request batch addresses Htrunc HP Hn Hempty Hbatch.
  unfold FreeList.allocate, FreeList.in_bounds.
  destruct (Z.leb_spec (FreeList._lowerBound s) n); [| lia].
  destruct (Z.leb_spec n (FreeList._upperBound s)); [| subst upper; lia].
  cbn [andb]. rewrite root_pop_spec, Hempty.
  cbn [Allocator.supports_truncated_deallocation Spy.ops]. rewrite Htrunc.
  rewrite spy_delegate_allocate. fold upper. fold request. fold batch.
  rewrite Hbatch. cbn [fst snd].
  match goal with |- context [FreeList.push_batch _ ?t ?i ?b ?k ?s'] =>
    destruct (spy_push_batch t i b k s') as [Hr Hc] end.
  { cbn [FreeList._root]. rewrite Hempty. cbn [length]. lia. }
  rewrite Hr, Hc. cbn [FreeList._root FreeList._allocator Spy.calls].
  rewrite Hempty, app_nil_r. cbn [length].
  replace (PoolSize - Z.of_nat 0) with PoolSize by lia.
  assert (Hs : seqZ 1 (Z.of_nat (Z.to_nat (N - 1))) = seqZ 1 (N - 1)).
  { destruct (Z.le_gt_cases 1 N) as [H1 | H1].
    - rewrite Z2Nat.id by lia. reflexivity.
    - replace (Z.to_nat (N - 1)) with 0%nat by lia.
      rewrite !seqZ_nil by lia. reflexivity. }
  rewrite Hs. fold addresses. rewrite <- app_assoc.
  repeat split; reflexivity.
Qed.

(** X10: with truncated deallocation, when the batch allocation fails on
    an empty pool, [allocate] falls back to a single request for [upper]
    bytes and returns the delegate's answer to it: two delegate calls in
    all, and the pool stays empty. *)
Theorem allocate_batch_fallback (n : Z) (s : FreeList.t (Spy.t A)) :
  let upper := FreeList._upperBound s in
  let request := to_size_t (upper * N) in
  let first := Allocator.allocate request (Spy.inner (FreeList._allocator s)) in
  @Allocator.supports_truncated_deallocation A Ops = true ->
  FreeList._lowerBound s <= n <= upper ->
  FreeList._root s = [] ->
  Block.to_bool (fst first) = false ->
  fst (spied_allocate n s) = fst (Allocator.allocate upper (snd first))
  /\ FreeList._root (snd (spied_allocate n s)) = []
  /\ calls_of (snd (spied_allocate n s))
     = calls_of s ++ [Spy.Allocate request; Spy.Allocate upper].
Proof.
  intros upper request first Htrunc Hn Hempty Hfail.
  unfold FreeList.allocate, FreeList.in_bounds.
  destruct (Z.leb_spec (FreeList._lowerBound s) n); [| lia].
  destruct (Z.leb_spec n (FreeList._upperBound s)); [| subst upper; lia].
  cbn [andb]. rewrite root_pop_spec, Hempty.
  cbn [Allocator.supports_truncated_deallocation Spy.ops]. rewrite Htrunc.
  rewrite spy_delegate_allocate. fold upper. fold request. fold first.
  rewrite Hfail, spy_delegate_allocate.
  cbn [fst snd FreeList._root FreeList._allocator Spy.calls Spy.inner].
  rewrite <- app_assoc. repeat split; [exact Hempty].
Qed.

(** X11: the requested size never reaches the delegate.  Whatever the
    state and the request, the delegate calls made by one [allocate] are
    allocations of [upper] bytes or of the batch ([upper * N] as a
    [size_t]) and deallocations of blocks of [upper] bytes. *)
Theorem allocate_requests_only_upper (n : Z) (s : FreeList.t (Spy.t A)) :
  exists l,
    calls_of (snd (spied_allocate n s)) = calls_of s ++ l
    /\ Forall
         (fun c =>
            c = Spy.Allocate (FreeList._upperBound s)
            \/ c = Spy.Allocate (to_size_t (FreeList._upperBound s * N))
            \/ exists p,
                 c = Spy.Deallocate (Block.mk p (FreeList._upperBound s)))
         l.
Proof.
  unfold FreeList.allocate.
  destruct (FreeList.in_bounds n s);
    [| exists []; rewrite app_nil_r; split; [reflexivity | constructor]].
  rewrite root_pop_spec.
  destruct (FreeList._root s) as [| v r] eqn:Hroot;
    [| exists []; rewrite app_nil_r; split; [reflexivity | constructor]].
  cbn [Allocator.supports_truncated_deallocation Spy.ops].
  destruct (@Allocator.supports_truncated_deallocation A Ops).
  - rewrite spy_delegate_allocate.
    match goal with |- context [if Block.to_bool ?x then _ else _] =>
      destruct (Block.to_bool x) end; cbn [snd].
    + match goal with |- context [FreeList.push_batch _ ?t ?i ?b ?k ?s'] =>
        destruct (spy_push_batch_calls t i b k s') as [l [Hc Hl]] end.
      eexists (_ :: l). rewrite Hc.
      cbn [FreeList._allocator Spy.calls]. rewrite <- app_assoc.
      split; [reflexivity |].
      constructor; [right; left; reflexivity |].
      eapply Forall_impl; [exact Hl |]. intros c Hcall. right; right. exact Hcall.
    + rewrite spy_delegate_allocate.
      cbn [snd FreeList._allocator Spy.calls]. rewrite <- app_assoc.
      eexists [_; _]. split; [reflexivity |].
      constructor; [right; left; reflexivity |].
      constructor; [left; reflexivity | constructor].
  - destruct (spy_allocate_loop_calls
                (Z.to_nat (to_unsigned (N - 1))) (FreeList._upperBound s) s)
      as [l [Hc Hl]].
    exists l. split; [exact Hc |].
    eapply Forall_impl; [exact Hl |]. intros c Hcall. left. exact Hcall.
Qed.

End freelist_calls.

(** *** The free list on concrete configurations, continued *)

Lemma allocate_out_of_bounds_witness :
  @FreeList.allocate _ (Spy.ops (Region.ops false)) 4 2 64 Fixtures.spied
  = (Block.empty, Fixtures.spied).
Proof. apply allocate_out_of_bounds. right. simpl. lia. Defined.

Lemma allocate_from_pool_witness :
  @FreeList.allocate _ (Spy.ops (Region.ops false)) 4 2 20
    (FreeList.mk (Spy.mk Fixtures.region []) [5000; 6000] 16 32)
  = (Block.mk 5000 32,
     FreeList.mk (Spy.mk Fixtures.region []) [6000] 16 32).
Proof.
  apply (@allocate_from_pool _ (Spy.ops (Region.ops false)) 4 2 20 5000 [6000]);
    [simpl; lia | reflexivity].
Defined.

Lemma deallocate_owned_witness :
  @FreeList.deallocate _ (Spy.ops (Region.ops false)) 1 (Block.mk 5000 20)
    Fixtures.spied
  = (Block.empty, FreeList.mk (Spy.mk Fixtures.region []) [5000] 16 32)
  /\ @FreeList.deallocate _ (Spy.ops (Region.ops false)) 1 (Block.mk 7000 20)
       (FreeList.mk (Spy.mk Fixtures.region []) [5000] 16 32)
     = (Block.empty,
        FreeList.mk
          (Spy.mk Fixtures.region [Spy.Deallocate (Block.mk 7000 20)])
          [5000] 16 32).
Proof.
  split.
  - exact (@deallocate_owned _ (Spy.ops (Region.ops false)) 1
             (Block.mk 5000 20) Fixtures.spied eq_refl
             ltac:(simpl; lia)).
  - exact (@deallocate_owned _ (Spy.ops (Region.ops false)) 1
             (Block.mk 7000 20)
             (FreeList.mk (Spy.mk Fixtures.region []) [5000] 16 32) eq_refl
             ltac:(simpl; lia)).
Defined.

Lemma deallocate_then_allocate_witness :
  @FreeList.allocate _ (Spy.ops (Region.ops false)) 4 2 16
    (snd (@FreeList.deallocate _ (Spy.ops (Region.ops false)) 4
            (Block.mk 5000 20) Fixtures.spied))
  = (Block.mk 5000 32, Fixtures.spied).
Proof.
  apply (@deallocate_then_allocate _ (Spy.ops (Region.ops false)) 4 2
           (Block.mk 5000 20) 16 Fixtures.spied);
    [reflexivity | simpl; lia | simpl; lia | simpl; lia].
Defined.

Lemma pool_within_capacity_witness :
  Z.of_nat (length (FreeList._root
    (snd (@FreeList.allocate _ (Spy.ops (Region.ops false)) 1 3 16
            Fixtures.spied)))) <= 1
  /\ Z.of_nat (length (FreeList._root
       (snd (@FreeList.deallocate _ (Spy.ops (Region.ops false)) 1
               (Block.mk 5000 20) Fixtures.spied)))) <= 1.
Proof.
  apply (@pool_within_capacity _ (Spy.ops (Region.ops false)) 1 3 16
           (Block.mk 5000 20) Fixtures.spied).
  simpl. lia.
Defined.

Lemma allocate_batch_one_by_one_witness :
  Spy.calls (FreeList._allocator
    (snd (@FreeList.allocate _ (Spy.ops (Region.ops false)) 4 3 16
            Fixtures.spied)))
  = [Spy.Allocate 32; Spy.Allocate 32; Spy.Allocate 32]
  /\ Z.of_nat (length (FreeList._root
       (snd (@FreeList.allocate _ (Spy.ops (Region.ops false)) 4 3 16
               Fixtures.spied)))) = 2.
Proof.
  apply (allocate_batch_one_by_one (Region.ops false) 4 3 16 Fixtures.spied);
    [reflexivity | unfold unsigned_modulus; lia | lia | simpl; lia
    | reflexivity].
Defined.

Lemma allocate_batch_fills_pool_witness :
  Spy.calls (FreeList._allocator
    (snd (@FreeList.allocate _ (Spy.ops (Region.ops false)) 2 0 16
            Fixtures.spied)))
  = Spy.calls (FreeList._allocator Fixtures.spied)
    ++ repeat (Spy.Allocate (FreeList._upperBound Fixtures.spied))
         (S (Z.to_nat 2))
  /\ Z.of_nat (length (FreeList._root
       (snd (@FreeList.allocate _ (Spy.ops (Region.ops false)) 2 0 16
               Fixtures.spied)))) = 2.
Proof.
  apply (allocate_batch_fills_pool (Region.ops false) 2 0 16 Fixtures.spied);
    [reflexivity
    | cbv; split; [intro; discriminate | reflexivity]
    | simpl; lia
    | reflexivity].
Defined.

Lemma allocate_batch_keeps_or_returns_witness :
  let r := @FreeList.allocate _ (Spy.ops (Region.ops true)) 3 8 16
             Fixtures.spied in
  fst r = Block.mk 4096 32
  /\ FreeList._root (snd r) = [4192; 4160; 4128]
  /\ Spy.calls (FreeList._allocator (snd r))
     = [Spy.Allocate 256;
        Spy.Deallocate (Block.mk 4224 32); Spy.Deallocate (Block.mk 4256 32);
        Spy.Deallocate (Block.mk 4288 32); Spy.Deallocate (Block.mk 4320 32)].
Proof.
  exact (allocate_batch_keeps_or_returns (Region.ops true) 3 8 16
           Fixtures.spied eq_refl ltac:(lia) ltac:(simpl; lia) eq_refl
           eq_refl).
Defined.

Lemma allocate_batch_fallback_witness :
  let s := FreeList.create (Spy.mk (Region.mk 4096 4200) []) 16 32 in
  let r := @FreeList.allocate _ (Spy.ops (Region.ops true)) 4 8 16 s in
  fst r = Block.mk 4096 32
  /\ FreeList._root (snd r) = []
  /\ Spy.calls (FreeList._allocator (snd r))
     = [Spy.Allocate 256; Spy.Allocate 32].
Proof.
  exact (allocate_batch_fallback (Region.ops true) 4 8 16
           (FreeList.create (Spy.mk (Region.mk 4096 4200) []) 16 32)
           eq_refl ltac:(simpl; lia) eq_refl eq_refl).
Defined.

(** * Further properties of the statistics decorator *)

Section stats_counters.
Context {A : Type} {Ops : Allocator.ops A}.
Variable Flags : Z.
Variable prefix : A -> Block.t -> Z.
Variables delegate_reallocate delegate_expand
  : Block.t -> Z -> A -> bool * Block.t * A.
Variable uninitialized : Stats.AllocationInfo.

Local Abbreviation step :=
  (Stats.step Flags prefix delegate_reallocate delegate_expand uninitialized).
Local Abbreviation run :=
  (Stats.run Flags prefix delegate_reallocate delegate_expand uninitialized).

(** *** Reading a counter after each helper *)

Lemma get_put_other c c' v (s : Stats.t A) :
  c <> c' -> Stats.get c (Stats.put c' v s) = Stats.get c s.
Proof. destruct s, c, c'; intros H; (reflexivity || contradiction). Qed.

Lemma get_put_same c v (s : Stats.t A) : Stats.get c (Stats.put c v s) = v.
Proof. destruct s, c; reflexivity. Qed.

Lemma get_with_allocator c a (s : Stats.t A) :
  Stats.get c (Stats.with_allocator a s) = Stats.get c s.
Proof. destruct s, c; reflexivity. Qed.

Lemma get_with_root c r (s : Stats.t A) :
  Stats.get c (Stats.with_root r s) = Stats.get c s.
Proof. destruct s, c; reflexivity. Qed.

Lemma get_with_headers c h (s : Stats.t A) :
  Stats.get c (Stats.with_headers h s) = Stats.get c s.
Proof. destruct s, c; reflexivity. Qed.

Lemma get_write c p f (s : Stats.t A) :
  Stats.get c (Stats.write uninitialized p f s) = Stats.get c s.
Proof. apply get_with_headers. Qed.

Lemma get_set c option p f (s : Stats.t A) :
  Stats.get c (Stats.set Flags uninitialized option p f s) = Stats.get c s.
Proof.
  unfold Stats.set. destruct (Stats.enabled _ _); [apply get_write | reflexivity].
Qed.

Lemma get_up_other c option c' (s : Stats.t A) :
  c <> c' -> Stats.get c (Stats.up Flags option c' s) = Stats.get c s.
Proof.
  intros H. unfold Stats.up.
  destruct (Stats.enabled _ _); [apply get_put_other, H | reflexivity].
Qed.

Lemma get_upOK_other c option c' ok (s : Stats.t A) :
  c <> c' -> Stats.get c (Stats.upOK Flags option c' ok s) = Stats.get c s.
Proof.
  intros H. unfold Stats.upOK.
  destruct (Stats.enabled _ _ && ok); [apply get_put_other, H | reflexivity].
Qed.

Lemma get_add_other c option c' delta (s : Stats.t A) :
  c <> c' -> Stats.get c (Stats.add Flags option c' delta s) = Stats.get c s.
Proof.
  intros H. unfold Stats.add.
  destruct (Stats.enabled _ _); [apply get_put_other, H | reflexivity].
Qed.

Lemma get_updateHighTide_other c (s : Stats.t A) :
  c <> Stats.bytesHighTide ->
  Stats.get c (Stats.updateHighTide Flags s) = Stats.get c s.
Proof.
  intros H. unfold Stats.updateHighTide.
  destruct (Stats.enabled _ _); [| reflexivity].
  destruct (_ <? _); [apply get_put_other, H | reflexivity].
Qed.

Lemma get_up_same option c (s : Stats.t A) :
  Stats.get c (Stats.up Flags option c s)
  = if Stats.enabled Flags option then to_size_t (Stats.get c s + 1)
    else Stats.get c s.
Proof.
  unfold Stats.up. destruct (Stats.enabled _ _); [apply get_put_same | reflexivity].
Qed.

Lemma get_upOK_same option c ok (s : Stats.t A) :
  Stats.get c (Stats.upOK Flags option c ok s)
  = if Stats.enabled Flags option && ok then to_size_t (Stats.get c s + 1)
    else Stats.get c s.
Proof.
  unfold Stats.upOK.
  destruct (Stats.enabled _ _ && ok); [apply get_put_same | reflexivity].
Qed.

Lemma get_add_same option c delta (s : Stats.t A) :
  Stats.get c (Stats.add Flags option c delta s)
  = if Stats.enabled Flags option then to_size_t (Stats.get c s + delta)
    else Stats.get c s.
Proof.
  unfold Stats.add. destruct (Stats.enabled _ _); [| reflexivity].
  rewrite get_put_same. apply to_size_t_add_ssize_t.
Qed.

Lemma up_disabled option c (s : Stats.t A) :
  Stats.enabled Flags option = false -> Stats.up Flags option c s = s.
Proof. intros H. unfold Stats.up. rewrite H. reflexivity. Qed.

Lemma upOK_disabled option c ok (s : Stats.t A) :
  Stats.enabled Flags option = false -> Stats.upOK Flags option c ok s = s.
Proof. intros H. unfold Stats.upOK. rewrite H. reflexivity. Qed.

Lemma add_disabled option c delta (s : Stats.t A) :
  Stats.enabled Flags option = false -> Stats.add Flags option c delta s = s.
Proof. intros H. unfold Stats.add. rewrite H. reflexivity. Qed.

Lemma updateHighTide_disabled (s : Stats.t A) :
  Stats.enabled Flags StatsOptions.bytesHighTide = false ->
  Stats.updateHighTide Flags s = s.
Proof. intros H. unfold Stats.updateHighTide. rewrite H. reflexivity. Qed.

(** *** Reading a counter after each operation: only the counter part of
    the operation matters *)

Lemma get_allocate c n file function line now (s : Stats.t A) :
  Stats.get c
    (snd (Stats.allocate Flags prefix uninitialized n file function line now s))
  = Stats.get c
      (Stats.updateHighTide Flags
         (Stats.add Flags StatsOptions.bytesAllocated Stats.bytesAllocated
            (Block.length (fst (Allocator.allocate n (Stats._allocator s))))
            (Stats.upOK Flags StatsOptions.numAllocateOK Stats.numAllocateOK
               ((0 <? n)
                && Block.to_bool
                     (fst (Allocator.allocate n (Stats._allocator s))))
               (Stats.up Flags StatsOptions.numAllocate Stats.numAllocate
                  (Stats.with_allocator
                     (snd (Allocator.allocate n (Stats._allocator s))) s))))).
Proof.
  unfold Stats.allocate.
  destruct (Allocator.allocate n (Stats._allocator s)) as [result a].
  cbn [fst snd].
  destruct (Block.to_bool result && _); [destruct (negb _) |]; cbn [snd];
    rewrite ?get_with_root, ?get_write, ?get_set; reflexivity.
Qed.

Lemma get_deallocate c b (s : Stats.t A) :
  Stats.get c (snd (Stats.deallocate Flags prefix uninitialized b s))
  = Stats.get c
      (Stats.add Flags StatsOptions.bytesDeallocated Stats.bytesDeallocated
         (Block.length b)
         (Stats.up Flags StatsOptions.numDeallocate Stats.numDeallocate s)).
Proof.
  unfold Stats.deallocate.
  match goal with |- context [Allocator.deallocate b ?a] =>
    destruct (Allocator.deallocate b a) as [b' a'] end.
  cbn [snd]. rewrite get_with_allocator.
  destruct (Block.to_bool b && _); [| reflexivity].
  match goal with |- context [if ?c then Stats.with_root _ _ else _] =>
    destruct c end;
  rewrite ?get_with_root;
  repeat match goal with |- context [if negb ?c then _ else _] =>
    destruct (negb c) end;
  rewrite ?get_write; reflexivity.
Qed.

(** Reading a counter that the helper at hand does not refer to. *)
Ltac skip_other_counters :=
  repeat first
    [ rewrite get_updateHighTide_other by discriminate
    | rewrite get_up_other by discriminate
    | rewrite get_upOK_other by discriminate
    | rewrite get_add_other by discriminate
    | rewrite get_with_allocator ].

(** The same, with the helpers of a disabled flag dropped. *)
Ltac skip_disabled H :=
  repeat first
    [ rewrite (updateHighTide_disabled _ H)
    | rewrite (up_disabled _ _ _ H)
    | rewrite (upOK_disabled _ _ _ _ H)
    | rewrite (add_disabled _ _ _ _ H)
    | rewrite get_updateHighTide_other by discriminate
    | rewrite get_up_other by discriminate
    | rewrite get_upOK_other by discriminate
    | rewrite get_add_other by discriminate
    | rewrite get_with_allocator ].

(** Opening [reallocate] and [expand] into their paths. *)
Ltac open_reallocate b n :=
  unfold Stats.reallocate;
  destruct (delegate_reallocate b n _) as [[[|] ?b'] ?a']; cbn [negb snd];
  [ match goal with |- context [if ?c =? ?d then _ else _] =>
      destruct (c =? d) end;
    [ match goal with |- context [if 0 <? ?d then _ else _] =>
        destruct (0 <? d) end | ]
  | ].

Ltac open_expand b delta :=
  unfold Stats.expand;
  destruct (delegate_expand b delta _) as [[[|] ?b'] ?a']; cbn [snd].

Lemma step_frozen c o (s : Stats.t A) :
  Stats.enabled Flags (Counters.flag_of c) = false ->
  Stats.get c (step o s) = Stats.get c s.
Proof.
  intros H. destruct o as [n f g l t | b | b n | b delta]; cbn [Stats.step].
  - rewrite get_allocate.
    destruct c; cbn [Counters.flag_of] in H; skip_disabled H; reflexivity.
  - rewrite get_deallocate.
    destruct c; cbn [Counters.flag_of] in H; skip_disabled H; reflexivity.
  - open_reallocate b n;
      destruct c; cbn [Counters.flag_of] in H; skip_disabled H; reflexivity.
  - open_expand b delta;
      destruct c; cbn [Counters.flag_of] in H; skip_disabled H; reflexivity.
Qed.

(** X12: a counter whose flag is not set is never written: it holds the
    same value after any run of operations as before it. *)
Theorem counter_without_flag_is_frozen (c : Stats.counter)
    (os : list Stats.operation) (s : Stats.t A) :
  Stats.enabled Flags (Counters.flag_of c) = false ->
  Stats.get c (run os s) = Stats.get c s.
Proof.
  intros H. revert s. induction os as [| o os IH]; intros s; [reflexivity |].
  cbn [Stats.run]. rewrite IH. apply step_frozen, H.
Qed.

Lemma step_never_written o (s : Stats.t A) :
  Stats._numOwns (step o s) = Stats._numOwns s
  /\ Stats._numDeallocateAll (step o s) = Stats._numDeallocateAll s
  /\ Stats._bytesSlack (step o s) = Stats._bytesSlack s.
Proof.
  change (Stats.get Stats.numOwns (step o s) = Stats.get Stats.numOwns s
          /\ Stats.get Stats.numDeallocateAll (step o s)
             = Stats.get Stats.numDeallocateAll s
          /\ Stats.get Stats.bytesSlack (step o s)
             = Stats.get Stats.bytesSlack s).
  destruct o as [n f g l t | b | b n | b delta]; cbn [Stats.step].
  - rewrite !get_allocate. repeat split; skip_other_counters; reflexivity.
  - rewrite !get_deallocate. repeat split; skip_other_counters; reflexivity.
  - open_reallocate b n; repeat split; skip_other_counters; reflexivity.
  - open_expand b delta; repeat split; skip_other_counters; reflexivity.
Qed.

(** X13: [numOwns], [numDeallocateAll] and [bytesSlack] are never written
    by [allocate], [deallocate], [reallocate] or [expand], whatever the
    flags: after any run they hold what they held before it. *)
Theorem counters_never_written (os : list Stats.operation) (s : Stats.t A) :
  Stats._numOwns (run os s) = Stats._numOwns s
  /\ Stats._numDeallocateAll (run os s) = Stats._numDeallocateAll s
  /\ Stats._bytesSlack (run os s) = Stats._bytesSlack s.
Proof.
  revert s. induction os as [| o os IH]; intros s; [repeat split |].
  cbn [Stats.run]. destruct (IH (step o s)) as [H1 [H2 H3]].
  destruct (step_never_written o s) as [G1 [G2 G3]].
  rewrite H1, H2, H3, G1, G2, G3. repeat split.
Qed.

Lemma step_call_counter like o (s : Stats.t A) :
  Stats.enabled Flags (Counters.flag_of (Counters.call_counter like)) = true ->
  Stats.get (Counters.call_counter like) (step o s)
  = if Counters.same_operation like o
    then to_size_t (Stats.get (Counters.call_counter like) s + 1)
    else Stats.get (Counters.call_counter like) s.
Proof.
  intros H.
  destruct o as [n f g l t | b | b n | b delta]; cbn [Stats.step];
    [ rewrite get_allocate | rewrite get_deallocate
    | open_reallocate b n | open_expand b delta ];
    destruct like;
    cbn [Counters.call_counter Counters.flag_of Counters.same_operation] in H |- *;
    skip_other_counters; rewrite ?get_up_same, ?H; skip_other_counters;
    reflexivity.
Qed.

Lemma run_call_counter like os (s : Stats.t A) :
  Stats.enabled Flags (Counters.flag_of (Counters.call_counter like)) = true ->
  0 <= Stats.get (Counters.call_counter like) s < size_t_modulus ->
  Stats.get (Counters.call_counter like) (run os s)
  = to_size_t (Stats.get (Counters.call_counter like) s
               + Z.of_nat (Counters.calls like os)).
Proof.
  intros H. revert s. induction os as [| o os IH]; intros s Hrange.
  - cbn. rewrite Z.add_0_r, to_size_t_small by exact Hrange. reflexivity.
  - cbn [Stats.run]. pose proof (step_call_counter like o s H) as Hstep.
    unfold Counters.calls in *. rewrite filter_cons.
    destruct (Counters.same_operation like o).
    + rewrite decide_True by reflexivity.
      rewrite IH by (rewrite Hstep; apply to_size_t_range).
      rewrite Hstep. cbn [length]. unfold to_size_t.
      rewrite Zplus_mod_idemp_l. f_equal. lia.
    + rewrite decide_False by discriminate.
      rewrite IH by (rewrite Hstep; exact Hrange).
      rewrite Hstep. reflexivity.
Qed.

(** X14: a call counter whose flag is set counts every call, whatever the
    arguments and the outcome: after a run from a fresh instance,
    [numAllocate], [numDeallocate], [numReallocate] and [numExpand] hold
    the number of [allocate], [deallocate], [reallocate] and [expand]
    calls of the run (as a [size_t]). *)
Theorem call_counters_count_calls (like : Stats.operation)
    (os : list Stats.operation) (a : A) (h : gmap Z Stats.AllocationInfo) :
  Stats.enabled Flags (Counters.flag_of (Counters.call_counter like)) = true ->
  Stats.get (Counters.call_counter like) (run os (Stats.create a h))
  = to_size_t (Z.of_nat (Counters.calls like os)).
Proof.
  intros H. rewrite run_call_counter; [| exact H |].
  - destruct like; reflexivity.
  - destruct like; cbn; unfold size_t_modulus; lia.
Qed.

Lemma updateHighTide_raises (s : Stats.t A) :
  Stats._bytesHighTide s <= Stats._bytesHighTide (Stats.updateHighTide Flags s).
Proof.
  unfold Stats.updateHighTide. destruct (Stats.enabled _ _); [| lia].
  match goal with |- context [?h <? ?c] => destruct (Z.ltb_spec h c) end;
    [| lia].
  change (Stats._bytesHighTide (Stats.put Stats.bytesHighTide ?v ?x))
    with (Stats.get Stats.bytesHighTide (Stats.put Stats.bytesHighTide v x)).
  rewrite get_put_same. lia.
Qed.

Lemma step_high_tide_grows o (s : Stats.t A) :
  Stats._bytesHighTide s <= Stats._bytesHighTide (step o s).
Proof.
  assert (Hraise : forall x : Stats.t A,
             Stats.get Stats.bytesHighTide x = Stats.get Stats.bytesHighTide s ->
             Stats._bytesHighTide s
             <= Stats.get Stats.bytesHighTide (Stats.updateHighTide Flags x)).
  { intros x Hx. pose proof (updateHighTide_raises x) as Hr.
    change (Stats._bytesHighTide x) with (Stats.get Stats.bytesHighTide x) in Hr.
    rewrite Hx in Hr. exact Hr. }
  change (Stats._bytesHighTide (step o s))
    with (Stats.get Stats.bytesHighTide (step o s)).
  destruct o as [n f g l t | b | b n | b delta]; cbn [Stats.step].
  - rewrite get_allocate. apply Hraise. skip_other_counters. reflexivity.
  - rewrite get_deallocate. skip_other_counters. cbn. lia.
  - open_reallocate b n;
      try (apply Hraise; skip_other_counters; reflexivity).
    skip_other_counters. cbn. lia.
  - open_expand b delta;
      try (apply Hraise; skip_other_counters; reflexivity).
    skip_other_counters. cbn. lia.
Qed.

(** X15: the high tide never goes down: after any run of operations,
    under any flags, it is at least what it was before. *)
Theorem high_tide_never_decreases (os : list Stats.operation)
    (s : Stats.t A) :
  Stats._bytesHighTide s <= Stats._bytesHighTide (run os s).
Proof.
  revert s. induction os as [| o os IH]; intros s; [cbn; lia |].
  cbn [Stats.run]. pose proof (step_high_tide_grows o s).
  pose proof (IH (step o s)). lia.
Qed.

(** X16: the decorator passes requests and answers through: [allocate]
    and [deallocate] return the block that the internal delegate returns
    for the same argument, and leave the delegate in the state that this
    one call puts it in. *)
Theorem decorator_passes_through (n file function line now : Z)
    (b : Block.t) (s : Stats.t A) :
  let r := Stats.allocate Flags prefix uninitialized n file function line
             now s in
  let d := Stats.deallocate Flags prefix uninitialized b s in
  fst r = fst (Allocator.allocate n (Stats._allocator s))
  /\ Stats._allocator (snd r) = snd (Allocator.allocate n (Stats._allocator s))
  /\ fst d = fst (Allocator.deallocate b (Stats._allocator s))
  /\ Stats._allocator (snd d)
     = snd (Allocator.deallocate b (Stats._allocator s)).
Proof.
  cbv zeta. split; [apply allocate_result |]. split.
  - unfold Stats.allocate.
    destruct (Allocator.allocate n (Stats._allocator s)) as [result a].
    assert (Ha : forall x : Stats.t A,
               Stats._allocator x = a ->
               Stats._allocator
                 (Stats.updateHighTide Flags
                    (Stats.add Flags StatsOptions.bytesAllocated
                       Stats.bytesAllocated (Block.length result)
                       (Stats.upOK Flags StatsOptions.numAllocateOK
                          Stats.numAllocateOK
                          ((0 <? n) && Block.to_bool result)
                          (Stats.up Flags StatsOptions.numAllocate
                             Stats.numAllocate x)))) = a).
    { intros x Hx. unfold Stats.updateHighTide, Stats.add, Stats.upOK, Stats.up.
      repeat match goal with |- context [if ?c then _ else _] =>
        destruct c end;
      rewrite ?allocator_put; exact Hx. }
    specialize (Ha (Stats.with_allocator a s)
                  ltac:(destruct s; reflexivity)).
    cbn [snd].
    destruct (Block.to_bool result && _); [| exact Ha].
    unfold Stats.set, Stats.write.
    destruct (negb _);
      repeat match goal with |- context [if Stats.enabled ?F ?o then _ else _] =>
        destruct (Stats.enabled F o) end;
      cbn [snd];
      repeat match goal with
        |- context [Stats._allocator (Stats.with_root ?r ?x)] =>
          replace (Stats._allocator (Stats.with_root r x))
            with (Stats._allocator x) by (destruct x; reflexivity)
      | |- context [Stats._allocator (Stats.with_headers ?h ?x)] =>
          replace (Stats._allocator (Stats.with_headers h x))
            with (Stats._allocator x) by (destruct x; reflexivity)
      end; exact Ha.
  - unfold Stats.deallocate.
    set (s1 := if Block.to_bool b && _ then _ else _).
    assert (Hs1 : Stats._allocator s1 = Stats._allocator s).
    { subst s1.
      assert (H0 : Stats._allocator
                (Stats.add Flags StatsOptions.bytesDeallocated
                   Stats.bytesDeallocated (Block.length b)
                   (Stats.up Flags StatsOptions.numDeallocate
                      Stats.numDeallocate s)) = Stats._allocator s)
        by (rewrite allocator_add; apply allocator_up).
      destruct (Block.to_bool b && _); [| exact H0].
      unfold Stats.write.
      repeat match goal with |- context [if ?c then _ else _] =>
        destruct c end;
      repeat match goal with
        |- context [Stats._allocator (Stats.with_root ?r ?x)] =>
          replace (Stats._allocator (Stats.with_root r x))
            with (Stats._allocator x) by (destruct x; reflexivity)
      | |- context [Stats._allocator (Stats.with_headers ?h ?x)] =>
          replace (Stats._allocator (Stats.with_headers h x))
            with (Stats._allocator x) by (destruct x; reflexivity)
      end; exact H0. }
    rewrite Hs1.
    destruct (Allocator.deallocate b (Stats._allocator s)) as [b' a'].
    cbn [fst snd]. split; [reflexivity | destruct s1; reflexivity].
Qed.

(** X17: a [reallocate] or an [expand] that the delegate refuses answers
    [false], hands the block back as the delegate left it, leaves the list
    alone and changes no counter but its own call counter. *)
Theorem refused_resize_counts_only_the_call (b : Block.t) (n delta : Z)
    (s : Stats.t A) :
  fst (fst (delegate_reallocate b n (Stats._allocator s))) = false ->
  fst (fst (delegate_expand b delta (Stats._allocator s))) = false ->
  let r := Stats.reallocate Flags delegate_reallocate b n s in
  let e := Stats.expand Flags delegate_expand b delta s in
  (fst (fst r) = false
   /\ snd (fst r) = snd (fst (delegate_reallocate b n (Stats._allocator s)))
   /\ Stats.links (snd r) = Stats.links s
   /\ forall c,
        Stats.get c (snd r) =
        match c with
        | Stats.numReallocate =>
            if Stats.enabled Flags StatsOptions.numReallocate
            then to_size_t (Stats.get c s + 1) else Stats.get c s
        | _ => Stats.get c s
        end)
  /\ (fst (fst e) = false
      /\ snd (fst e) = snd (fst (delegate_expand b delta (Stats._allocator s)))
      /\ Stats.links (snd e) = Stats.links s
      /\ forall c,
           Stats.get c (snd e) =
           match c with
           | Stats.numExpand =>
               if Stats.enabled Flags StatsOptions.numExpand
               then to_size_t (Stats.get c s + 1) else Stats.get c s
           | _ => Stats.get c s
           end).
Proof.
  intros Hre Hex. cbv zeta. split.
  - unfold Stats.reallocate. rewrite allocator_up.
    destruct (delegate_reallocate b n (Stats._allocator s)) as [[ok b'] a'].
    cbn [fst snd] in Hre |- *. subst ok. cbn [negb fst snd].
    repeat split.
    + rewrite links_with_allocator. apply links_up.
    + intros c. rewrite get_with_allocator.
      destruct c; try (apply get_up_other; discriminate). apply get_up_same.
  - unfold Stats.expand. rewrite allocator_up.
    destruct (delegate_expand b delta (Stats._allocator s)) as [[ok b'] a'].
    cbn [fst snd] in Hex |- *. subst ok. cbn [fst snd].
    repeat split.
    + rewrite links_with_allocator. apply links_up.
    + intros c. rewrite get_with_allocator.
      destruct c; try (apply get_up_other; discriminate). apply get_up_same.
Qed.

Lemma to_ssize_t_small z : - 2 ^ 63 <= z < 2 ^ 63 -> to_ssize_t z = z.
Proof.
  intros Hz. unfold to_ssize_t, to_size_t, size_t_modulus.
  destruct (Z.le_gt_cases 0 z) as [Hpos | Hneg].
  - rewrite Z.mod_small by lia.
    destruct (Z.ltb_spec z (2 ^ 63)); lia.
  - replace (z mod 2 ^ 64) with (z + 2 ^ 64).
    + destruct (Z.ltb_spec (z + 2 ^ 64) (2 ^ 63)); lia.
    + apply Z.mod_unique with (q := -1); lia.
Qed.

Lemma get_updateHighTide_same (s : Stats.t A) :
  Stats.get Stats.bytesHighTide (Stats.updateHighTide Flags s)
  = if Stats.enabled Flags StatsOptions.bytesHighTide
    then Z.max (Stats.get Stats.bytesHighTide s)
               (to_size_t (Stats.get Stats.bytesAllocated s
                           - Stats.get Stats.bytesDeallocated s))
    else Stats.get Stats.bytesHighTide s.
Proof.
  unfold Stats.updateHighTide. destruct (Stats.enabled _ _); [| reflexivity].
  cbn [Stats.get].
  match goal with |- context [?h <? ?c] => destruct (Z.ltb_spec h c) end.
  - change (Stats._bytesHighTide (Stats.put Stats.bytesHighTide ?v ?x))
      with (Stats.get Stats.bytesHighTide (Stats.put Stats.bytesHighTide v x)).
    rewrite get_put_same. lia.
  - lia.
Qed.

(** X18: how a successful [reallocate] is booked on the seven byte
    counters, for blocks shorter than 2^63 bytes and with the flags of the
    five counters that [reallocate] adds to set.  Same pointer and a longer
    block: the difference goes to bytes allocated and bytes expanded.
    Same pointer otherwise: the difference goes to bytes deallocated and
    bytes contracted.  Another pointer: the new length goes to bytes
    allocated, the old length to bytes moved and to bytes deallocated.
    The others of these five counters stay in each case, and so does
    bytes slack.  The high tide, when its flag is set, becomes the larger
    of its old value and the new (bytes allocated - bytes deallocated),
    taken as a [size_t]; it stays when its flag is not set. *)
Theorem reallocate_books_bytes (b b' : Block.t) (n : Z) (a' : A)
    (s : Stats.t A) :
  delegate_reallocate b n (Stats._allocator s) = (true, b', a') ->
  0 <= Block.length b < 2 ^ 63 ->
  0 <= Block.length b' < 2 ^ 63 ->
  Stats.enabled Flags StatsOptions.bytesAllocated = true ->
  Stats.enabled Flags StatsOptions.bytesDeallocated = true ->
  Stats.enabled Flags StatsOptions.bytesExpanded = true ->
  Stats.enabled Flags StatsOptions.bytesContracted = true ->
  Stats.enabled Flags StatsOptions.bytesMoved = true ->
  let s' := snd (Stats.reallocate Flags delegate_reallocate b n s) in
  let old := Block.length b in
  let new := Block.length b' in
  (if Block.ptr b' =? Block.ptr b then
     if old <? new then
       Stats._bytesAllocated s'
       = to_size_t (Stats._bytesAllocated s + (new - old))
       /\ Stats._bytesExpanded s'
          = to_size_t (Stats._bytesExpanded s + (new - old))
       /\ Stats._bytesDeallocated s' = Stats._bytesDeallocated s
       /\ Stats._bytesContracted s' = Stats._bytesContracted s
       /\ Stats._bytesMoved s' = Stats._bytesMoved s
     else
       Stats._bytesDeallocated s'
       = to_size_t (Stats._bytesDeallocated s + (old - new))
       /\ Stats._bytesContracted s'
          = to_size_t (Stats._bytesContracted s + (old - new))
       /\ Stats._bytesAllocated s' = Stats._bytesAllocated s
       /\ Stats._bytesExpanded s' = Stats._bytesExpanded s
       /\ Stats._bytesMoved s' = Stats._bytesMoved s
   else
     Stats._bytesAllocated s' = to_size_t (Stats._bytesAllocated s + new)
     /\ Stats._bytesMoved s' = to_size_t (Stats._bytesMoved s + old)
     /\ Stats._bytesDeallocated s'
        = to_size_t (Stats._bytesDeallocated s + old)
     /\ Stats._bytesExpanded s' = Stats._bytesExpanded s
     /\ Stats._bytesContracted s' = Stats._bytesContracted s)
  /\ Stats._bytesSlack s' = Stats._bytesSlack s
  /\ Stats._bytesHighTide s'
     = if Stats.enabled Flags StatsOptions.bytesHighTide
       then Z.max (Stats._bytesHighTide s)
                  (to_size_t (Stats._bytesAllocated s'
                              - Stats._bytesDeallocated s'))
       else Stats._bytesHighTide s.
Proof.
  intros Hre Hold Hnew HA HD HE HC HM. cbv zeta.
  unfold Stats.reallocate. rewrite allocator_up, Hre. cbn [negb snd].
  rewrite (to_ssize_t_small (Block.length b' - Block.length b)) by lia.
  change (Stats._bytesAllocated ?x) with (Stats.get Stats.bytesAllocated x).
  change (Stats._bytesDeallocated ?x) with (Stats.get Stats.bytesDeallocated x).
  change (Stats._bytesExpanded ?x) with (Stats.get Stats.bytesExpanded x).
  change (Stats._bytesContracted ?x) with (Stats.get Stats.bytesContracted x).
  change (Stats._bytesMoved ?x) with (Stats.get Stats.bytesMoved x).
  change (Stats._bytesSlack ?x) with (Stats.get Stats.bytesSlack x).
  change (Stats._bytesHighTide ?x) with (Stats.get Stats.bytesHighTide x).
  split; [| split].
  - destruct (Block.ptr b' =? Block.ptr b).
    + destruct (Z.ltb_spec (Block.length b) (Block.length b'));
        destruct (Z.ltb_spec 0 (Block.length b' - Block.length b)); try lia;
        repeat split;
        repeat first
          [ rewrite get_updateHighTide_other by discriminate
          | rewrite get_add_other by discriminate
          | rewrite get_up_other by discriminate
          | rewrite get_add_same
          | rewrite get_with_allocator ];
        rewrite ?HA, ?HD, ?HE, ?HC, ?HM; try reflexivity;
        f_equal; lia.
    + repeat split;
        repeat first
          [ rewrite get_updateHighTide_other by discriminate
          | rewrite get_add_other by discriminate
          | rewrite get_up_other by discriminate
          | rewrite get_add_same
          | rewrite get_with_allocator ];
        rewrite ?HA, ?HD, ?HE, ?HC, ?HM; reflexivity.
  - destruct (Block.ptr b' =? Block.ptr b);
      [destruct (0 <? Block.length b' - Block.length b) |];
      skip_other_counters; reflexivity.
  - rewrite get_updateHighTide_same,
      (get_updateHighTide_other Stats.bytesAllocated),
      (get_updateHighTide_other Stats.bytesDeallocated) by discriminate.
    match goal with |- context [Stats.get Stats.bytesHighTide ?x] =>
      assert (Hh : Stats.get Stats.bytesHighTide x
                   = Stats.get Stats.bytesHighTide s)
        by (destruct (Block.ptr b' =? Block.ptr b);
            [destruct (0 <? Block.length b' - Block.length b) |];
            skip_other_counters; reflexivity);
      rewrite Hh
    end.
    reflexivity.
Qed.

(** Reading the counters after the counter part of an operation. *)
Ltac read_counters :=
  repeat first
    [ rewrite get_updateHighTide_other by discriminate
    | rewrite get_up_other by discriminate
    | rewrite get_upOK_other by discriminate
    | rewrite get_add_other by discriminate
    | rewrite get_up_same
    | rewrite get_upOK_same
    | rewrite get_add_same
    | rewrite get_with_allocator ].

Local Abbreviation bytes_returned :=
  (Ledger.bytes_returned Flags prefix delegate_reallocate delegate_expand
     uninitialized).

Lemma run_ledger os (s : Stats.t A) :
  Stats.enabled Flags StatsOptions.bytesAllocated = true ->
  Stats.enabled Flags StatsOptions.bytesDeallocated = true ->
  forallb Ledger.allocate_or_deallocate os = true ->
  0 <= Stats._bytesAllocated s < size_t_modulus ->
  0 <= Stats._bytesDeallocated s < size_t_modulus ->
  Stats._bytesAllocated (run os s)
  = to_size_t (Stats._bytesAllocated s + bytes_returned os s)
  /\ Stats._bytesDeallocated (run os s)
     = to_size_t (Stats._bytesDeallocated s + Ledger.bytes_given_back os).
Proof.
  intros HA HD. revert s. induction os as [| o os IH]; intros s Hos Ha Hd.
  - cbn. rewrite !Z.add_0_r, !to_size_t_small by assumption. split; reflexivity.
  - cbn [forallb] in Hos. apply andb_prop in Hos. destruct Hos as [Ho Hos].
    cbn [Stats.run Ledger.bytes_returned Ledger.bytes_given_back].
    destruct o as [n f g l t | b | b n | b delta]; try discriminate;
      cbn [Stats.step] in *.
    + assert (Hstep :
        Stats._bytesAllocated
          (snd (Stats.allocate Flags prefix uninitialized n f g l t s))
        = to_size_t
            (Stats._bytesAllocated s
             + Block.length
                 (fst (Stats.allocate Flags prefix uninitialized n f g l t s)))
        /\ Stats._bytesDeallocated
             (snd (Stats.allocate Flags prefix uninitialized n f g l t s))
           = Stats._bytesDeallocated s).
      { change (Stats._bytesAllocated ?x)
          with (Stats.get Stats.bytesAllocated x).
        change (Stats._bytesDeallocated ?x)
          with (Stats.get Stats.bytesDeallocated x).
        rewrite !get_allocate, allocate_result. read_counters.
        rewrite HA. split; reflexivity. }
      destruct Hstep as [H1 H2].
      destruct (IH (snd (Stats.allocate Flags prefix uninitialized n f g l t s))
                  Hos) as [I1 I2].
      { rewrite H1. apply to_size_t_range. }
      { rewrite H2. exact Hd. }
      rewrite I1, I2, H1, H2. unfold to_size_t.
      rewrite Zplus_mod_idemp_l. split; [f_equal; lia | reflexivity].
    + assert (Hstep :
        Stats._bytesAllocated
          (snd (Stats.deallocate Flags prefix uninitialized b s))
        = Stats._bytesAllocated s
        /\ Stats._bytesDeallocated
             (snd (Stats.deallocate Flags prefix uninitialized b s))
           = to_size_t (Stats._bytesDeallocated s + Block.length b)).
      { change (Stats._bytesAllocated ?x)
          with (Stats.get Stats.bytesAllocated x).
        change (Stats._bytesDeallocated ?x)
          with (Stats.get Stats.bytesDeallocated x).
        rewrite !get_deallocate. read_counters.
        rewrite HD. split; reflexivity. }
      destruct Hstep as [H1 H2].
      destruct (IH (snd (Stats.deallocate Flags prefix uninitialized b s))
                  Hos) as [I1 I2].
      { rewrite H1. exact Ha. }
      { rewrite H2. apply to_size_t_range. }
      rewrite I1, I2, H1, H2. unfold to_size_t.
      rewrite Zplus_mod_idemp_l. split; [f_equal; lia | f_equal; lia].
Qed.

(** X19: with the [bytesAllocated] and [bytesDeallocated] flags set,
    after a run of [allocate] and [deallocate] calls from a fresh
    instance, bytes allocated is the sum of the lengths of the blocks that
    the [allocate] calls returned (an empty block adds 0) and bytes
    deallocated is the sum of the lengths of the blocks given to
    [deallocate], both as a [size_t]. *)
Theorem byte_counters_add_up (os : list Stats.operation) (a : A)
    (h : gmap Z Stats.AllocationInfo) :
  Stats.enabled Flags StatsOptions.bytesAllocated = true ->
  Stats.enabled Flags StatsOptions.bytesDeallocated = true ->
  forallb Ledger.allocate_or_deallocate os = true ->
  Stats._bytesAllocated (run os (Stats.create a h))
  = to_size_t (bytes_returned os (Stats.create a h))
  /\ Stats._bytesDeallocated (run os (Stats.create a h))
     = to_size_t (Ledger.bytes_given_back os).
Proof.
  intros HA HD Hos.
  apply (run_ledger os (Stats.create a h) HA HD Hos);
    cbn; unfold size_t_modulus; lia.
Qed.

Lemma step_ordered k o (s : Stats.t A) :
  Ledger.ordered Flags k s ->
  k + 1 < size_t_modulus ->
  Ledger.ordered Flags (k + 1) (step o s).
Proof.
  intros (HA & HROK & HR & HE) Hk. unfold Ledger.ordered.
  assert (Hb : forall x, 0 <= x <= k -> to_size_t (x + 1) = x + 1)
    by (intros x Hx; apply to_size_t_small; lia).
  change (Stats._numAllocateOK ?x) with (Stats.get Stats.numAllocateOK x).
  change (Stats._numAllocate ?x) with (Stats.get Stats.numAllocate x).
  change (Stats._numReallocateInPlace ?x)
    with (Stats.get Stats.numReallocateInPlace x).
  change (Stats._numReallocateOK ?x) with (Stats.get Stats.numReallocateOK x).
  change (Stats._numReallocate ?x) with (Stats.get Stats.numReallocate x).
  change (Stats._numExpandOK ?x) with (Stats.get Stats.numExpandOK x).
  change (Stats._numExpand ?x) with (Stats.get Stats.numExpand x).
  split; [| split; [| split]]; intros Hf;
    [ specialize (HA Hf) | specialize (HROK Hf) | specialize (HR Hf)
    | specialize (HE Hf) ];
    (destruct o as [n f g l t | b | b n | b delta]; cbn [Stats.step];
     [ rewrite !get_allocate | rewrite !get_deallocate
     | open_reallocate b n | open_expand b delta ];
     read_counters; rewrite ?Hf; cbv beta iota;
     repeat match goal with |- context [if ?c then _ else _] =>
       destruct c end;
     cbn [Stats.get]; rewrite ?Hb by lia; lia).
Qed.

Lemma run_ordered os k (s : Stats.t A) :
  Ledger.ordered Flags k s ->
  k + Z.of_nat (length os) < size_t_modulus ->
  Ledger.ordered Flags (k + Z.of_nat (length os)) (run os s).
Proof.
  revert k s. induction os as [| o os IH]; intros k s Hord Hk.
  - cbn. rewrite Z.add_0_r. exact Hord.
  - cbn [Stats.run length] in *.
    replace (k + Z.of_nat (S (length os)))
      with ((k + 1) + Z.of_nat (length os)) in * by lia.
    apply IH; [| exact Hk].
    apply step_ordered; [exact Hord | lia].
Qed.

(** X20: successes never outnumber the counter stepped before them.
    After a run of fewer than 2^64 operations from a fresh instance, each
    of these holds as soon as the flag of its larger counter is set,
    whatever the other flags are: [numAllocateOK <= numAllocate] (flag
    [numAllocate]), [numReallocateInPlace <= numReallocateOK] (flag
    [numReallocateOK]), [numReallocateOK <= numReallocate] (flag
    [numReallocate]) and [numExpandOK <= numExpand] (flag [numExpand]). *)
Theorem successes_within_calls (os : list Stats.operation) (a : A)
    (h : gmap Z Stats.AllocationInfo) :
  Z.of_nat (length os) < size_t_modulus ->
  let s := run os (Stats.create a h) in
  (Stats.enabled Flags StatsOptions.numAllocate = true ->
   Stats._numAllocateOK s <= Stats._numAllocate s)
  /\ (Stats.enabled Flags StatsOptions.numReallocateOK = true ->
      Stats._numReallocateInPlace s <= Stats._numReallocateOK s)
  /\ (Stats.enabled Flags StatsOptions.numReallocate = true ->
      Stats._numReallocateOK s <= Stats._numReallocate s)
  /\ (Stats.enabled Flags StatsOptions.numExpand = true ->
      Stats._numExpandOK s <= Stats._numExpand s).
Proof.
  intros Hlen. cbv zeta.
  assert (H0 : Ledger.ordered Flags 0 (Stats.create a h)).
  { unfold Ledger.ordered, Stats.create.
    cbn [Stats._numAllocateOK Stats._numAllocate Stats._numReallocateInPlace
         Stats._numReallocateOK Stats._numReallocate Stats._numExpandOK
         Stats._numExpand].
    repeat split; lia. }
  pose proof (run_ordered os 0 (Stats.create a h) H0 ltac:(lia))
    as (HA & HROK & HR & HE).
  split; [| split; [| split]]; intros Hf;
    [ specialize (HA Hf) | specialize (HROK Hf) | specialize (HR Hf)
    | specialize (HE Hf) ]; lia.
Qed.

End stats_counters.

(** ** The list of allocations, continued *)

Section stats_list_more.
Context {A : Type} {Ops : Allocator.ops A}.
Variable Flags : Z.
Variable prefix : A -> Block.t -> Z.
Variable uninitialized : Stats.AllocationInfo.

Local Abbreviation read := (Stats.read uninitialized).
Local Abbreviation write := (Stats.write uninitialized).

(** The counter part of [allocate] keeps the delegate, the head pointer
    and the headers. *)
Lemma counter_part_of_allocate n result (x : Stats.t A) :
  let x' :=
    Stats.updateHighTide Flags
      (Stats.add Flags StatsOptions.bytesAllocated Stats.bytesAllocated
         (Block.length result)
         (Stats.upOK Flags StatsOptions.numAllocateOK Stats.numAllocateOK
            ((0 <? n) && Block.to_bool result)
            (Stats.up Flags StatsOptions.numAllocate Stats.numAllocate x))) in
  Stats._allocator x' = Stats._allocator x /\ Stats.links x' = Stats.links x.
Proof.
  cbv zeta. split.
  - unfold Stats.updateHighTide, Stats.add, Stats.upOK, Stats.up.
    repeat match goal with |- context [if ?c then _ else _] =>
      destruct c end;
    rewrite ?allocator_put; reflexivity.
  - rewrite links_updateHighTide, links_add, links_upOK. apply links_up.
Qed.

Lemma read_with_root p r (s : Stats.t A) :
  read p (Stats.with_root r s) = read p s.
Proof. destruct s; reflexivity. Qed.

Lemma read_with_allocator p a (s : Stats.t A) :
  read p (Stats.with_allocator a s) = read p s.
Proof. destruct s; reflexivity. Qed.

Lemma root_set option p f (s : Stats.t A) :
  Stats._root (Stats.set Flags uninitialized option p f s) = Stats._root s.
Proof.
  unfold Stats.set. destruct (Stats.enabled _ _); [apply root_write | reflexivity].
Qed.

Lemma allocator_write p f (s : Stats.t A) :
  Stats._allocator (write p f s) = Stats._allocator s.
Proof. destruct s; reflexivity. Qed.

Lemma allocator_set option p f (s : Stats.t A) :
  Stats._allocator (Stats.set Flags uninitialized option p f s)
  = Stats._allocator s.
Proof.
  unfold Stats.set.
  destruct (Stats.enabled _ _); [apply allocator_write | reflexivity].
Qed.

Lemma read_set p option q f (s : Stats.t A) :
  read p (Stats.set Flags uninitialized option q f s)
  = if decide (q = p)
    then (if Stats.enabled Flags option then f (read q s) else read q s)
    else read p s.
Proof.
  unfold Stats.set. destruct (Stats.enabled _ _).
  - apply read_write.
  - destruct (decide (q = p)) as [-> | _]; reflexivity.
Qed.

(** The state after [allocate] on the path that links a header, in terms
    of the state [x] after the counter part. *)
Lemma allocate_linked n file function line now (s : Stats.t A) :
  let result := fst (Allocator.allocate n (Stats._allocator s)) in
  let a := snd (Allocator.allocate n (Stats._allocator s)) in
  let stat := prefix a result in
  Stats.HasPerAllocationState Flags = true ->
  Block.to_bool result = true ->
  exists x : Stats.t A,
    Stats.links x = Stats.links s
    /\ snd (Stats.allocate Flags prefix uninitialized n file function line
              now s)
       = let y :=
           Stats.set Flags uninitialized StatsOptions.callerTime stat
             (Stats.set_callerTime now)
             (Stats.set Flags uninitialized StatsOptions.callerLine stat
                (Stats.set_callerLine line)
                (Stats.set Flags uninitialized StatsOptions.callerFunction stat
                   (Stats.set_callerFunction function)
                   (Stats.set Flags uninitialized StatsOptions.callerFile stat
                      (Stats.set_callerFile file)
                      (Stats.set Flags uninitialized StatsOptions.callerSize
                         stat (Stats.set_callerSize n) x)))) in
         if negb (Stats._root s =? 0) then
           Stats.with_root stat
             (write stat (Stats.set_previous 0)
                (write stat (Stats.set_next (Stats._root s))
                   (write (Stats._root s) (Stats.set_previous stat) y)))
         else
           Stats.with_root stat
             (write stat (Stats.set_next 0)
                (write stat (Stats.set_previous 0) y)).
Proof.
  intros result a stat Hstate Hb. subst result a stat.
  unfold Stats.allocate, Stats.has_per_allocation_state.
  destruct (Allocator.allocate n (Stats._allocator s)) as [result a].
  cbn [fst snd] in *.
  destruct (counter_part_of_allocate n result (Stats.with_allocator a s))
    as [Ha Hl].
  match goal with |- context [Stats.updateHighTide Flags ?y] =>
    set (x := Stats.updateHighTide Flags y) in * end.
  assert (Hax : Stats._allocator x = a)
    by (rewrite Ha; destruct s; reflexivity).
  assert (Hlx : Stats.links x = Stats.links s)
    by (rewrite Hl; apply links_with_allocator).
  clearbody x. rewrite Hb, Hstate. cbn [andb].
  exists x. split; [exact Hlx |].
  assert (Hroot : Stats._root x = Stats._root s) by (injection Hlx; auto).
  rewrite Hax. cbv zeta. rewrite !root_set, !root_write, !root_set, Hroot.
  destruct (negb (Stats._root s =? 0)); reflexivity.
Qed.

(** The header of the block that [allocate] returns, after the call. *)
Lemma allocate_header (n file function line now : Z)
    (s : Stats.t A) :
  let result := fst (Allocator.allocate n (Stats._allocator s)) in
  let stat := prefix (snd (Allocator.allocate n (Stats._allocator s))) result in
  let s' := snd (Stats.allocate Flags prefix uninitialized n file function
                   line now s) in
  let old := read stat s in
  Stats.HasPerAllocationState Flags = true ->
  Block.to_bool result = true ->
  Stats._root s' = stat
  /\ read stat s'
     = Stats.mkInfo
         (if Stats.enabled Flags StatsOptions.callerSize
          then n else Stats.callerSize old)
         (if Stats.enabled Flags StatsOptions.callerFile
          then file else Stats.callerFile old)
         (if Stats.enabled Flags StatsOptions.callerFunction
          then function else Stats.callerFunction old)
         (if Stats.enabled Flags StatsOptions.callerLine
          then line else Stats.callerLine old)
         (if Stats.enabled Flags StatsOptions.callerTime
          then now else Stats.callerTime old)
         0 (Stats._root s).
Proof.
  intros result stat s' old Hstate Hb. subst s'.
  destruct (allocate_linked n file function line now s Hstate Hb)
    as [x [Hlx ->]].
  fold result. fold stat. cbv zeta.
  assert (Hold : read stat x = old) by (apply read_links, Hlx).
  destruct (Z.eqb_spec (Stats._root s) 0) as [H0 | Hn0]; cbn [negb];
    (split; [apply root_with_root |]);
    rewrite read_with_root, !read_write, !read_set, Hold, ?H0;
    repeat destruct (decide _); try congruence;
    repeat destruct (Stats.enabled Flags _); destruct old; reflexivity.
Qed.

(** X21: what [allocate] writes in the header of a non-empty block, with
    per-allocation state: each of the five caller fields gets its new
    value when its flag is set and keeps what the memory held otherwise;
    [previous] is null, [next] is the former head, and the header is the
    new head of the list. *)
Theorem allocate_writes_header (n file function line now : Z)
    (s : Stats.t A) :
  let result := fst (Allocator.allocate n (Stats._allocator s)) in
  let stat := prefix (snd (Allocator.allocate n (Stats._allocator s))) result in
  let s' := snd (Stats.allocate Flags prefix uninitialized n file function
                   line now s) in
  let old := read stat s in
  Stats.HasPerAllocationState Flags = true ->
  Block.to_bool result = true ->
  Stats._root s' = stat
  /\ read stat s'
     = Stats.mkInfo
         (if Stats.enabled Flags StatsOptions.callerSize
          then n else Stats.callerSize old)
         (if Stats.enabled Flags StatsOptions.callerFile
          then file else Stats.callerFile old)
         (if Stats.enabled Flags StatsOptions.callerFunction
          then function else Stats.callerFunction old)
         (if Stats.enabled Flags StatsOptions.callerLine
          then line else Stats.callerLine old)
         (if Stats.enabled Flags StatsOptions.callerTime
          then now else Stats.callerTime old)
         0 (Stats._root s).
Proof. apply allocate_header. Qed.

(** What [allocate] does to the other headers: only the former head
    changes, and only in its [previous]. *)
Lemma allocate_other_headers n file function line now q (s : Stats.t A) :
  let result := fst (Allocator.allocate n (Stats._allocator s)) in
  let stat := prefix (snd (Allocator.allocate n (Stats._allocator s))) result in
  let s' := snd (Stats.allocate Flags prefix uninitialized n file function
                   line now s) in
  Stats.HasPerAllocationState Flags = true ->
  Block.to_bool result = true ->
  q <> stat ->
  q <> 0 ->
  read q s'
  = if decide (q = Stats._root s)
    then Stats.set_previous stat (read q s) else read q s.
Proof.
  intros result stat s' Hstate Hb Hq Hq0. subst s'.
  destruct (allocate_linked n file function line now s Hstate Hb)
    as [x [Hlx ->]].
  fold result. fold stat. cbv zeta.
  assert (Hold : read q x = read q s) by (apply read_links, Hlx).
  destruct (Z.eqb_spec (Stats._root s) 0) as [H0 | Hn0]; cbn [negb];
    rewrite read_with_root, !read_write, !read_set, ?Hold;
    repeat destruct (decide _); try congruence; reflexivity.
Qed.

(** A walk only depends on the headers it meets, and among their fields
    on [next]. *)
Lemma walk_update fuel p (s s' : Stats.t A) l
    (f : Z -> Stats.AllocationInfo -> Stats.AllocationInfo) :
  Stats.walk uninitialized fuel p s = Some l ->
  (forall q, In q (map fst l) ->
             read q s' = f q (read q s)
             /\ Stats.next (f q (read q s)) = Stats.next (read q s)) ->
  Stats.walk uninitialized fuel p s'
  = Some (map (fun qi => (fst qi, f (fst qi) (snd qi))) l).
Proof.
  revert p l. induction fuel as [| fuel IH]; intros p l Hwalk Hsame;
    cbn [Stats.walk] in *.
  - destruct (p =? 0); [| discriminate].
    injection Hwalk as <-. reflexivity.
  - destruct (p =? 0); [injection Hwalk as <-; reflexivity |].
    destruct (Stats.walk uninitialized fuel (Stats.next (read p s)) s)
      as [l0 |] eqn:Hrest; [| discriminate].
    injection Hwalk as <-.
    destruct (Hsame p (or_introl eq_refl)) as [Hread Hnext].
    rewrite Hread, Hnext.
    rewrite (IH _ l0 Hrest)
      by (intros q Hq; apply Hsame; right; exact Hq).
    reflexivity.
Qed.

(** X22: [allocate] puts the new header in front of the list.  With
    per-allocation state, when the list read from [_root] is [l] and the
    header of the non-empty block returned is at a non-null address that
    is not in [l], the list read after [allocate] is the new header
    followed by [l], where the only change to [l] is the [previous] of its
    first header, which now points to the new one. *)
Theorem allocate_links_new_head (n file function line now : Z)
    (fuel : nat) (l : list (Z * Stats.AllocationInfo)) (s : Stats.t A) :
  let result := fst (Allocator.allocate n (Stats._allocator s)) in
  let stat := prefix (snd (Allocator.allocate n (Stats._allocator s))) result in
  let s' := snd (Stats.allocate Flags prefix uninitialized n file function
                   line now s) in
  Stats.HasPerAllocationState Flags = true ->
  Block.to_bool result = true ->
  stat <> 0 ->
  Stats.allocations uninitialized fuel s = Some l ->
  ~ In stat (map fst l) ->
  Stats.allocations uninitialized (S fuel) s'
  = Some ((stat, read stat s')
          :: map (fun qi =>
                    (fst qi,
                     if decide (fst qi = Stats._root s)
                     then Stats.set_previous stat (snd qi) else snd qi))
                 l).
Proof.
  intros result stat s' Hstate Hb Hstat Hwalk Hfresh.
  destruct (allocate_header n file function line now s Hstate Hb)
    as [Hroot Hhead].
  fold result in Hroot, Hhead. fold stat in Hroot, Hhead.
  fold s' in Hroot, Hhead.
  unfold Stats.allocations. rewrite Hroot. cbn [Stats.walk].
  destruct (Z.eqb_spec stat 0); [contradiction |].
  replace (Stats.next (read stat s')) with (Stats._root s)
    by (rewrite Hhead; reflexivity).
  rewrite (walk_update fuel (Stats._root s) s s' l
             (fun q i => if decide (q = Stats._root s)
                         then Stats.set_previous stat i else i) Hwalk).
  - reflexivity.
  - intros q Hq. split.
    + apply allocate_other_headers; try assumption.
      * intros ->. contradiction.
      * intros ->. clear - Hwalk Hq.
        unfold Stats.allocations in Hwalk.
        assert (Hnz : forall fuel p l,
                   Stats.walk uninitialized fuel p s = Some l ->
                   ~ In 0 (map fst l)).
        { clear. induction fuel as [| fuel IH]; intros p l H;
            cbn [Stats.walk] in H.
          - destruct (p =? 0); [injection H as <-; intros [] | discriminate].
          - destruct (Z.eqb_spec p 0); [injection H as <-; intros [] |].
            destruct (Stats.walk uninitialized fuel _ s) as [l0 |] eqn:E;
              [| discriminate].
            injection H as <-. cbn [map fst In]. intros [H0 | H0];
              [congruence | exact (IH _ _ E H0)]. }
        exact (Hnz _ _ _ Hwalk Hq).
    + destruct (decide _); reflexivity.
Qed.

End stats_list_more.

(** X23: [HasPerAllocationState] looks at the [callerTime], [callerFile]
    and [callerLine] bits and at nothing else: it is the disjunction of
    these three flags, so setting or clearing [callerSize] or
    [callerFunction] never changes it. *)
Theorem per_allocation_state_bits (Flags : Z) :
  Stats.HasPerAllocationState Flags
  = Stats.enabled Flags StatsOptions.callerTime
    || Stats.enabled Flags StatsOptions.callerFile
    || Stats.enabled Flags StatsOptions.callerLine
  /\ Stats.HasPerAllocationState (Z.lor Flags StatsOptions.callerSize)
     = Stats.HasPerAllocationState Flags
  /\ Stats.HasPerAllocationState (Z.lor Flags StatsOptions.callerFunction)
     = Stats.HasPerAllocationState Flags
  /\ Stats.HasPerAllocationState (Z.ldiff Flags StatsOptions.callerSize)
     = Stats.HasPerAllocationState Flags
  /\ Stats.HasPerAllocationState (Z.ldiff Flags StatsOptions.callerFunction)
     = Stats.HasPerAllocationState Flags.
Proof.
  unfold Stats.HasPerAllocationState, Stats.enabled.
  set (mask := Z.lor (Z.lor StatsOptions.callerTime StatsOptions.callerFile)
                     StatsOptions.callerLine).
  split; [| repeat split].
  - subst mask. rewrite !Z.land_lor_distr_r.
    destruct (Z.eqb_spec (Z.land Flags StatsOptions.callerTime) 0) as [-> | H1];
      destruct (Z.eqb_spec (Z.land Flags StatsOptions.callerFile) 0)
        as [-> | H2];
      destruct (Z.eqb_spec (Z.land Flags StatsOptions.callerLine) 0)
        as [-> | H3];
      cbn [negb orb];
      try reflexivity;
      apply negb_true_iff, Z.eqb_neq; intros H;
      apply Z.lor_eq_0_iff in H; destruct H as [H H'];
      try apply Z.lor_eq_0_iff in H; try destruct H; contradiction.
  - rewrite Z.land_lor_distr_l.
    replace (Z.land StatsOptions.callerSize mask) with 0 by reflexivity.
    rewrite Z.lor_0_r. reflexivity.
  - rewrite Z.land_lor_distr_l.
    replace (Z.land StatsOptions.callerFunction mask) with 0 by reflexivity.
    rewrite Z.lor_0_r. reflexivity.
  - rewrite Z.ldiff_land, <- Z.land_assoc.
    replace (Z.land (Z.lnot StatsOptions.callerSize) mask) with mask
      by reflexivity.
    reflexivity.
  - rewrite Z.ldiff_land, <- Z.land_assoc.
    replace (Z.land (Z.lnot StatsOptions.callerFunction) mask) with mask
      by reflexivity.
    reflexivity.
Qed.

(** *** The statistics decorator on concrete configurations, continued *)

Lemma counter_without_flag_is_frozen_witness :
  Stats.get Stats.numAllocate
    (@Stats.run _ (Bump.ops false) Fixtures.high_tide_flags (fun _ _ => 0)
       Fixtures.refuse Fixtures.refuse Fixtures.garbage Examples.three_calls
       Fixtures.stats)
  = Stats.get Stats.numAllocate Fixtures.stats.
Proof.
  apply (@counter_without_flag_is_frozen _ (Bump.ops false)
           Fixtures.high_tide_flags (fun _ _ => 0) Fixtures.refuse
           Fixtures.refuse Fixtures.garbage Stats.numAllocate
           Examples.three_calls Fixtures.stats).
  reflexivity.
Defined.

Lemma call_counters_count_calls_witness :
  Stats._numAllocate (Examples.full_run Examples.three_calls Fixtures.stats) = 2
  /\ Stats._numDeallocate
       (Examples.full_run Examples.three_calls Fixtures.stats) = 1.
Proof.
  split.
  - exact (@call_counters_count_calls _ (Affix.ops (Bump.ops false) 56)
             StatsOptions.all (Affix.prefix 56) Fixtures.refuse Fixtures.refuse
             Fixtures.garbage (Stats.Allocate 0 0 0 0 0) Examples.three_calls
             4096 ∅ eq_refl).
  - exact (@call_counters_count_calls _ (Affix.ops (Bump.ops false) 56)
             StatsOptions.all (Affix.prefix 56) Fixtures.refuse Fixtures.refuse
             Fixtures.garbage (Stats.Deallocate Block.empty)
             Examples.three_calls 4096 ∅ eq_refl).
Defined.

Lemma refused_resize_counts_only_the_call_witness :
  let r := Stats.reallocate StatsOptions.all Fixtures.refuse
             (Block.mk 4096 100) 200 Fixtures.stats in
  fst (fst r) = false
  /\ snd (fst r) = Block.mk 4096 100
  /\ Stats._numReallocate (snd r) = 1
  /\ Stats._numReallocateOK (snd r) = 0
  /\ Stats._bytesAllocated (snd r) = 0.
Proof.
  destruct (@refused_resize_counts_only_the_call Bump.t StatsOptions.all
              Fixtures.refuse Fixtures.refuse (Block.mk 4096 100) 200 8
              Fixtures.stats eq_refl eq_refl)
    as [[H1 [H2 [_ Hc]]] _].
  cbv zeta. split; [exact H1 |]. split; [exact H2 |].
  split; [exact (Hc Stats.numReallocate) |].
  split; [exact (Hc Stats.numReallocateOK) | exact (Hc Stats.bytesAllocated)].
Defined.

Lemma reallocate_books_bytes_witness :
  let grown := snd (Stats.reallocate StatsOptions.all Examples.resize_in_place
                      (Block.mk 4096 100) 150 Fixtures.stats) in
  let shrunk := snd (Stats.reallocate StatsOptions.all Examples.resize_in_place
                       (Block.mk 4096 100) 60 Fixtures.stats) in
  let moved := snd (Stats.reallocate StatsOptions.all Examples.move
                      (Block.mk 4096 100) 150 Fixtures.stats) in
  ((Stats._bytesAllocated grown = 50 /\ Stats._bytesExpanded grown = 50
    /\ Stats._bytesDeallocated grown = 0 /\ Stats._bytesContracted grown = 0
    /\ Stats._bytesMoved grown = 0)
   /\ Stats._bytesSlack grown = 0
   /\ Stats._bytesHighTide grown = 50)
  /\ ((Stats._bytesDeallocated shrunk = 40
       /\ Stats._bytesContracted shrunk = 40
       /\ Stats._bytesAllocated shrunk = 0 /\ Stats._bytesExpanded shrunk = 0
       /\ Stats._bytesMoved shrunk = 0)
      /\ Stats._bytesSlack shrunk = 0
      /\ Stats._bytesHighTide shrunk = 2 ^ 64 - 40)
  /\ ((Stats._bytesAllocated moved = 150 /\ Stats._bytesMoved moved = 100
       /\ Stats._bytesDeallocated moved = 100
       /\ Stats._bytesExpanded moved = 0
       /\ Stats._bytesContracted moved = 0)
      /\ Stats._bytesSlack moved = 0
      /\ Stats._bytesHighTide moved = 50).
Proof.
  cbv zeta. split; [| split].
  - exact (@reallocate_books_bytes Bump.t StatsOptions.all
             Examples.resize_in_place (Block.mk 4096 100) (Block.mk 4096 150)
             150 4096 Fixtures.stats eq_refl ltac:(simpl; lia)
             ltac:(simpl; lia) eq_refl eq_refl eq_refl eq_refl eq_refl).
  - exact (@reallocate_books_bytes Bump.t StatsOptions.all
             Examples.resize_in_place (Block.mk 4096 100) (Block.mk 4096 60)
             60 4096 Fixtures.stats eq_refl ltac:(simpl; lia)
             ltac:(simpl; lia) eq_refl eq_refl eq_refl eq_refl eq_refl).
  - exact (@reallocate_books_bytes Bump.t StatsOptions.all
             Examples.move (Block.mk 4096 100) (Block.mk 8192 150)
             150 4096 Fixtures.stats eq_refl ltac:(simpl; lia)
             ltac:(simpl; lia) eq_refl eq_refl eq_refl eq_refl eq_refl).
Defined.

Lemma byte_counters_add_up_witness :
  Stats._bytesAllocated
    (Examples.full_run Examples.three_calls Fixtures.stats) = 100
  /\ Stats._bytesDeallocated
       (Examples.full_run Examples.three_calls Fixtures.stats) = 100.
Proof.
  exact (@byte_counters_add_up _ (Affix.ops (Bump.ops false) 56)
           StatsOptions.all (Affix.prefix 56) Fixtures.refuse Fixtures.refuse
           Fixtures.garbage Examples.three_calls 4096 ∅ eq_refl eq_refl
           eq_refl).
Defined.

Lemma successes_within_calls_witness :
  let s :=
    @Stats.run _ (Affix.ops (Bump.ops false) 56) StatsOptions.all
      (Affix.prefix 56) Examples.resize_in_place Fixtures.refuse
      Fixtures.garbage
      [Stats.Allocate 100 7 0 0 0; Stats.Allocate 0 7 0 0 0;
       Stats.Reallocate (Block.mk 4152 100) 150;
       Stats.Expand (Block.mk 4152 150) 10]
      Fixtures.stats in
  Stats._numAllocateOK s <= Stats._numAllocate s
  /\ Stats._numReallocateInPlace s <= Stats._numReallocateOK s
  /\ Stats._numReallocateOK s <= Stats._numReallocate s
  /\ Stats._numExpandOK s <= Stats._numExpand s.
Proof.
  cbv zeta.
  destruct (@successes_within_calls _ (Affix.ops (Bump.ops false) 56)
              StatsOptions.all (Affix.prefix 56) Examples.resize_in_place
              Fixtures.refuse Fixtures.garbage
              [Stats.Allocate 100 7 0 0 0; Stats.Allocate 0 7 0 0 0;
               Stats.Reallocate (Block.mk 4152 100) 150;
               Stats.Expand (Block.mk 4152 150) 10]
              4096 ∅ eq_refl) as (HA & HROK & HR & HE).
  split; [exact (HA eq_refl) |]. split; [exact (HROK eq_refl) |].
  split; [exact (HR eq_refl) | exact (HE eq_refl)].
Defined.

Lemma allocate_writes_header_witness :
  Stats._root Examples.one_block = 4096
  /\ Stats.read Fixtures.garbage 4096 Examples.one_block
     = Stats.mkInfo 100 7 170 170 170 0 0.
Proof.
  exact (@allocate_writes_header _ (Affix.ops (Bump.ops false) 56)
           Fixtures.callerSize_and_callerFile (Affix.prefix 56)
           Fixtures.garbage 100 7 0 0 0 Fixtures.stats eq_refl eq_refl).
Defined.

Lemma allocate_links_new_head_witness :
  Stats.allocations Fixtures.garbage 2 Examples.two_blocks
  = Some [(4252, Stats.mkInfo 50 8 170 170 170 0 4096);
          (4096, Stats.mkInfo 100 7 170 170 170 4252 0)].
Proof.
  exact (@allocate_links_new_head _ (Affix.ops (Bump.ops false) 56)
           Fixtures.callerSize_and_callerFile (Affix.prefix 56)
           Fixtures.garbage 50 8 0 0 0 1
           [(4096, Stats.mkInfo 100 7 170 170 170 0 0)] Examples.one_block
           eq_refl eq_refl ltac:(vm_compute; intro; discriminate) eq_refl
           ltac:(vm_compute; intros [H | []]; discriminate)).
Defined.

Lemma deallocate_inner_splices_witness :
  let s' := snd (Fixtures.affix_deallocate Fixtures.callerSize_and_callerFile
                   (Block.mk 4308 50) Examples.three_blocks) in
  Stats._root s' = 4358
  /\ Stats.next (Stats.read Fixtures.garbage 4358 s') = 4096
  /\ Stats.previous (Stats.read Fixtures.garbage 4096 s') = 4358.
Proof.
  destruct (@deallocate_inner_splices _ (Affix.ops (Bump.ops false) 56)
              Fixtures.callerSize_and_callerFile (Affix.prefix 56)
              Fixtures.garbage (Block.mk 4308 50) Examples.three_blocks
              eq_refl eq_refl
              ltac:(vm_compute; intro; discriminate)
              ltac:(vm_compute; intro; discriminate)
              ltac:(vm_compute; intro; discriminate)
              ltac:(vm_compute; intro; discriminate))
    as [H1 [H2 H3]].
  cbv zeta. split; [exact H1 |]. split; [exact H2 |].
  apply H3. vm_compute. intro. discriminate.
Defined.

Lemma run_without_state_witness :
  Stats.links
    (@Stats.run _ (Bump.ops false) Fixtures.only_callerSize (fun _ _ => 0)
       Fixtures.refuse Fixtures.refuse Fixtures.garbage Examples.three_calls
       Fixtures.stats)
  = Stats.links Fixtures.stats.
Proof.
  apply (@run_without_state _ (Bump.ops false) Fixtures.only_callerSize
           (fun _ _ => 0) Fixtures.refuse Fixtures.refuse Fixtures.garbage
           Examples.three_calls Fixtures.stats).
  reflexivity.
Defined.

Lemma deallocate_head_root_witness :
  Stats._root
    (snd (Fixtures.affix_deallocate Fixtures.callerSize_and_callerFile
            (Block.mk 4308 50) Examples.two_blocks)) = 0.
Proof.
  apply (@deallocate_head_root _ (Affix.ops (Bump.ops false) 56)
           Fixtures.callerSize_and_callerFile (Affix.prefix 56)
           Fixtures.garbage (Block.mk 4308 50) Examples.two_blocks);
    reflexivity.
Defined.

(** * The used-memory generator *)

Section used_mem_generator.
Context {A : Type} (Ops : Allocator.ops A).
Variable BytesPerBitMarker : Z.

(** X27: [withAUsedPatternOf] reads its pattern up to the first NUL and
    acts on the characters ['0'] and ['1'] only: any other character is
    skipped, so a pattern and the string of its markers give the same
    generator, whatever the allocator. *)
Theorem pattern_is_its_markers (pattern : list ascii)
    (g : UsedMemGenerator.t A) :
  UsedMemGenerator.withAUsedPatternOf BytesPerBitMarker pattern g
  = UsedMemGenerator.withAUsedPatternOf BytesPerBitMarker
      (UsedMemGenerator.markers pattern) g.
Proof.
  unfold UsedMemGenerator.markers. revert g.
  induction pattern as [| c p IH]; intros g; [reflexivity |].
  cbn [UsedMemGenerator.withAUsedPatternOf UsedMemGenerator.text].
  destruct (Ascii.eqb c zero) eqn:Hz; [reflexivity |].
  cbn [List.filter]. unfold UsedMemGenerator.is_marker.
  destruct (Ascii.eqb c "1") eqn:H1; cbn [orb].
  - cbn [UsedMemGenerator.withAUsedPatternOf]. rewrite Hz, H1.
    destruct (Allocator.allocate BytesPerBitMarker _). apply IH.
  - destruct (Ascii.eqb c "0") eqn:H0.
    + cbn [UsedMemGenerator.withAUsedPatternOf]. rewrite Hz, H1, H0.
      destruct (Allocator.allocate BytesPerBitMarker _). apply IH.
    + apply IH.
Qed.

(** X28: each ['1'] of the pattern adds one block to the used blocks and
    each ['0'] one block to the blocks freed later, after those already
    there; the allocator is asked once per marker, for [BytesPerBitMarker]
    bytes, and for nothing else. *)
Theorem pattern_allocates_per_marker (pattern : list ascii)
    (g : UsedMemGenerator.t (Spy.t A)) :
  let g' := @UsedMemGenerator.withAUsedPatternOf _ (Spy.ops Ops)
              BytesPerBitMarker pattern g in
  Spy.calls (UsedMemGenerator._allocator g')
  = Spy.calls (UsedMemGenerator._allocator g)
    ++ repeat (Spy.Allocate BytesPerBitMarker)
         (UsedMemGenerator.ones pattern + UsedMemGenerator.zeros pattern)
  /\ (exists used,
        UsedMemGenerator._usedBlocks g' = UsedMemGenerator._usedBlocks g ++ used
        /\ length used = UsedMemGenerator.ones pattern)
  /\ (exists freed,
        UsedMemGenerator._freedLater g' = UsedMemGenerator._freedLater g ++ freed
        /\ length freed = UsedMemGenerator.zeros pattern).
Proof.
  cbv zeta. unfold UsedMemGenerator.ones, UsedMemGenerator.zeros. revert g.
  induction pattern as [| c p IH]; intros g.
  - cbn. rewrite app_nil_r. repeat split; exists []; rewrite app_nil_r;
      split; reflexivity.
  - cbn [UsedMemGenerator.withAUsedPatternOf UsedMemGenerator.text].
    destruct (Ascii.eqb c zero) eqn:Hz.
    { cbn. rewrite app_nil_r. repeat split; exists []; rewrite app_nil_r;
        split; reflexivity. }
    cbn [List.filter].
    destruct (Ascii.eqb_spec c "1") as [-> | H1].
    + cbn [Ascii.eqb Bool.eqb length Nat.add].
      change (Ascii.eqb "1" "0") with false. cbn iota.
      cbn [Allocator.allocate Spy.ops]. unfold Spy.allocate.
      destruct (Allocator.allocate BytesPerBitMarker
                  (Spy.inner (UsedMemGenerator._allocator g))) as [b a].
      match goal with |- context [UsedMemGenerator.withAUsedPatternOf _ _ ?g0] =>
        destruct (IH g0) as [Hc [[used [Hu Hlu]] [freed [Hf Hlf]]]] end.
      rewrite Hc, Hu, Hf.
      cbn [UsedMemGenerator._allocator UsedMemGenerator._usedBlocks
           UsedMemGenerator._freedLater Spy.calls repeat].
      rewrite <- !app_assoc. split; [reflexivity |]. split.
      * exists (b :: used). split; [reflexivity | cbn [length]; lia].
      * exists freed. split; [reflexivity | exact Hlf].
    + destruct (Ascii.eqb_spec c "0") as [-> | H0].
      * cbn [length]. rewrite Nat.add_succ_r. cbn [repeat].
        cbn [Allocator.allocate Spy.ops]. unfold Spy.allocate.
        destruct (Allocator.allocate BytesPerBitMarker
                    (Spy.inner (UsedMemGenerator._allocator g))) as [b a].
        match goal with
          |- context [UsedMemGenerator.withAUsedPatternOf _ _ ?g0] =>
          destruct (IH g0) as [Hc [[used [Hu Hlu]] [freed [Hf Hlf]]]] end.
        rewrite Hc, Hu, Hf.
        cbn [UsedMemGenerator._allocator UsedMemGenerator._usedBlocks
             UsedMemGenerator._freedLater Spy.calls].
        rewrite <- !app_assoc. split; [reflexivity |]. split.
        -- exists used. split; [reflexivity | exact Hlu].
        -- exists (b :: freed). split; [reflexivity | cbn [length]; lia].
      * apply IH.
Qed.

Lemma spy_release blocks (a : Spy.t A) :
  Spy.calls (snd (@UsedMemGenerator.release _ (Spy.ops Ops) blocks a))
  = Spy.calls a ++ map Spy.Deallocate blocks
  /\ length (fst (@UsedMemGenerator.release _ (Spy.ops Ops) blocks a))
     = length blocks.
Proof.
  revert a. induction blocks as [| b blocks IH]; intros a;
    cbn [UsedMemGenerator.release map].
  - rewrite app_nil_r. split; reflexivity.
  - cbn [Allocator.deallocate Spy.ops]. unfold Spy.deallocate.
    destruct (Allocator.deallocate b (Spy.inner a)) as [b' a'].
    match goal with |- context [UsedMemGenerator.release _ ?a0] =>
      destruct (IH a0) as [Hc Hl];
      destruct (UsedMemGenerator.release blocks a0) as [rest a''] end.
    cbn [fst snd Spy.calls length] in *. rewrite Hc, Hl, <- app_assoc.
    split; reflexivity.
Qed.

(** X29: [build] gives each block of the blocks to free later to the
    allocator's [deallocate], once, in the order of the pattern, and calls
    the allocator for nothing else; the used blocks are returned as they
    are and stay in the generator. *)
Theorem build_releases_freed_blocks (g : UsedMemGenerator.t (Spy.t A)) :
  let r := @UsedMemGenerator.build _ (Spy.ops Ops) g in
  fst r = UsedMemGenerator._usedBlocks g
  /\ UsedMemGenerator._usedBlocks (snd r) = UsedMemGenerator._usedBlocks g
  /\ Spy.calls (UsedMemGenerator._allocator (snd r))
     = Spy.calls (UsedMemGenerator._allocator g)
       ++ map Spy.Deallocate (UsedMemGenerator._freedLater g)
  /\ length (UsedMemGenerator._freedLater (snd r))
     = length (UsedMemGenerator._freedLater g).
Proof.
  cbv zeta. unfold UsedMemGenerator.build.
  destruct (spy_release (UsedMemGenerator._freedLater g)
              (UsedMemGenerator._allocator g)) as [Hc Hl].
  destruct (UsedMemGenerator.release _ _) as [freed a].
  cbn [fst snd UsedMemGenerator._usedBlocks UsedMemGenerator._allocator
       UsedMemGenerator._freedLater] in *.
  repeat split; assumption.
Qed.

End used_mem_generator.

(** The pattern "1 01" over a bump allocator at 4096, 8 bytes a marker:
    the used blocks are the first and the third, the second is freed by
    [build]. *)
Lemma used_pattern_example :
  let g := @UsedMemGenerator.withAUsedPatternOf _ (Bump.ops false) 8
             ["1"; " "; "0"; "1"]%char (UsedMemGenerator.create 4096) in
  UsedMemGenerator._usedBlocks g = [Block.mk 4096 8; Block.mk 4112 8]
  /\ UsedMemGenerator._freedLater g = [Block.mk 4104 8]
  /\ @UsedMemGenerator.build _ (Bump.ops false) g
     = ([Block.mk 4096 8; Block.mk 4112 8],
        UsedMemGenerator.mk 4120 [Block.mk 4096 8; Block.mk 4112 8]
          [Block.empty]).
Proof. cbv zeta. repeat split; reflexivity. Qed.
